(** * BrowserEnv: the supervised browser worker of
      openhands/runtime/browser/browser_env.py

    A shallow embedding of the supervisor ([BrowserEnv.__init__],
    [init_browser], [step], [check_alive], [close]) and of the worker loop
    ([browser_process]).  Python objects become records whose attributes may
    be unset, Python exceptions become an outcome type, and everything the
    code observes from outside (the clock, the shutdown flag, the pipe, the
    worker processes, uuid4, the gym environment) lives in a [World] record
    that is threaded through a state-and-exception monad.  Times are integer
    milliseconds. *)

From Stdlib Require Import ZArith Lia Bool.

From stdpp Require Import base list strings.

Set Warnings "-register-all".

Open Scope string_scope.

Open Scope list_scope.

Open Scope Z_scope.

(** ** Python values that travel over the pipe *)

Inductive PyVal :=
| VNone
| VStr (s : string)
| VList (l : list PyVal)
| VDict (d : list (string * PyVal))
| VObj (tag : nat).

(** A dict keeps insertion order: an association list. *)
Definition Dict := list (string * PyVal).

(** The payload of an envelope: [None] for control messages, else a dict. *)
Definition Payload := option Dict.

(** An envelope is the tuple [(id, payload)] sent with [Connection.send]. *)
Definition Envelope := (string * Payload)%type.

Definition SHUTDOWN := "SHUTDOWN".

Definition IS_ALIVE := "IS_ALIVE".

Definition ALIVE := "ALIVE".

Definition BROWSER_EVAL_GET_GOAL_ACTION := "GET_EVAL_GOAL".

Definition BROWSER_EVAL_GET_REWARDS_ACTION := "GET_EVAL_REWARDS".

(** [poll(timeout=0.01)] in [step] and in the worker loop. *)
Definition POLL_INTERVAL : Z := 10.

(** [self.process.join(5)] in [close]. *)
Definition JOIN_GRACE : Z := 5000.

(** [self.check_alive(timeout=200)] in [init_browser]. *)
Definition INIT_PROBE_TIMEOUT : Z := 200000.

(** [tenacity.wait_fixed(1)] and [tenacity.stop_after_attempt(5)]. *)
Definition RETRY_WAIT : Z := 1000.

Definition MAX_ATTEMPTS : nat := 5.

(** ** Exceptions *)

Inductive Exc :=
| AttributeError (attr : string)
| OSError (msg : string)
| AssertionError
| TypeError
| KeyError (key : string)
| ValueError
| ImportError
| TimeoutError
| BrowserInitException
| RetryError            (* tenacity.RetryError, wrapping the last attempt *)
| KeyboardInterrupt.

(** [except Exception] catches everything but the [BaseException]-only
    classes; of those only [KeyboardInterrupt] occurs here. *)
Definition is_Exception (e : Exc) : bool :=
  match e with KeyboardInterrupt => false | _ => true end.

Definition is_BrowserInitException (e : Exc) : bool :=
  match e with BrowserInitException => true | _ => false end.

(** The result of a call: a value, or a raised exception. *)
Inductive Outcome (A : Type) :=
| Ok (a : A)
| Raise (e : Exc).

Arguments Ok {A} a.

Arguments Raise {A} e.

(** The result of a call into a library that runs no code of the worker:
    a value, or an [Exception] raised by the call.  ([KeyboardInterrupt]
    comes from the operator's signal only.) *)
Inductive LibResult :=
| Gives (v : PyVal)
| Fails (e : Exc) (He : is_Exception e = true).

(** ** Worker processes as the supervisor sees them *)

(** How a spawned worker will behave; fixed by the outside world. *)
Record Temper := mkTemper {
  start_fails : bool;      (* Process.start() raises in the parent *)
  crashes : bool;          (* browser_process returns before serving *)
  heeds_shutdown : bool;   (* exits within the grace period on SHUTDOWN *)
  heeds_term : bool        (* exits within the grace period on SIGTERM *)
}.

Inductive PState :=
| Unstarted              (* Process(...) built, start() not done *)
| Running
| Exiting                (* will be gone at the next join *)
| Exited.

Record Proc := mkProc { temper : Temper; pstate : PState }.

Definition proc_alive (p : Proc) : bool :=
  match pstate p with Running | Exiting => true | _ => false end.

(** A [Connection] object: only whether [close()] was called on it. *)
Record Conn := mkConn { conn_closed : bool }.

(** ** The [BrowserEnv] object

    An attribute that [__init__] may leave unset is an [option]; reading an
    unset attribute raises [AttributeError]. *)
Record BrowserEnv := mkBrowserEnv {
  eval_mode : bool;
  eval_dir : string;
  browsergym_eval_env : option string;
  browser_side : option Conn;
  agent_side : option Conn;
  process : option nat;               (* handle into the process table *)
  eval_goal : option PyVal;           (* set by browser_process only *)
  goal_image_urls : option (list PyVal);
  eval_rewards : option (list PyVal)
}.

Inductive Level := DEBUG | INFO | WARNING | ERROR.

Definition LogEntry := (Level * string * option Exc)%type.

(** One call made on the wrapped gym environment. *)
Inductive EnvCall := EnvReset | EnvStep (action : PyVal) | EnvClose.

(** ** The wrapped environment and the other external collaborators

    What [gym.make], [env.reset], [env.step] and [env.close] do is decided
    outside; so are the payload transformations and [json.dumps].  The
    record also keeps the calls made on the environment and the pending
    interrupt of the operator: [sigint = Some k] means that SIGINT arrives
    after [k] more operations of the worker. *)
Record Gym := mkGym {
  import_raises : bool;               (* the task import raises ImportError *)
  make_raises : option Exc;           (* what gym.make raises, if anything *)
  reset_obs : Dict;                   (* the observation of env.reset() *)
  step_result : list EnvCall -> PyVal -> Outcome (Dict * PyVal);
                                      (* env.step(action) after these calls *)
  close_raises : option Exc;          (* what env.close() raises *)
  env_calls : list EnvCall;           (* the calls made so far *)
  sigint : option nat;
  json_dumps : list PyVal -> string;
  flatten_dom_to_str : PyVal -> LibResult;
  html_handle : PyVal -> LibResult;   (* html_text_converter.handle *)
  overlay_som : PyVal -> PyVal -> LibResult;
  image_to_png_base64_url : PyVal -> LibResult;
  item : PyVal -> LibResult           (* .item() of an opaque object *)
}.

(** ** The world of one OS process *)
Record World := mkWorld {
  BROWSERGYM_AVAILABLE : bool;        (* module flag, fixed at import *)
  now : Z;                            (* time.time(), in ms *)
  exit_at : option Z;                 (* when the shutdown flag gets set *)
  inbox : list (Z * Envelope);        (* envelopes heading to this end, with
                                         their arrival times, in FIFO order *)
  outbox : list Envelope;             (* envelopes sent from this end *)
  procs : list Proc;                  (* process table *)
  spawn : nat -> Temper;              (* temper of the n-th process *)
  uuid_gen : nat -> string;           (* successive values of str(uuid4()) *)
  uuid_count : nat;
  atexit : nat;                       (* number of atexit.register(close) *)
  log : list LogEntry;
  gym : Gym
}.

Record Sys := mkSys { self : BrowserEnv; os : World }.

(** *** Attribute and field updates *)

Definition set_process (v : option nat) (b : BrowserEnv) : BrowserEnv :=
  mkBrowserEnv (eval_mode b) (eval_dir b) (browsergym_eval_env b)
    (browser_side b) (agent_side b) v
    (eval_goal b) (goal_image_urls b) (eval_rewards b).

Definition set_agent_side (v : option Conn) (b : BrowserEnv) : BrowserEnv :=
  mkBrowserEnv (eval_mode b) (eval_dir b) (browsergym_eval_env b)
    (browser_side b) v (process b)
    (eval_goal b) (goal_image_urls b) (eval_rewards b).

Definition set_browser_side (v : option Conn) (b : BrowserEnv) : BrowserEnv :=
  mkBrowserEnv (eval_mode b) (eval_dir b) (browsergym_eval_env b)
    v (agent_side b) (process b)
    (eval_goal b) (goal_image_urls b) (eval_rewards b).

Definition set_now (t : Z) (w : World) : World :=
  mkWorld (BROWSERGYM_AVAILABLE w) t (exit_at w) (inbox w) (outbox w)
    (procs w) (spawn w) (uuid_gen w) (uuid_count w) (atexit w) (log w) (gym w).

Definition set_inbox (i : list (Z * Envelope)) (w : World) : World :=
  mkWorld (BROWSERGYM_AVAILABLE w) (now w) (exit_at w) i (outbox w)
    (procs w) (spawn w) (uuid_gen w) (uuid_count w) (atexit w) (log w) (gym w).

Definition set_outbox (o : list Envelope) (w : World) : World :=
  mkWorld (BROWSERGYM_AVAILABLE w) (now w) (exit_at w) (inbox w) o
    (procs w) (spawn w) (uuid_gen w) (uuid_count w) (atexit w) (log w) (gym w).

Definition set_procs (p : list Proc) (w : World) : World :=
  mkWorld (BROWSERGYM_AVAILABLE w) (now w) (exit_at w) (inbox w) (outbox w)
    p (spawn w) (uuid_gen w) (uuid_count w) (atexit w) (log w) (gym w).

Definition set_uuid_count (n : nat) (w : World) : World :=
  mkWorld (BROWSERGYM_AVAILABLE w) (now w) (exit_at w) (inbox w) (outbox w)
    (procs w) (spawn w) (uuid_gen w) n (atexit w) (log w) (gym w).

Definition set_atexit (n : nat) (w : World) : World :=
  mkWorld (BROWSERGYM_AVAILABLE w) (now w) (exit_at w) (inbox w) (outbox w)
    (procs w) (spawn w) (uuid_gen w) (uuid_count w) n (log w) (gym w).

Definition set_log (l : list LogEntry) (w : World) : World :=
  mkWorld (BROWSERGYM_AVAILABLE w) (now w) (exit_at w) (inbox w) (outbox w)
    (procs w) (spawn w) (uuid_gen w) (uuid_count w) (atexit w) l (gym w).

Definition set_gym (g : Gym) (w : World) : World :=
  mkWorld (BROWSERGYM_AVAILABLE w) (now w) (exit_at w) (inbox w) (outbox w)
    (procs w) (spawn w) (uuid_gen w) (uuid_count w) (atexit w) (log w) g.

Definition set_env_calls (c : list EnvCall) (g : Gym) : Gym :=
  mkGym (import_raises g) (make_raises g) (reset_obs g) (step_result g)
    (close_raises g) c (sigint g) (json_dumps g) (flatten_dom_to_str g)
    (html_handle g) (overlay_som g) (image_to_png_base64_url g) (item g).

Definition set_sigint (k : option nat) (g : Gym) : Gym :=
  mkGym (import_raises g) (make_raises g) (reset_obs g) (step_result g)
    (close_raises g) (env_calls g) k (json_dumps g) (flatten_dom_to_str g)
    (html_handle g) (overlay_som g) (image_to_png_base64_url g) (item g).

Definition set_eval_state (goal : option PyVal) (urls : option (list PyVal))
    (rewards : option (list PyVal)) (b : BrowserEnv) : BrowserEnv :=
  mkBrowserEnv (eval_mode b) (eval_dir b) (browsergym_eval_env b)
    (browser_side b) (agent_side b) (process b) goal urls rewards.

Definition set_browsergym_eval_env (v : option string) (b : BrowserEnv)
  : BrowserEnv :=
  mkBrowserEnv (eval_mode b) (eval_dir b) v
    (browser_side b) (agent_side b) (process b)
    (eval_goal b) (goal_image_urls b) (eval_rewards b).

Definition on_gym (f : Gym -> Gym) (w : World) : World := set_gym (f (gym w)) w.

Definition on_self (f : BrowserEnv -> BrowserEnv) (s : Sys) : Sys :=
  mkSys (f (self s)) (os s).

Definition on_os (f : World -> World) (s : Sys) : Sys :=
  mkSys (self s) (f (os s)).

(** ** The monad: state, exceptions, and "does not return" *)

(** [None] means the call has not returned: it blocks for ever, or the fuel
    of a loop ran out. *)
Definition M (A : Type) : Type := Sys -> option (Outcome A * Sys).

Definition ret {A} (a : A) : M A := fun s => Some (Ok a, s).

Definition raise {A} (e : Exc) : M A := fun s => Some (Raise e, s).

Definition bind {A B} (m : M A) (k : A -> M B) : M B := fun s =>
  match m s with
  | Some (Ok a, s') => k a s'
  | Some (Raise e, s') => Some (Raise e, s')
  | None => None
  end.

Notation "x <- m ;; k" := (bind m (fun x => k))
  (at level 100, m at next level, right associativity).

Notation "m ;;; k" := (bind m (fun _ => k))
  (at level 100, right associativity).

(** [try: m except Exception as e: h e] *)
Definition try_except {A} (m : M A) (h : Exc -> M A) : M A := fun s =>
  match m s with
  | Some (Raise e, s') => if is_Exception e then h e s' else Some (Raise e, s')
  | r => r
  end.

Definition modify (f : Sys -> Sys) : M unit := fun s => Some (Ok tt, f s).

Definition gets {A} (f : Sys -> A) : M A := fun s => Some (Ok (f s), s).

(** A call that never returns. *)
Definition block {A} : M A := fun _ => None.

(** ** Primitives *)

Definition logger (lvl : Level) (msg : string) (e : option Exc) : M unit :=
  modify (on_os (fun w => set_log (log w ++ [(lvl, msg, e)]) w)).

(** [time.time()] *)
Definition time_time : M Z := gets (fun s => now (os s)).

(** [time.sleep] *)
Definition sleep (d : Z) : M unit :=
  modify (on_os (fun w => set_now (now w + d) w)).

Definition flag_set (w : World) : bool :=
  match exit_at w with
  | Some t => t <=? now w
  | None => false
  end.

(** [should_exit()] and [should_continue()] of the shutdown listener. *)
Definition should_exit : M bool := gets (fun s => flag_set (os s)).

Definition should_continue : M bool := gets (fun s => negb (flag_set (os s))).

(** [str(uuid.uuid4())] *)
Definition uuid4 : M string := fun s =>
  let w := os s in
  Some (Ok (uuid_gen w (uuid_count w)),
        on_os (set_uuid_count (S (uuid_count w))) s).

(** Reading [self.agent_side], [self.browser_side], [self.process]. *)
Definition get_agent_side : M Conn := fun s =>
  match agent_side (self s) with
  | Some c => Some (Ok c, s)
  | None => Some (Raise (AttributeError "agent_side"), s)
  end.

Definition get_browser_side : M Conn := fun s =>
  match browser_side (self s) with
  | Some c => Some (Ok c, s)
  | None => Some (Raise (AttributeError "browser_side"), s)
  end.

Definition get_process : M nat := fun s =>
  match process (self s) with
  | Some p => Some (Ok p, s)
  | None => Some (Raise (AttributeError "process"), s)
  end.

(** Every [Connection] method starts with [_check_closed()]. *)
Definition check_closed (c : Conn) : M unit :=
  if conn_closed c then raise (OSError "handle is closed") else ret tt.

(** A SHUTDOWN envelope that reaches a running worker which heeds it makes
    that worker leave its loop. *)
Definition hear_shutdown (p : Proc) : Proc :=
  match pstate p with
  | Running => if heeds_shutdown (temper p) then mkProc (temper p) Exiting else p
  | _ => p
  end.

Definition deliver (e : Envelope) (w : World) : World :=
  let w' := set_outbox (outbox w ++ [e]) w in
  if String.eqb (fst e) SHUTDOWN then set_procs (hear_shutdown <$> procs w') w'
  else w'.

(** [conn.send(e)] on this process's end [c].  The pipe is taken to have
    room for the envelope: a send that finds the pipe full blocks until the
    other end reads, which no time-out of this class covers. *)
Definition conn_send (c : Conn) (e : Envelope) : M unit :=
  check_closed c ;;; modify (on_os (deliver e)).

(** [conn.poll(timeout)]: true as soon as the head of the queue has arrived,
    false after the whole timeout otherwise.  A negative timeout polls
    without blocking, as 0 does. *)
Definition conn_poll (c : Conn) (timeout : Z) : M bool :=
  check_closed c ;;;
  (fun s =>
     let w := os s in
     let wait := Z.max 0 timeout in
     match inbox w with
     | (a, _) :: _ =>
         if a <=? now w + wait
         then Some (Ok true, on_os (set_now (Z.max (now w) a)) s)
         else Some (Ok false, on_os (set_now (now w + wait)) s)
     | [] => Some (Ok false, on_os (set_now (now w + wait)) s)
     end).

(** [conn.recv()]: blocks until the head of the queue has arrived. *)
Definition conn_recv (c : Conn) : M Envelope :=
  check_closed c ;;;
  (fun s =>
     let w := os s in
     match inbox w with
     | (a, e) :: rest =>
         Some (Ok e, on_os (fun w => set_inbox rest (set_now (Z.max (now w) a) w)) s)
     | [] => None
     end).

(** [conn.close()]; closing twice is harmless. *)
Definition close_agent_side : M unit :=
  c <- get_agent_side ;; modify (on_self (set_agent_side (Some (mkConn true)))).

Definition close_browser_side : M unit :=
  c <- get_browser_side ;; modify (on_self (set_browser_side (Some (mkConn true)))).

(** *** multiprocessing.Process *)

Definition lookup_proc (p : nat) (s : Sys) : option Proc := procs (os s) !! p.

Definition update_proc (p : nat) (f : Proc -> Proc) : M unit :=
  modify (on_os (fun w => set_procs (alter f p (procs w)) w)).

(** [multiprocessing.Process(target=self.browser_process)] *)
Definition Process_new : M nat := fun s =>
  let w := os s in
  let pid := length (procs w) in
  Some (Ok pid, on_os (set_procs (procs w ++ [mkProc (spawn w pid) Unstarted])) s).

Definition either_closed (b : BrowserEnv) : bool :=
  match browser_side b, agent_side b with
  | Some c1, Some c2 => conn_closed c1 || conn_closed c2
  | _, _ => false
  end.

(** [process.start()].  Under the forced 'spawn' start method the target
    (a bound method of [self]) is pickled, which reads the file descriptor
    of both connections and so raises on a closed one. *)
Definition Process_start (p : nat) : M unit := fun s =>
  match lookup_proc p s with
  | Some pr =>
      if either_closed (self s) then Some (Raise (OSError "handle is closed"), s)
      else if start_fails (temper pr) then Some (Raise (OSError "spawn failed"), s)
      else update_proc p (fun pr =>
             mkProc (temper pr) (if crashes (temper pr) then Exited else Running)) s
  | None => Some (Raise AssertionError, s)
  end.

(** [process.is_alive()] *)
Definition Process_is_alive (p : nat) : M bool := fun s =>
  match lookup_proc p s with
  | Some pr => Some (Ok (proc_alive pr), s)
  | None => Some (Raise AssertionError, s)
  end.

(** [process.join(timeout)]: returns at once when the process is gone or on
    its way out, else after the whole timeout. *)
Definition Process_join (p : nat) (timeout : Z) : M unit := fun s =>
  match lookup_proc p s with
  | Some pr =>
      match pstate pr with
      | Unstarted => Some (Raise AssertionError, s)
      | Running => sleep timeout s
      | Exiting => update_proc p (fun pr => mkProc (temper pr) Exited) s
      | Exited => Some (Ok tt, s)
      end
  | None => Some (Raise AssertionError, s)
  end.

(** [process.terminate()]: SIGTERM. *)
Definition Process_terminate (p : nat) : M unit := fun s =>
  match lookup_proc p s with
  | Some pr =>
      match pstate pr with
      | Unstarted => Some (Raise (AttributeError "terminate"), s)
      | Running =>
          if heeds_term (temper pr)
          then update_proc p (fun pr => mkProc (temper pr) Exiting) s
          else Some (Ok tt, s)
      | _ => Some (Ok tt, s)
      end
  | None => Some (Raise AssertionError, s)
  end.

(** [process.kill()]: SIGKILL cannot be ignored. *)
Definition Process_kill (p : nat) : M unit := fun s =>
  match lookup_proc p s with
  | Some pr =>
      match pstate pr with
      | Unstarted => Some (Raise (AttributeError "kill"), s)
      | Running => update_proc p (fun pr => mkProc (temper pr) Exiting) s
      | _ => Some (Ok tt, s)
      end
  | None => Some (Raise AssertionError, s)
  end.

(** ** BrowserEnv.check_alive *)

Definition check_alive (timeout : Z) : M bool :=
  c <- get_agent_side ;;
  conn_send c (IS_ALIVE, None) ;;;
  c <- get_agent_side ;;
  ready <- conn_poll c timeout ;;
  if ready then
    c <- get_agent_side ;;
    e <- conn_recv c ;;
    if String.eqb (fst e) ALIVE then ret true
    else
      logger DEBUG "Browser env is not alive. Response ID: " None ;;;
      ret false
  else ret false.

(** ** BrowserEnv.step *)

(** [{'action': action_str}] *)
Definition request_of (action_str : string) : Payload :=
  Some [("action", VStr action_str)].

(** [dict(obs)]: a copy of a dict; [dict(None)] raises. *)
Definition dict_of (obs : Payload) : M Dict :=
  match obs with
  | Some d => ret d
  | None => raise TypeError
  end.

(** The [while True] loop of [step]; [fuel] bounds the number of turns. *)
Fixpoint step_wait (fuel : nat) (unique_request_id : string)
    (start_time timeout : Z) : M Dict :=
  match fuel with
  | O => block
  | S fuel' =>
      stop <- should_exit ;;
      t <- time_time ;;
      if stop || (timeout <? t - start_time) then raise TimeoutError
      else
        c <- get_agent_side ;;
        ready <- conn_poll c POLL_INTERVAL ;;
        if ready then
          c <- get_agent_side ;;
          e <- conn_recv c ;;
          if String.eqb (fst e) unique_request_id then dict_of (snd e)
          else step_wait fuel' unique_request_id start_time timeout
        else step_wait fuel' unique_request_id start_time timeout
  end.

Definition step (fuel : nat) (action_str : string) (timeout : Z) : M Dict :=
  unique_request_id <- uuid4 ;;
  c <- get_agent_side ;;
  conn_send c (unique_request_id, request_of action_str) ;;;
  start_time <- time_time ;;
  step_wait fuel unique_request_id start_time timeout.

(** ** BrowserEnv.close *)

Definition self_process_is_alive : M bool :=
  p <- get_process ;; Process_is_alive p.

Definition self_process_join (timeout : Z) : M unit :=
  p <- get_process ;; Process_join p timeout.

(** The inner [if self.process.is_alive():] of [close]: kill and join. *)
Definition escalate_kill : M unit :=
  a <- self_process_is_alive ;;
  if a then
    p <- get_process ;;
    Process_kill p ;;;
    self_process_join JOIN_GRACE
  else ret tt.

(** The outer [if self.process.is_alive():] of [close]: log, terminate,
    join, then the inner one. *)
Definition escalate_terminate : M unit :=
  a <- self_process_is_alive ;;
  if a then
    logger ERROR "Browser process did not terminate, forcefully terminating..." None ;;;
    p <- get_process ;;
    Process_terminate p ;;;
    self_process_join JOIN_GRACE ;;;
    escalate_kill
  else ret tt.

(** The body of the [try] block of [close]. *)
Definition close_ladder : M unit :=
  c <- get_agent_side ;;
  conn_send c (SHUTDOWN, None) ;;;
  self_process_join JOIN_GRACE ;;;
  escalate_terminate ;;;
  close_agent_side ;;;
  close_browser_side.

Definition close : M unit :=
  a <- self_process_is_alive ;;
  if negb a then ret tt
  else
    try_except close_ladder
      (fun e => logger ERROR "Encountered an error when closing browser env: " (Some e)).

(** ** BrowserEnv.init_browser *)

(** The [try] block of [init_browser]: build the process and start it;
    an exception is logged and raised again. *)
Definition spawn_worker : M unit :=
  try_except
    (p <- Process_new ;;
     modify (on_self (set_process (Some p))) ;;;
     p <- get_process ;;
     Process_start p)
    (fun e =>
       logger ERROR "Failed to start browser process: " (Some e) ;;;
       raise e).

(** The undecorated method body: one attempt. *)
Definition init_browser_attempt : M unit :=
  logger DEBUG "Starting browser env..." None ;;;
  spawn_worker ;;;
  ok <- check_alive INIT_PROBE_TIMEOUT ;;
  if negb ok then
    close ;;;
    raise BrowserInitException
  else ret tt.

(** [tenacity.retry(wait=wait_fixed(1),
                    stop=stop_after_attempt(5) | stop_if_should_exit(),
                    retry=retry_if_exception_type(BrowserInitException))].
    After an attempt that raised a [BrowserInitException] the stop condition
    is evaluated: when it holds tenacity raises [RetryError] (no [reraise]
    is configured), else it sleeps and calls the function again.  Any other
    exception leaves at once.  [attempts_left] is 5 minus the number of the
    attempt being made. *)
Fixpoint tenacity_retry (attempts_left : nat) (f : M unit) : M unit := fun s =>
  match f s with
  | Some (Raise e, s') =>
      if is_BrowserInitException e then
        match attempts_left with
        | O => Some (Raise RetryError, s')
        | S n =>
            if flag_set (os s') then Some (Raise RetryError, s')
            else (sleep RETRY_WAIT ;;; tenacity_retry n f) s'
        end
      else Some (Raise e, s')
  | r => r
  end.

Definition init_browser : M unit :=
  tenacity_retry (MAX_ATTEMPTS - 1) init_browser_attempt.

(** ** BrowserEnv.__init__ *)

(** [bool(browsergym_eval_env)] for a [str | None]. *)
Definition truthy (o : option string) : bool :=
  match o with
  | Some s => negb (String.eqb s "")
  | None => false
  end.

(** The object before any attribute is assigned. *)
Definition fresh_object : BrowserEnv :=
  mkBrowserEnv false "" None None None None None None None.

Definition BrowserEnv_init (browsergym_eval_env : option string) : M unit :=
  avail <- gets (fun s => BROWSERGYM_AVAILABLE (os s)) ;;
  modify (on_self (fun _ =>
    mkBrowserEnv (truthy browsergym_eval_env && avail) "" browsergym_eval_env
      None None None None None None)) ;;;
  (if truthy browsergym_eval_env && negb avail then
     logger WARNING
       "BrowserGym evaluation requested but browsergym not available. Disabling eval mode."
       None
   else ret tt) ;;;
  if avail then
    modify (on_self (fun b =>
      set_agent_side (Some (mkConn false))
        (set_browser_side (Some (mkConn false)) b))) ;;;
    init_browser ;;;
    modify (on_os (fun w => set_atexit (S (atexit w)) w))
  else
    logger WARNING "BrowserGym not available. Browser functionality disabled." None.

(** [BrowserEnv(browsergym_eval_env)] evaluated in world [w]. *)
Definition BrowserEnv_new (browsergym_eval_env : option string) (w : World)
  : option (Outcome unit * Sys) :=
  BrowserEnv_init browsergym_eval_env (mkSys fresh_object w).

(** ** The worker: [BrowserEnv.browser_process] *)

(** SIGINT makes Python raise [KeyboardInterrupt] in the main thread before
    its next operation; [sigint] counts the operations still to go. *)
Definition interruptible {A} (m : M A) : M A := fun s =>
  match sigint (gym (os s)) with
  | Some O => Some (Raise KeyboardInterrupt, on_os (on_gym (set_sigint None)) s)
  | Some (S k) => m (on_os (on_gym (set_sigint (Some k))) s)
  | None => m s
  end.

(** [try: m except KeyboardInterrupt: h] *)
Definition try_KeyboardInterrupt {A} (m : M A) (h : M A) : M A := fun s =>
  match m s with
  | Some (Raise KeyboardInterrupt, s') => h s'
  | r => r
  end.

(** [try: m except ImportError as e: h e] *)
Definition try_ImportError {A} (m : M A) (h : Exc -> M A) : M A := fun s =>
  match m s with
  | Some (Raise ImportError, s') => h ImportError s'
  | r => r
  end.

(** *** Dicts *)

Fixpoint dict_get (d : Dict) (k : string) : option PyVal :=
  match d with
  | [] => None
  | (k', v) :: rest => if String.eqb k' k then Some v else dict_get rest k
  end.

(** [d[k] = v]: an existing key keeps its place, a new one goes last. *)
Fixpoint dict_set (d : Dict) (k : string) (v : PyVal) : Dict :=
  match d with
  | [] => [(k, v)]
  | (k', v') :: rest =>
      if String.eqb k' k then (k, v) :: rest else (k', v') :: dict_set rest k v
  end.

(** [d[k]] *)
Definition subscript (d : Dict) (k : string) : M PyVal :=
  match dict_get d k with
  | Some v => ret v
  | None => raise (KeyError k)
  end.

(** [action_data[k]] on a payload, which may be [None]. *)
Definition payload_subscript (p : Payload) (k : string) : M PyVal :=
  match p with
  | Some d => subscript d k
  | None => raise TypeError
  end.

(** [v[k]] on a value that should be a dict. *)
Definition value_subscript (v : PyVal) (k : string) : M PyVal :=
  match v with
  | VDict d => subscript d k
  | _ => raise TypeError
  end.

(** [v == 'text'] *)
Definition is_str (v : PyVal) (text : string) : bool :=
  match v with
  | VStr s => String.eqb s text
  | _ => false
  end.

(** ['needle' in hay] *)
Fixpoint contains (needle hay : string) : bool :=
  String.prefix needle hay
  || match hay with
     | EmptyString => false
     | String _ rest => contains needle rest
     end.

(** *** The wrapped environment *)

Definition env_record (c : EnvCall) : M unit :=
  modify (on_os (on_gym (fun g => set_env_calls (env_calls g ++ [c]) g))).

(** [env.reset()] *)
Definition env_reset : M Dict :=
  interruptible
    (env_record EnvReset ;;; gets (fun s => reset_obs (gym (os s)))).

(** [env.step(action)]; only the observation and the reward are used. *)
Definition env_step (action : PyVal) : M (Dict * PyVal) :=
  interruptible
    (g <- gets (fun s => gym (os s)) ;;
     env_record (EnvStep action) ;;;
     match step_result g (env_calls g) action with
     | Ok r => ret r
     | Raise e => raise e
     end).

(** [env.close()] *)
Definition env_close : M unit :=
  interruptible
    (env_record EnvClose ;;;
     g <- gets (fun s => gym (os s)) ;;
     match close_raises g with
     | Some e => raise e
     | None => ret tt
     end).

(** The imports that register the evaluation tasks. *)
Definition task_import : M unit :=
  g <- gets (fun s => gym (os s)) ;;
  if import_raises g then raise ImportError else ret tt.

(** [gym.make(...)] *)
Definition gym_make : M unit :=
  interruptible
    (g <- gets (fun s => gym (os s)) ;;
     match make_raises g with
     | Some e => raise e
     | None => ret tt
     end).

(** *** Start-up: lines 99 to 133.  The result says whether an environment
    was made; [false] stands for the early [return]. *)

Definition make_eval_env : M bool :=
  name0 <- gets (fun s => browsergym_eval_env (self s)) ;;
  match name0 with
  | None => raise AssertionError
  | Some name0 =>
      logger INFO "Initializing browser env for web browsing evaluation." None ;;;
      (if negb (String.prefix "browsergym/" name0) then
         modify (on_self (set_browsergym_eval_env
                            (Some (String.append "browsergym/" name0))))
       else ret tt) ;;;
      try_ImportError
        (name <- gets (fun s => default "" (browsergym_eval_env (self s))) ;;
         (if contains "visualwebarena" name then task_import
          else if contains "webarena" name then task_import
          else if contains "miniwob" name then task_import
          else raise ValueError) ;;;
         gym_make ;;;
         ret true)
        (fun e =>
           logger ERROR "Failed to import browsergym environment: " (Some e) ;;;
           ret false)
  end.

Definition make_open_env : M bool :=
  try_except
    (gym_make ;;; ret true)
    (fun e =>
       logger ERROR "Failed to create browsergym environment: " (Some e) ;;;
       ret false).

(** *** Start-up: lines 134 to 153 *)

Definition set_eval_goal (v : PyVal) : M unit :=
  modify (on_self (fun b =>
    set_eval_state (Some v) (goal_image_urls b) (eval_rewards b) b)).

Definition get_eval_goal : M PyVal := fun s =>
  match eval_goal (self s) with
  | Some v => Some (Ok v, s)
  | None => Some (Raise (AttributeError "eval_goal"), s)
  end.

Definition get_goal_image_urls : M (list PyVal) := fun s =>
  match goal_image_urls (self s) with
  | Some v => Some (Ok v, s)
  | None => Some (Raise (AttributeError "goal_image_urls"), s)
  end.

Definition get_eval_rewards : M (list PyVal) := fun s =>
  match eval_rewards (self s) with
  | Some v => Some (Ok v, s)
  | None => Some (Raise (AttributeError "eval_rewards"), s)
  end.

(** [self.goal_image_urls.append(v)] *)
Definition append_goal_image_url (v : PyVal) : M unit :=
  urls <- get_goal_image_urls ;;
  modify (on_self (fun b =>
    set_eval_state (eval_goal b) (Some (urls ++ [v])) (eval_rewards b) b)).

(** [self.eval_rewards.append(v)] *)
Definition append_eval_reward (v : PyVal) : M unit :=
  rewards <- get_eval_rewards ;;
  modify (on_self (fun b =>
    set_eval_state (eval_goal b) (goal_image_urls b) (Some (rewards ++ [v])) b)).

(** [for message in obs['goal_object']: ...] *)
Fixpoint collect_goal_images (messages : list PyVal) : M unit :=
  match messages with
  | [] => ret tt
  | message :: rest =>
      ty <- value_subscript message "type" ;;
      (if is_str ty "image_url" then
         image_src <- value_subscript message "image_url" ;;
         image_src <- (match image_src with
                       | VDict d => subscript d "url"
                       | _ => ret image_src
                       end) ;;
         append_goal_image_url image_src
       else ret tt) ;;;
      collect_goal_images rest
  end.

Definition read_goal : M unit :=
  obs <- env_reset ;;
  logger INFO "Successfully called env.reset" None ;;;
  modify (on_self (set_eval_state (Some VNone) (Some []) (Some []))) ;;;
  em <- gets (fun s => eval_mode (self s)) ;;
  (if em then
     goal <- subscript obs "goal" ;;
     set_eval_goal goal ;;;
     (match dict_get obs "goal_object" with
      | Some (VList messages) =>
          (match messages with
           | first :: _ =>
               text <- value_subscript first "text" ;;
               set_eval_goal text
           | [] => ret tt
           end) ;;;
          collect_goal_images messages
      | Some _ => raise TypeError
      | None => ret tt
      end) ;;;
     logger DEBUG "Browsing goal: " None
   else ret tt) ;;;
  logger INFO "Browser env started." None.

(** *** The loop: lines 155 to 219 *)

(** What the body of the loop does next: go round again, or [return]. *)
Inductive Flow := Continue | Return.

(** [self.browser_side.send(e)] *)
Definition reply (e : Envelope) : M unit :=
  c <- get_browser_side ;;
  interruptible (conn_send c e).

(** A call into a library: its value, or the exception it raises. *)
Definition lib_call (r : LibResult) : M PyVal :=
  match r with
  | Gives v => ret v
  | Fails e _ => raise e
  end.

(** [v.item()]: [None], a [str], a [list] and a [dict] have no such
    method; what it gives on any other object is decided outside. *)
Definition call_item (g : Gym) (v : PyVal) : LibResult :=
  match v with
  | VObj _ => item g v
  | _ => Fails (AttributeError "item") eq_refl
  end.

(** Lines 197 to 211: the payload transformations. *)
Definition serialize_obs (obs : Dict) : M Dict :=
  g <- gets (fun s => gym (os s)) ;;
  dom <- subscript obs "dom_object" ;;
  html_str <- lib_call (flatten_dom_to_str g dom) ;;
  text <- lib_call (html_handle g html_str) ;;
  let obs := dict_set obs "text_content" text in
  shot <- subscript obs "screenshot" ;;
  let extra := default (VDict []) (dict_get obs "extra_element_properties") in
  marked <- lib_call (overlay_som g shot extra) ;;
  som <- lib_call (image_to_png_base64_url g marked) ;;
  let obs := dict_set obs "set_of_marks" som in
  shot <- subscript obs "screenshot" ;;
  png <- lib_call (image_to_png_base64_url g shot) ;;
  let obs := dict_set obs "screenshot" png in
  page <- subscript obs "active_page_index" ;;
  page <- lib_call (call_item g page) ;;
  let obs := dict_set obs "active_page_index" page in
  elapsed <- subscript obs "elapsed_time" ;;
  elapsed <- lib_call (call_item g elapsed) ;;
  ret (dict_set obs "elapsed_time" elapsed).

(** Lines 160 to 212: what is done with a received envelope. *)
Definition handle (e : Envelope) : M Flow :=
  let unique_request_id := fst e in
  let action_data := snd e in
  if String.eqb unique_request_id SHUTDOWN then
    logger DEBUG "SHUTDOWN recv, shutting down browser env..." None ;;;
    env_close ;;;
    ret Return
  else if String.eqb unique_request_id IS_ALIVE then
    reply (ALIVE, None) ;;;
    ret Continue
  else
    action <- payload_subscript action_data "action" ;;
    if is_str action BROWSER_EVAL_GET_GOAL_ACTION then
      goal <- get_eval_goal ;;
      urls <- get_goal_image_urls ;;
      reply (unique_request_id,
             Some [("text_content", goal); ("image_content", VList urls)]) ;;;
      ret Continue
    else
      action <- payload_subscript action_data "action" ;;
      if is_str action BROWSER_EVAL_GET_REWARDS_ACTION then
        rewards <- get_eval_rewards ;;
        g <- gets (fun s => gym (os s)) ;;
        reply (unique_request_id,
               Some [("text_content", VStr (json_dumps g rewards))]) ;;;
        ret Continue
      else
        action <- payload_subscript action_data "action" ;;
        r <- env_step action ;;
        em <- gets (fun s => eval_mode (self s)) ;;
        (if em then append_eval_reward (snd r) else ret tt) ;;;
        obs <- serialize_obs (fst r) ;;
        reply (unique_request_id, Some obs) ;;;
        ret Continue.

(** The body of the [while]: the [try] statement. *)
Definition serve_once : M Flow :=
  try_KeyboardInterrupt
    (c <- get_browser_side ;;
     ready <- interruptible (conn_poll c POLL_INTERVAL) ;;
     if ready then
       c <- get_browser_side ;;
       e <- interruptible (conn_recv c) ;;
       handle e
     else ret Continue)
    (logger DEBUG "Browser env process interrupted by user." None ;;;
     try_except env_close (fun _ => ret tt) ;;;
     ret Return).

(** [while should_continue(): ...]; [fuel] bounds the number of turns. *)
Fixpoint serve (fuel : nat) : M unit :=
  match fuel with
  | O => block
  | S fuel' =>
      go <- interruptible should_continue ;;
      if go then
        flow <- serve_once ;;
        match flow with
        | Continue => serve fuel'
        | Return => ret tt
        end
      else ret tt
  end.

Definition browser_process (fuel : nat) : M unit :=
  avail <- gets (fun s => BROWSERGYM_AVAILABLE (os s)) ;;
  if negb avail then
    logger ERROR "BrowserGym not available. Cannot start browser process." None
  else
    em <- gets (fun s => eval_mode (self s)) ;;
    made <- (if em then make_eval_env else make_open_env) ;;
    if made then
      read_goal ;;;
      serve fuel
    else ret tt.

(** * Vocabulary of the statements

    States reached along the way, measures, frame relations and sample
    worlds used by the properties below. *)

(** ** States of the supervisor *)

(** The agent end of the pipe exists and is open. *)
Definition agent_open (s : Sys) : Prop :=
  agent_side (self s) = Some (mkConn false).

(** The state after a successful [poll] and the [recv] that follows it. *)
Definition received (a : Z) (rest : list (Z * Envelope)) (s : Sys) : Sys :=
  on_os (fun w => set_inbox rest (set_now (Z.max (now w) a) w))
    (on_os (set_now (Z.max (now (os s)) a)) s).

(** The state after a [poll] that found nothing. *)
Definition waited (timeout : Z) (s : Sys) : Sys :=
  on_os (set_now (now (os s) + timeout)) s.

(** The state in which the loop of [step] starts: the id has been drawn and
    the request sent. *)
Definition requested (action_str : string) (s : Sys) : Sys :=
  on_os (deliver (uuid_gen (os s) (uuid_count (os s)), request_of action_str))
    (on_os (set_uuid_count (S (uuid_count (os s)))) s).

(** The deadline that the loop can observe: the time-out, or the moment the
    shutdown flag is raised when that comes first. *)
Definition effective_deadline (st timeout : Z) (ex : option Z) : Z :=
  match ex with
  | Some te => Z.min (st + timeout) (Z.max te st)
  | None => st + timeout
  end.

(** Turns that suffice from a state: one per queued envelope, one per poll
    interval left before the time-out, one to notice it. *)
Definition turns_left (st timeout : Z) (s : Sys) : nat :=
  (length (inbox (os s))
   + Z.to_nat ((st + timeout - now (os s)) / POLL_INTERVAL + 1) + 1)%nat.

(** The same, counted from the start of a call of [step]. *)
Definition step_fuel (timeout : Z) (s : Sys) : nat :=
  (length (inbox (os s)) + Z.to_nat (timeout / POLL_INTERVAL + 1) + 1)%nat.

(** Arithmetic on [turns_left]: division by the poll interval. *)
Ltac turns_arith :=
  unfold POLL_INTERVAL in *; zify; Z.to_euclidean_division_equations; lia.

(** ** Sample worlds *)

(** A worker that exits on SHUTDOWN. *)
Definition calm : Temper := mkTemper false false true true.

(** A worker that is stuck: only SIGKILL ends it. *)
Definition deaf : Temper := mkTemper false false false false.

(** A worker that dies while it builds its environment. *)
Definition stillborn : Temper := mkTemper false true false false.

(** Three values of [str(uuid.uuid4())]. *)
Definition sample_uuid (n : nat) : string :=
  match n with
  | 0%nat => "3f2b8a1e-0c57-4d0e-9a41-5b1f6e0c7d01"
  | 1%nat => "b7e1c2d4-5a90-4f3b-8c22-1d9e4a6f0b02"
  | _ => "c9a4e6f0-7b13-4a58-b6d3-2e8f5c1a9d03"
  end.

(** An environment that accepts everything and observes nothing; the
    external functions are stand-ins. *)
Definition sample_gym : Gym :=
  mkGym false None [("goal", VStr "PLACEHOLDER_GOAL")]
    (fun _ _ => Ok ([("dom_object", VObj 0); ("screenshot", VObj 1);
                     ("active_page_index", VObj 2); ("elapsed_time", VObj 3)],
                    VObj 4))
    None [] None
    (fun l => "[...]") Gives Gives (fun v _ => Gives v) Gives Gives.

Definition sample_world (avail : bool) (sp : nat -> Temper)
    (arrivals : list (Z * Envelope)) : World :=
  mkWorld avail 0 None arrivals [] [] sp sample_uuid 0 0 [] sample_gym.

(** A started supervisor: both pipe ends open, worker 0 running. *)
Definition started_env : BrowserEnv :=
  mkBrowserEnv false "" None (Some (mkConn false)) (Some (mkConn false))
    (Some 0%nat) None None None.

Definition started_sys (t : Temper) (arrivals : list (Z * Envelope)) : Sys :=
  mkSys started_env
    (mkWorld true 0 None arrivals [] [mkProc t Running] (fun _ => t)
       sample_uuid 0 0 [] sample_gym).

(** A late reply to an abandoned call and a stray [ALIVE] sit in the pipe in
    front of the reply to the current call. *)
Definition stale_then_fresh : Sys :=
  started_sys calm
    [(0, ("00000000-dead-4000-8000-000000000000", Some [("url", VStr "old")]));
     (3, (ALIVE, None));
     (25, (sample_uuid 0, Some [("url", VStr "new")]))].

(** The reply to the first call comes after that call was abandoned and
    sits in front of the reply to the second call. *)
Definition late_reply : Sys :=
  started_sys calm
    [(200, (sample_uuid 0, Some [("url", VStr "first")]));
     (250, (sample_uuid 1, Some [("url", VStr "second")]))].



(** The shutdown flag is up at time [t]. *)
Definition flag_up_at (ex : option Z) (t : Z) : Prop :=
  match ex with
  | Some te => te <= t
  | None => False
  end.

(** ** The process behind [self.process] *)

Definition is_alive_state (st : PState) : bool :=
  match st with Running | Exiting => true | _ => false end.

(** The run state of process [p], if there is one. *)
Definition pstate_at (p : nat) (s : Sys) : option PState :=
  pstate <$> (procs (os s) !! p).

(** Process [p] put into run state [st]. *)
Definition with_pstate (p : nat) (st : PState) (s : Sys) : Sys :=
  on_os (fun w =>
    set_procs (alter (fun pr => mkProc (temper pr) st) p (procs w)) w) s.

(** [drift p s s']: from [s] to [s'] only the clock (forwards), the log and
    the run state of process [p] may have changed. *)
Definition drift (p : nat) (s s' : Sys) : Prop :=
  self s' = self s
  /\ length (procs (os s')) = length (procs (os s))
  /\ (forall q, q <> p -> procs (os s') !! q = procs (os s) !! q)
  /\ temper <$> (procs (os s') !! p) = temper <$> (procs (os s) !! p)
  /\ outbox (os s') = outbox (os s)
  /\ inbox (os s') = inbox (os s)
  /\ exit_at (os s') = exit_at (os s)
  /\ now (os s) <= now (os s').

(** The state once SHUTDOWN has been sent. *)
Definition told_to_stop (s : Sys) : Sys := on_os (deliver (SHUTDOWN, None)) s.




(** The line logged by the [except] clause of [close]. *)
Definition close_error_log (e : Exc) : LogEntry :=
  (ERROR, "Encountered an error when closing browser env: ", Some e).

(** The state in which [close] leaves a live process when nothing raises. *)
Definition closed_ends (s : Sys) : Sys :=
  on_self (set_browser_side (Some (mkConn true)))
    (on_self (set_agent_side (Some (mkConn true))) s).

(** The state once IS_ALIVE has been sent. *)
Definition pinged (s : Sys) : Sys := on_os (deliver (IS_ALIVE, None)) s.

(** The line logged by [check_alive] on a reply with another id. *)
Definition not_alive_log : LogEntry :=
  (DEBUG, "Browser env is not alive. Response ID: ", None).


(** The supervisor after a [close] that shut a running worker down. *)
Definition stopped : Sys :=
  match close (started_sys calm []) with
  | Some (_, s) => s
  | None => started_sys calm []
  end.

(** A worker that answers the probe after 40 ms. *)
Definition answering : Sys := started_sys calm [(40, (ALIVE, None))].

(** The shutdown flag is up, nothing is in the pipe, the worker is deaf. *)
Definition shutting_down : Sys :=
  mkSys started_env
    (mkWorld true 0 (Some 0) [] [] [mkProc deaf Running] (fun _ => deaf)
       sample_uuid 0 0 [] sample_gym).

(** A host without browsergym, asked for an evaluation environment. *)
Definition no_browsergym : World := sample_world false (fun _ => calm) [].

(** Both pipe attributes exist (they are assigned before [init_browser]). *)
Definition ends_set (s : Sys) : Prop :=
  agent_side (self s) <> None /\ browser_side (self s) <> None.

(** Processes older than the [n]-th are alive in [s'] exactly when they
    were in [s]. *)
Definition old_alive_same (n : nat) (s s' : Sys) : Prop :=
  forall q, (q < n)%nat ->
    proc_alive <$> (procs (os s') !! q) = proc_alive <$> (procs (os s) !! q).

(** No process from the [n0]-th on is alive. *)
Definition spawned_quiet (n0 : nat) (s : Sys) : Prop :=
  forall q pr, (n0 <= q)%nat -> procs (os s) !! q = Some pr -> proc_alive pr = false.

(** A host with browsergym where every worker dies while it builds its
    environment. *)
Definition workers_die : World := sample_world true (fun _ => stillborn) [].

(** The supervisor (never returned by the constructor) after the failed
    construction. *)
Definition exhausted : Sys :=
  match BrowserEnv_new None workers_die with
  | Some (_, s) => s
  | None => mkSys fresh_object workers_die
  end.

(** The object as [__init__] hands it to [init_browser]: the pipe exists,
    there is no process yet. *)
Definition piped_env : BrowserEnv :=
  mkBrowserEnv false "" None (Some (mkConn false)) (Some (mkConn false))
    None None None None.

(** ** States of the worker *)

(** The browser end of the pipe exists and is open. *)
Definition browser_open (s : Sys) : Prop :=
  browser_side (self s) = Some (mkConn false).

(** No interrupt is pending. *)
Definition undisturbed (s : Sys) : Prop := sigint (gym (os s)) = None.

(** The reply to GET_EVAL_GOAL. *)
Definition goal_reply (goal : PyVal) (urls : list PyVal) : Dict :=
  [("text_content", goal); ("image_content", VList urls)].

(** The reply to GET_EVAL_REWARDS. *)
Definition rewards_reply (g : Gym) (rewards : list PyVal) : Dict :=
  [("text_content", VStr (json_dumps g rewards))].

(** The line logged by the handler of [KeyboardInterrupt]. *)
Definition interrupted_log : LogEntry :=
  (DEBUG, "Browser env process interrupted by user.", None).

(** The state the handler leaves: the interrupt is consumed, the line is
    logged, [env.close] has been called. *)
Definition after_interrupt (s : Sys) : Sys :=
  on_os (on_gym (fun g => set_env_calls (env_calls g ++ [EnvClose]) g))
    (on_os (fun w => set_log (log w ++ [interrupted_log]) w)
       (on_os (on_gym (set_sigint None)) s)).

(** The worker's copy of the object once [read_goal] has run. *)
Definition serving_env (goal : PyVal) (urls rewards : list PyVal) : BrowserEnv :=
  mkBrowserEnv true "" (Some "browsergym/miniwob.click-test")
    (Some (mkConn false)) (Some (mkConn false)) None
    (Some goal) (Some urls) (Some rewards).

(** A worker in evaluation mode with a goal, one goal image and two
    rewards on record. *)
Definition serving_sys (requests : list (Z * Envelope)) : Sys :=
  mkSys (serving_env (VStr "Click the button.") [VStr "http://x/1.png"] [VObj 7; VObj 8])
    (sample_world true (fun _ => calm) requests).

(** The operator's SIGINT arrives after the poll, the receive and
    [env.step], before the reply is sent. *)
Definition interrupted_mid_request : Sys :=
  mkSys (serving_env VNone [] [])
    (mkWorld true 0 None [(0, (sample_uuid 0, Some [("action", VStr "noop()")]))]
       [] [] (fun _ => calm) sample_uuid 0 0 [] (set_sigint (Some 3%nat) sample_gym)).

(** The worker's copy of the object as the process starts, in a world whose
    shutdown flag is raised 15 ms later. *)
Definition worker_told_to_stop : Sys :=
  mkSys piped_env
    (mkWorld true 0 (Some 15) [] [] [] (fun _ => calm) sample_uuid 0 0 []
       sample_gym).

(** ** More states of the supervisor *)

(** The state once [spawn_worker] has built and started process number
    [length procs]: it is the last of the table and [self.process]. *)
Definition spawned (s : Sys) : Sys :=
  let n := length (procs (os s)) in
  let tm := spawn (os s) n in
  on_os (set_procs (procs (os s)
                    ++ [mkProc tm (if crashes tm then Exited else Running)]))
    (on_self (set_process (Some n)) s).

(** The line logged at the start of every attempt of [init_browser]. *)
Definition starting_log : LogEntry := (DEBUG, "Starting browser env...", None).

Definition logged (e : LogEntry) (s : Sys) : Sys :=
  on_os (fun w => set_log (log w ++ [e]) w) s.

(** Both ends of the pipe exist and are open. *)
Definition pipe_open (s : Sys) : Prop :=
  agent_side (self s) = Some (mkConn false)
  /\ browser_side (self s) = Some (mkConn false).

(** A started supervisor whose worker has died on its own. *)
Definition worker_gone : Sys :=
  mkSys started_env
    (mkWorld true 0 None [] [] [mkProc stillborn Exited] (fun _ => stillborn)
       sample_uuid 0 0 [] sample_gym).

(** A late reply of an abandoned call sits in front of the answer to the
    probe. *)
Definition stale_before_alive : Sys :=
  started_sys calm
    [(5, (sample_uuid 0, Some [("url", VStr "old")])); (7, (ALIVE, None))].

(** A host with browsergym whose worker answers the first probe after 1.2 s. *)
Definition worker_answers : World :=
  sample_world true (fun _ => calm) [(1200, (ALIVE, None))].

(** A host with browsergym whose workers start but never answer. *)
Definition workers_hang : World := sample_world true (fun _ => deaf) [].

(** ** More states of the worker *)

(** The observation as lines 197 to 211 leave it, given what the library
    calls returned. *)
Definition transformed (obs : Dict) (text som png page elapsed : PyVal) : Dict :=
  dict_set
    (dict_set
       (dict_set
          (dict_set
             (dict_set obs "text_content" text)
             "set_of_marks" som)
          "screenshot" png)
       "active_page_index" page)
    "elapsed_time" elapsed.

(** The state once [env.step(action)] has been recorded. *)
Definition stepped (action : PyVal) (s : Sys) : Sys :=
  on_os (on_gym (fun g => set_env_calls (env_calls g ++ [EnvStep action]) g)) s.

(** The state once [env.close()] has been recorded. *)
Definition env_closed (s : Sys) : Sys :=
  on_os (on_gym (fun g => set_env_calls (env_calls g ++ [EnvClose]) g)) s.

Definition shutdown_log : LogEntry :=
  (DEBUG, "SHUTDOWN recv, shutting down browser env...", None).

(** ** What a turn of the worker may do to the pipe *)

(** Nothing was received and nothing sent. *)
Definition same_pipe (s s' : Sys) : Prop :=
  inbox (os s') = inbox (os s) /\ outbox (os s') = outbox (os s).

(** [r] is a reply that request [e] may get: one under the id of [e], or
    [(ALIVE, None)] when [e] is the probe. *)
Definition answers (e r : Envelope) : Prop :=
  fst r = fst e \/ (fst e = IS_ALIVE /\ r = (ALIVE, None)).

(** Nothing was received, and at most one envelope was sent, which answers
    [e]. *)
Definition one_reply (e : Envelope) (s s' : Sys) : Prop :=
  inbox (os s') = inbox (os s)
  /\ (outbox (os s') = outbox (os s)
      \/ exists r, answers e r /\ outbox (os s') = outbox (os s) ++ [r]).

(** [m] neither receives nor sends. *)
Definition quiet {A} (m : M A) : Prop :=
  forall s o s', m s = Some (o, s') -> same_pipe s s'.

(** [m] receives nothing and sends at most one envelope, an answer to [e]. *)
Definition replies_once (e : Envelope) {A} (m : M A) : Prop :=
  forall s o s', m s = Some (o, s') -> one_reply e s s'.

(** ** Interrupts *)

(** The environment raises [KeyboardInterrupt] neither from [step] nor from
    [close], and what [close] raises is an [Exception]: the only source of
    [KeyboardInterrupt] is the operator's signal. *)
Definition env_well_behaved (s : Sys) : Prop :=
  (forall calls action,
     step_result (gym (os s)) calls action <> Raise KeyboardInterrupt)
  /\ (forall e, close_raises (gym (os s)) = Some e -> is_Exception e = true).

(** [m] leaves the behaviour of the environment as it is, and when it ends
    in [KeyboardInterrupt] the operator's signal has been consumed. *)
Definition tame {A} (m : M A) : Prop :=
  forall s o s',
    env_well_behaved s ->
    m s = Some (o, s') ->
    env_well_behaved s'
    /\ (o = Raise KeyboardInterrupt -> sigint (gym (os s')) = None).

(** The last call made on the environment is [close]. *)
Definition env_closed_last (s : Sys) : Prop :=
  exists calls, env_calls (gym (os s)) = calls ++ [EnvClose].

(** [m] says [Return] only after [env.close()]. *)
Definition returns_closed (m : M Flow) : Prop :=
  forall s s', m s = Some (Ok Return, s') -> env_closed_last s'.

(** The state after the turn on a GET_EVAL_GOAL request. *)
Definition after_goal_request : Sys :=
  match serve_once
          (serving_sys [(0, (sample_uuid 0, Some [("action", VStr "GET_EVAL_GOAL")]))])
  with
  | Some (_, s) => s
  | None => serving_sys []
  end.

(** The state after the turn in which SIGINT arrives mid-request. *)
Definition after_mid_request_interrupt : Sys :=
  match serve_once interrupted_mid_request with
  | Some (_, s) => s
  | None => interrupted_mid_request
  end.

(** ** Start-up of the worker *)

(** The name of the evaluation task as line 103 leaves it. *)
Definition prefixed (name0 : string) : string :=
  if String.prefix "browsergym/" name0 then name0
  else String.append "browsergym/" name0.

(** The name selects one of the three benchmark families of lines 105 to
    112. *)
Definition supported (name : string) : bool :=
  contains "visualwebarena" name
  || contains "webarena" name
  || contains "miniwob" name.

Definition make_failed_log (e : Exc) : LogEntry :=
  (ERROR, "Failed to create browsergym environment: ", Some e).

(** No call was made on the environment. *)
Definition env_untouched (s s' : Sys) : Prop :=
  env_calls (gym (os s')) = env_calls (gym (os s)).

(** A worker in open mode on a host where [gym.make] fails. *)
Definition make_fails (e : Exc) : Sys :=
  mkSys piped_env
    (mkWorld true 0 None [(0, (IS_ALIVE, None))] [] [] (fun _ => calm)
       sample_uuid 0 0 []
       (mkGym false (Some e) (reset_obs sample_gym) (step_result sample_gym)
          None [] None (json_dumps sample_gym) (flatten_dom_to_str sample_gym)
          (html_handle sample_gym) (overlay_som sample_gym)
          (image_to_png_base64_url sample_gym) (item sample_gym))).
(** The observation of [env.reset()] has been taken and the three
    evaluation attributes have their initial values. *)
Definition reset_done (s : Sys) : Sys :=
  on_self (set_eval_state (Some VNone) (Some []) (Some []))
    (logged (INFO, "Successfully called env.reset", None)
       (on_os (on_gym (fun g => set_env_calls (env_calls g ++ [EnvReset]) g)) s)).

(** A worker in evaluation mode whose task is named [name0], on a host
    where [gym.make] raises [e]. *)
Definition eval_make_fails (name0 : string) (e : Exc) : Sys :=
  mkSys (mkBrowserEnv true "" (Some name0) (Some (mkConn false))
           (Some (mkConn false)) None None None None)
    (os (make_fails e)).

(** A worker in evaluation mode whose environment gives observation [obs]
    on reset. *)
Definition eval_reset_gives (obs : Dict) : Sys :=
  mkSys (mkBrowserEnv true "" (Some "browsergym/miniwob.click-test")
           (Some (mkConn false)) (Some (mkConn false)) None None None None)
    (mkWorld true 0 None [] [] [] (fun _ => calm) sample_uuid 0 0 []
       (mkGym false None obs (step_result sample_gym)
          None [] None (json_dumps sample_gym) (flatten_dom_to_str sample_gym)
          (html_handle sample_gym) (overlay_som sample_gym)
          (image_to_png_base64_url sample_gym) (item sample_gym))).
(** The image source of one goal message, as lines 147 to 151 take it: the
    entry [image_url] of a message of type [image_url], or its [url] when
    that entry is a dict. *)
Definition image_source (message : PyVal) : list PyVal :=
  match message with
  | VDict d =>
      match dict_get d "type" with
      | Some ty =>
          if is_str ty "image_url" then
            match dict_get d "image_url" with
            | Some (VDict u) =>
                match dict_get u "url" with Some v => [v] | None => [] end
            | Some v => [v]
            | None => []
            end
          else []
      | None => []
      end
  | _ => []
  end.

(** A goal of one text and two images, the second given as a dict. *)
Definition sample_goal_object : list PyVal :=
  [VDict [("type", VStr "text"); ("text", VStr "Buy the item shown.")];
   VDict [("type", VStr "image_url"); ("image_url", VStr "http://x/a.png")];
   VDict [("type", VStr "image_url");
          ("image_url", VDict [("url", VStr "http://x/b.png")])]].

(** The state [read_goal] leaves from [eval_reset_gives obs]. *)
Definition goal_read (obs : Dict) : Sys :=
  match read_goal (eval_reset_gives obs) with
  | Some (_, s) => s
  | None => eval_reset_gives obs
  end.

(** The state [collect_goal_images] leaves. *)
Definition images_collected (messages : list PyVal) (s : Sys) : Sys :=
  match collect_goal_images messages s with
  | Some (_, s') => s'
  | None => s
  end.
Definition started_log : LogEntry := (INFO, "Browser env started.", None).

Definition browsing_goal_log : LogEntry := (DEBUG, "Browsing goal: ", None).

(** The state in which the loop is entered when the goal is [goal] and
    there are no goal images. *)
Definition goal_recorded (goal : PyVal) (s : Sys) : Sys :=
  logged started_log
    (logged browsing_goal_log
       (on_self (set_eval_state (Some goal) (Some []) (Some []))
          (reset_done s))).

(** ** What a turn of the worker may do to the object *)

(** [m] leaves the attributes of the object as they are. *)
Definition still {A} (m : M A) : Prop :=
  forall s o s', m s = Some (o, s') -> self s' = self s.

(** The object is as it was, or evaluation mode is on and one reward has
    been appended to [eval_rewards], nothing else being touched. *)
Definition reward_appended (s s' : Sys) : Prop :=
  self s' = self s
  \/ (eval_mode (self s) = true
      /\ exists old reward,
           eval_rewards (self s) = Some old
           /\ self s'
              = set_eval_state (eval_goal (self s)) (goal_image_urls (self s))
                  (Some (old ++ [reward])) (self s)).

(** [m] changes the object by at most one appended reward. *)
Definition appends_reward {A} (m : M A) : Prop :=
  forall s o s', m s = Some (o, s') -> reward_appended s s'.

(** The state after the turn on an action request in evaluation mode. *)
Definition after_action_request : Sys :=
  match serve_once
          (serving_sys [(0, (sample_uuid 0, Some [("action", VStr "noop()")]))])
  with
  | Some (_, s) => s
  | None => serving_sys []
  end.

(** * Properties of the supervisor *)

(** ** Basic facts about the primitives *)

Lemma agent_open_on_os f s : agent_open s -> agent_open (on_os f s).
Proof. exact id. Qed.

#[local] Hint Resolve agent_open_on_os : core.

(** One turn of the loop of [step], written out. *)
Lemma step_wait_turn fuel uid st timeout s :
  agent_open s ->
  step_wait (S fuel) uid st timeout s =
    if flag_set (os s) || (timeout <? now (os s) - st)
    then Some (Raise TimeoutError, s)
    else match inbox (os s) with
         | (a, e) :: rest =>
             if a <=? now (os s) + POLL_INTERVAL
             then if String.eqb (fst e) uid
                  then dict_of (snd e) (received a rest s)
                  else step_wait fuel uid st timeout (received a rest s)
             else step_wait fuel uid st timeout (waited POLL_INTERVAL s)
         | [] => step_wait fuel uid st timeout (waited POLL_INTERVAL s)
         end.
Proof.
  intros Hopen. unfold agent_open in Hopen.
  cbn [step_wait]. unfold bind, should_exit, time_time, gets.
  destruct (flag_set (os s) || (timeout <? now (os s) - st)); [reflexivity|].
  unfold get_agent_side. rewrite Hopen.
  unfold conn_poll, conn_recv, bind, check_closed; cbn [conn_closed ret].
  cbv zeta. change (Z.max 0 POLL_INTERVAL) with POLL_INTERVAL.
  destruct (inbox (os s)) as [|[a e] rest] eqn:Hin; [reflexivity|].
  destruct (a <=? now (os s) + POLL_INTERVAL); [|reflexivity].
  cbn [self on_os os]. rewrite Hopen. unfold ret.
  cbn [conn_closed inbox set_now os on_os]. rewrite Hin.
  unfold received. cbn [os on_os]. destruct (String.eqb (fst e) uid); reflexivity.
Qed.

Lemma now_received a rest s :
  now (os (received a rest s)) = Z.max (now (os s)) a.
Proof. unfold received; cbn. lia. Qed.

Lemma flag_set_same w w' :
  exit_at w' = exit_at w -> now w' = now w -> flag_set w' = flag_set w.
Proof. unfold flag_set. intros -> ->. reflexivity. Qed.

Lemma inbox_deliver e w : inbox (deliver e w) = inbox w.
Proof. unfold deliver. destruct (String.eqb (fst e) SHUTDOWN); reflexivity. Qed.

Lemma outbox_deliver e w : outbox (deliver e w) = outbox w ++ [e].
Proof. unfold deliver. destruct (String.eqb (fst e) SHUTDOWN); reflexivity. Qed.

Lemma now_deliver e w : now (deliver e w) = now w.
Proof. unfold deliver. destruct (String.eqb (fst e) SHUTDOWN); reflexivity. Qed.

Lemma exit_at_deliver e w : exit_at (deliver e w) = exit_at w.
Proof. unfold deliver. destruct (String.eqb (fst e) SHUTDOWN); reflexivity. Qed.

(** ** The reply that [step] returns *)

(** Whatever the loop returns is the payload of the first envelope in the
    queue that carries the awaited id; the envelopes in front of it carry
    other ids and have been taken out of the queue. *)
Lemma step_wait_returns fuel uid st timeout :
  forall s d s',
    agent_open s ->
    step_wait fuel uid st timeout s = Some (Ok d, s') ->
    exists pre a,
      inbox (os s) = pre ++ (a, (uid, Some d)) :: inbox (os s')
      /\ Forall (fun x : Z * Envelope => fst (snd x) <> uid) pre
      /\ outbox (os s') = outbox (os s)
      /\ uuid_count (os s') = uuid_count (os s).
Proof.
  induction fuel as [|fuel IH]; intros s d s' Hopen H.
  - discriminate H.
  - rewrite step_wait_turn in H by assumption.
    destruct (flag_set (os s) || (timeout <? now (os s) - st)); [discriminate|].
    destruct (inbox (os s)) as [|[a [rid obs]] rest] eqn:Hin.
    + apply IH in H; [|auto]. destruct H as (pre & a & H1 & H2 & H3 & H4).
      cbn in H1. rewrite Hin in H1. destruct pre; discriminate.
    + destruct (a <=? now (os s) + POLL_INTERVAL).
      * cbn [fst snd] in H. destruct (String.eqb rid uid) eqn:Hid.
        -- apply String.eqb_eq in Hid. subst rid.
           destruct obs as [d'|]; [|discriminate].
           injection H as <- <-. exists [], a. cbn. auto.
        -- apply String.eqb_neq in Hid.
           apply IH in H; [|unfold received; auto].
           destruct H as (pre & a' & H1 & H2 & H3 & H4).
           exists ((a, (rid, obs)) :: pre), a'. cbn in H1. cbn [app].
           rewrite <- H1. repeat split; auto.
      * apply IH in H; [|unfold waited; auto].
        destruct H as (pre & a' & H1 & H2 & H3 & H4).
        cbn in H1. rewrite Hin in H1. exists pre, a'. auto.
Qed.

(** A reply that is already in the pipe, behind envelopes with other ids
    that are there too, is returned. *)
Lemma step_wait_delivers uid st timeout d post :
  forall pre a s,
    agent_open s ->
    flag_set (os s) = false ->
    now (os s) - st <= timeout ->
    inbox (os s) = pre ++ (a, (uid, Some d)) :: post ->
    Forall (fun x : Z * Envelope => fst x <= now (os s) /\ fst (snd x) <> uid) pre ->
    a <= now (os s) ->
    exists s',
      step_wait (S (length pre)) uid st timeout s = Some (Ok d, s')
      /\ inbox (os s') = post /\ now (os s') = now (os s).
Proof.
  induction pre as [|[a0 [rid obs]] pre IH]; intros a s Hopen Hflag Hto Hin Hpre Ha;
    rewrite step_wait_turn by assumption; rewrite Hflag;
    (replace (timeout <? now (os s) - st) with false by (symmetry; apply Z.ltb_ge; lia));
    cbn [orb]; rewrite Hin; cbn [app].
  - replace (a <=? now (os s) + POLL_INTERVAL) with true
      by (symmetry; apply Z.leb_le; unfold POLL_INTERVAL; lia).
    cbn [fst snd]. rewrite String.eqb_refl. cbn [dict_of ret].
    eexists; split; [reflexivity|]. split; [reflexivity|].
    rewrite now_received. lia.
  - inversion Hpre as [|? ? [Ha0 Hne] Hpre']; subst. cbn [fst snd] in Ha0, Hne.
    replace (a0 <=? now (os s) + POLL_INTERVAL) with true
      by (symmetry; apply Z.leb_le; unfold POLL_INTERVAL; lia).
    cbn [fst snd]. apply String.eqb_neq in Hne. rewrite Hne.
    assert (Hnow : now (os (received a0 (pre ++ (a, (uid, Some d)) :: post) s))
                   = now (os s)) by (rewrite now_received; lia).
    destruct (IH a (received a0 (pre ++ (a, (uid, Some d)) :: post) s))
      as (s' & H1 & H2 & H3).
    + unfold received; auto.
    + rewrite <- Hflag. apply flag_set_same; [reflexivity|exact Hnow].
    + rewrite Hnow. exact Hto.
    + reflexivity.
    + rewrite Hnow. exact Hpre'.
    + rewrite Hnow. exact Ha.
    + exists s'. cbn [length]. rewrite H1, H2, H3, Hnow. auto.
Qed.

Lemma step_start fuel action_str timeout s :
  agent_open s ->
  step fuel action_str timeout s =
    step_wait fuel (uuid_gen (os s) (uuid_count (os s))) (now (os s)) timeout
      (requested action_str s).
Proof.
  intros Hopen. unfold agent_open in Hopen.
  unfold step, bind, uuid4, get_agent_side. cbn [self on_os os].
  rewrite Hopen. unfold conn_send, bind, check_closed, modify, time_time, gets.
  cbn [conn_closed ret]. unfold requested. cbn [os on_os].
  rewrite now_deliver. reflexivity.
Qed.

(** Without an open agent side [step] raises before it waits. *)
Lemma step_needs_agent_side fuel action_str timeout s :
  agent_side (self s) <> Some (mkConn false) ->
  exists e s', step fuel action_str timeout s = Some (Raise e, s').
Proof.
  intros Hn. unfold step, bind, uuid4, get_agent_side. cbn [self on_os os].
  destruct (agent_side (self s)) as [[[|]]|]; [| congruence |]; eauto.
Qed.

(** ** Termination and the time-out of [step] *)

Lemma check_passed st timeout w D :
  D = effective_deadline st timeout (exit_at w) ->
  flag_set w || (timeout <? now w - st) = false ->
  now w <= D /\ now w <= st + timeout.
Proof.
  intros -> H. apply orb_false_iff in H as [Hf Ht].
  apply Z.ltb_ge in Ht. unfold flag_set in Hf. unfold effective_deadline.
  destruct (exit_at w) as [te|]; [apply Z.leb_gt in Hf|]; lia.
Qed.

(** The loop always comes to an end. *)
Lemma step_wait_terminates uid st timeout :
  forall fuel s,
    agent_open s ->
    (turns_left st timeout s <= fuel)%nat ->
    exists o s', step_wait fuel uid st timeout s = Some (o, s').
Proof.
  induction fuel as [|fuel IH]; intros s Hopen Hfuel.
  - unfold turns_left in Hfuel. lia.
  - rewrite step_wait_turn by assumption.
    destruct (flag_set (os s) || (timeout <? now (os s) - st)) eqn:Hc; [eauto|].
    destruct (check_passed st timeout (os s) _ eq_refl Hc) as [_ Hle].
    unfold turns_left in Hfuel.
    destruct (inbox (os s)) as [|[a [rid obs]] rest] eqn:Hin.
    + apply IH; [unfold waited; auto|].
      unfold turns_left, waited; cbn. rewrite Hin.
      cbn [length] in *. turns_arith.
    + destruct (a <=? now (os s) + POLL_INTERVAL) eqn:Ha.
      * cbn [fst snd]. destruct (String.eqb rid uid).
        -- destruct obs; cbn; eauto.
        -- apply IH; [unfold received; auto|].
           unfold turns_left. rewrite now_received.
           unfold received; cbn [inbox os on_os set_inbox].
           cbn [length] in *. turns_arith.
      * apply IH; [unfold waited; auto|].
        unfold turns_left, waited; cbn. rewrite Hin.
        cbn [length] in *. turns_arith.
Qed.

(** When no envelope with the awaited id arrives by the effective deadline
    plus one poll interval, the loop raises [TimeoutError], and it does so
    no later than that. *)
Lemma step_wait_times_out uid st timeout D :
  forall fuel s,
    agent_open s ->
    D = effective_deadline st timeout (exit_at (os s)) ->
    now (os s) <= D + POLL_INTERVAL ->
    Forall (fun x : Z * Envelope => fst (snd x) = uid -> D + POLL_INTERVAL < fst x)
      (inbox (os s)) ->
    (turns_left st timeout s <= fuel)%nat ->
    exists s',
      step_wait fuel uid st timeout s = Some (Raise TimeoutError, s')
      /\ now (os s') <= D + POLL_INTERVAL
      /\ outbox (os s') = outbox (os s)
      /\ self s' = self s.
Proof.
  induction fuel as [|fuel IH]; intros s Hopen HD Hnow Hno Hfuel.
  - unfold turns_left in Hfuel. lia.
  - rewrite step_wait_turn by assumption.
    destruct (flag_set (os s) || (timeout <? now (os s) - st)) eqn:Hc; [eauto|].
    destruct (check_passed st timeout (os s) D HD Hc) as [HleD Hle].
    unfold turns_left in Hfuel.
    destruct (inbox (os s)) as [|[a [rid obs]] rest] eqn:Hin.
    + destruct (IH (waited POLL_INTERVAL s)) as (s' & H1 & H2 & H3 & H4);
        [unfold waited; auto | exact HD | unfold waited; cbn; lia
        | unfold waited; cbn; rewrite Hin; constructor | | eauto].
      unfold turns_left, waited; cbn. rewrite Hin.
      cbn [length] in *. turns_arith.
    + pose proof Hno as Hall.
      apply Forall_cons in Hno as [Hhead Htail]. cbn [fst snd] in Hhead.
      destruct (a <=? now (os s) + POLL_INTERVAL) eqn:Ha.
      * apply Z.leb_le in Ha. cbn [fst snd].
        destruct (String.eqb rid uid) eqn:Hid.
        -- apply String.eqb_eq in Hid. specialize (Hhead Hid). lia.
        -- destruct (IH (received a rest s)) as (s' & H1 & H2 & H3 & H4);
             [unfold received; auto | exact HD | rewrite now_received; lia
             | exact Htail | | eauto].
           unfold turns_left. rewrite now_received.
           unfold received; cbn [inbox os on_os set_inbox].
           cbn [length] in *. turns_arith.
      * destruct (IH (waited POLL_INTERVAL s)) as (s' & H1 & H2 & H3 & H4);
          [unfold waited; auto | exact HD | unfold waited; cbn; lia
          | unfold waited; cbn; rewrite Hin; exact Hall | | eauto].
        unfold turns_left, waited; cbn. rewrite Hin.
        cbn [length] in *. turns_arith.
Qed.

(** ** C1 *)

(** C1: whatever [step] returns is the payload of an envelope whose id is
    the correlation id drawn for this very call; every envelope taken from
    the pipe before it carried another id, was dropped, and is not the
    result.  The call sent exactly its own request. *)
Theorem step_returns_matching_payload fuel action_str timeout s d s' :
  step fuel action_str timeout s = Some (Ok d, s') ->
  let uid := uuid_gen (os s) (uuid_count (os s)) in
  uuid_count (os s') = S (uuid_count (os s))
  /\ outbox (os s') = outbox (os s) ++ [(uid, request_of action_str)]
  /\ exists pre a,
       inbox (os s) = pre ++ (a, (uid, Some d)) :: inbox (os s')
       /\ Forall (fun x : Z * Envelope => fst (snd x) <> uid) pre.
Proof.
  intros H uid.
  destruct (agent_side (self s)) as [[[|]]|] eqn:Hside.
  - destruct (step_needs_agent_side fuel action_str timeout s) as (e & s1 & He);
      [rewrite Hside; discriminate | congruence].
  - rewrite step_start in H by exact Hside.
    apply step_wait_returns in H; [|unfold requested; auto].
    destruct H as (pre & a & H1 & H2 & H3 & H4).
    unfold requested in H1, H3, H4. cbn [os on_os] in H1, H3, H4.
    rewrite inbox_deliver in H1. rewrite outbox_deliver in H3.
    unfold deliver in H4.
    destruct (String.eqb _ SHUTDOWN) in H4; cbn in H4, H1, H3; eauto 10.
  - destruct (step_needs_agent_side fuel action_str timeout s) as (e & s1 & He);
      [rewrite Hside; discriminate | congruence].
Qed.

Lemma step_returns_matching_payload_witness :
  exists s',
    step 10 "noop()" 100000 stale_then_fresh = Some (Ok [("url", VStr "new")], s')
    /\ exists pre a,
         inbox (os stale_then_fresh)
           = pre ++ (a, (sample_uuid 0, Some [("url", VStr "new")])) :: inbox (os s')
         /\ Forall (fun x : Z * Envelope => fst (snd x) <> sample_uuid 0) pre.
Proof.
  destruct (step 10 "noop()" 100000 stale_then_fresh) as [[[d|e] s']|] eqn:Hrun;
    try (vm_compute in Hrun; discriminate Hrun).
  assert (Hd : d = [("url", VStr "new")])
    by (vm_compute in Hrun; injection Hrun as <- _; reflexivity).
  subst d. exists s'. split; [reflexivity|].
  exact (proj2 (proj2 (step_returns_matching_payload _ _ _ _ _ _ Hrun))).
Defined.

(** Two calls in a row: the first is abandoned after 50 ms, its reply
    arrives during the second call and is dropped there. *)
Lemma late_reply_of_abandoned_call_is_dropped :
  exists s1 s2,
    step 100 "click('a1')" 50 late_reply = Some (Raise TimeoutError, s1)
    /\ step 100 "noop()" 1000 s1 = Some (Ok [("url", VStr "second")], s2)
    /\ inbox (os s2) = [].
Proof.
  eexists _, _. split; [vm_compute; reflexivity|].
  split; vm_compute; reflexivity.
Qed.

(** A plain statement of the time-out of [step], for reuse. *)
Lemma step_times_out fuel action_str timeout s :
  agent_open s ->
  0 <= timeout ->
  (step_fuel timeout s <= fuel)%nat ->
  Forall (fun x : Z * Envelope =>
            fst (snd x) = uuid_gen (os s) (uuid_count (os s)) ->
            effective_deadline (now (os s)) timeout (exit_at (os s)) + POLL_INTERVAL
              < fst x)
    (inbox (os s)) ->
  exists s',
    step fuel action_str timeout s = Some (Raise TimeoutError, s')
    /\ now (os s')
         <= effective_deadline (now (os s)) timeout (exit_at (os s)) + POLL_INTERVAL
    /\ outbox (os s')
         = outbox (os s) ++ [(uuid_gen (os s) (uuid_count (os s)), request_of action_str)].
Proof.
  intros Hopen Hto Hfuel Hno.
  set (uid := uuid_gen (os s) (uuid_count (os s))) in *.
  set (D := effective_deadline (now (os s)) timeout (exit_at (os s))) in *.
  rewrite step_start by assumption. fold uid.
  destruct (step_wait_times_out uid (now (os s)) timeout D fuel
              (requested action_str s)) as (s' & H1 & H2 & H3 & H4).
  - unfold requested; auto.
  - unfold requested; cbn [os on_os]. rewrite exit_at_deliver. reflexivity.
  - unfold requested; cbn [os on_os]. rewrite now_deliver. cbn.
    subst D. unfold effective_deadline, POLL_INTERVAL.
    destruct (exit_at (os s)); lia.
  - unfold requested; cbn [os on_os]. rewrite inbox_deliver. exact Hno.
  - unfold turns_left, requested; cbn [os on_os].
    rewrite inbox_deliver, now_deliver. cbn [now set_uuid_count inbox].
    unfold step_fuel in Hfuel.
    replace (now (os s) + timeout - now (os s)) with timeout by lia. exact Hfuel.
  - exists s'. split; [exact H1|]. split; [exact H2|].
    rewrite H3. unfold requested; cbn [os on_os]. rewrite outbox_deliver.
    reflexivity.
Qed.

(** ** C2 *)






(** [step] returns for every state of the world once given enough turns. *)
Lemma step_terminates fuel action_str timeout s :
  (step_fuel timeout s <= fuel)%nat ->
  exists o s', step fuel action_str timeout s = Some (o, s').
Proof.
  intros Hfuel.
  destruct (agent_side (self s)) as [[[|]]|] eqn:Hside.
  - destruct (step_needs_agent_side fuel action_str timeout s) as (e & s1 & He);
      [rewrite Hside; discriminate | eauto].
  - rewrite step_start by exact Hside.
    apply step_wait_terminates; [unfold requested; auto|].
    unfold turns_left, requested; cbn [os on_os].
    rewrite inbox_deliver, now_deliver. cbn [now set_uuid_count inbox].
    unfold step_fuel in Hfuel.
    replace (now (os s) + timeout - now (os s)) with timeout by lia. exact Hfuel.
  - destruct (step_needs_agent_side fuel action_str timeout s) as (e & s1 & He);
      [rewrite Hside; discriminate | eauto].
Qed.

(** ** Reasoning about sequences of calls *)

Lemma bind_ok {A B} (m : M A) (k : A -> M B) s a s' :
  m s = Some (Ok a, s') -> bind m k s = k a s'.
Proof. unfold bind. intros ->. reflexivity. Qed.

Lemma bind_raise {A B} (m : M A) (k : A -> M B) s e s' :
  m s = Some (Raise e, s') -> bind m k s = Some (Raise e, s').
Proof. unfold bind. intros ->. reflexivity. Qed.

(** ** The process behind [self.process] *)

Lemma drift_refl p s : drift p s s.
Proof. unfold drift. repeat split; auto; lia. Qed.

Lemma drift_trans p s1 s2 s3 : drift p s1 s2 -> drift p s2 s3 -> drift p s1 s3.
Proof.
  unfold drift.
  intros (A1 & A2 & A3 & A4 & A5 & A6 & A7 & A8) (B1 & B2 & B3 & B4 & B5 & B6 & B7 & B8).
  repeat split; try congruence; try lia.
  intros q Hq. rewrite B3, A3; auto.
Qed.

Lemma drift_waited p t s : 0 <= t -> drift p s (waited t s).
Proof. unfold drift, waited. cbn. repeat split; auto; lia. Qed.

Lemma drift_with_pstate p st s : drift p s (with_pstate p st s).
Proof.
  unfold drift, with_pstate. cbn. repeat split; auto; try lia.
  - apply length_alter.
  - intros q Hq. apply list_lookup_alter_ne. auto.
  - rewrite list_lookup_alter_eq. destruct (procs (os s) !! p); reflexivity.
Qed.

Lemma drift_logged p e s :
  drift p s (on_os (fun w => set_log (log w ++ [e]) w) s).
Proof. unfold drift. cbn. repeat split; auto; lia. Qed.

Lemma pstate_at_with_pstate p st st0 s :
  pstate_at p s = Some st0 -> pstate_at p (with_pstate p st s) = Some st.
Proof.
  unfold pstate_at, with_pstate. cbn. rewrite list_lookup_alter_eq.
  destruct (procs (os s) !! p); [reflexivity | discriminate].
Qed.

Lemma is_alive_at s p st :
  process (self s) = Some p -> pstate_at p s = Some st ->
  self_process_is_alive s = Some (Ok (is_alive_state st), s).
Proof.
  unfold pstate_at, self_process_is_alive, bind, get_process, Process_is_alive,
    lookup_proc.
  intros -> H. destruct (procs (os s) !! p) as [pr|]; [|discriminate].
  injection H as <-. reflexivity.
Qed.

Lemma join_at s p st t :
  process (self s) = Some p -> pstate_at p s = Some st -> st <> Unstarted ->
  0 <= t ->
  exists s',
    self_process_join t s = Some (Ok tt, s')
    /\ drift p s s'
    /\ pstate_at p s' = Some (match st with Exiting => Exited | _ => st end)
    /\ (st = Running -> now (os s') = now (os s) + t).
Proof.
  unfold pstate_at, self_process_join, bind, get_process, Process_join, lookup_proc.
  intros -> H Hst Ht. destruct (procs (os s) !! p) as [pr|] eqn:Hpr; [|discriminate].
  injection H as H. rewrite H. destruct st; [congruence| | |].
  - exists (waited t s).
    split; [reflexivity|]. split; [apply drift_waited; lia|].
    split; [|reflexivity]. unfold waited; cbn. rewrite Hpr. cbn. congruence.
  - exists (with_pstate p Exited s).
    split; [reflexivity|]. split; [apply drift_with_pstate|].
    split; [|discriminate].
    eapply pstate_at_with_pstate. unfold pstate_at. rewrite Hpr. reflexivity.
  - exists s.
    split; [reflexivity|]. split; [apply drift_refl|].
    split; [|discriminate]. rewrite Hpr. cbn. congruence.
Qed.

Lemma terminate_at s p st :
  process (self s) = Some p -> pstate_at p s = Some st -> st <> Unstarted ->
  exists s' st',
    Process_terminate p s = Some (Ok tt, s')
    /\ drift p s s' /\ pstate_at p s' = Some st' /\ st' <> Unstarted.
Proof.
  unfold pstate_at, Process_terminate, lookup_proc.
  intros Hp H Hst. destruct (procs (os s) !! p) as [pr|] eqn:Hpr; [|discriminate].
  injection H as H. rewrite H. destruct st; [congruence| | |].
  - destruct (heeds_term (temper pr)).
    + exists (with_pstate p Exiting s), Exiting.
      split; [reflexivity|]. split; [apply drift_with_pstate|].
      split; [|discriminate].
      eapply pstate_at_with_pstate. unfold pstate_at. rewrite Hpr. reflexivity.
    + exists s, Running.
      split; [reflexivity|]. split; [apply drift_refl|].
      split; [|discriminate]. rewrite Hpr; cbn; congruence.
  - exists s, Exiting.
    split; [reflexivity|]. split; [apply drift_refl|].
    split; [|discriminate]. rewrite Hpr; cbn; congruence.
  - exists s, Exited.
    split; [reflexivity|]. split; [apply drift_refl|].
    split; [|discriminate]. rewrite Hpr; cbn; congruence.
Qed.

Lemma kill_at s p st :
  process (self s) = Some p -> pstate_at p s = Some st -> is_alive_state st = true ->
  exists s',
    Process_kill p s = Some (Ok tt, s')
    /\ drift p s s' /\ pstate_at p s' = Some Exiting.
Proof.
  unfold pstate_at, Process_kill, lookup_proc.
  intros Hp H Hst. destruct (procs (os s) !! p) as [pr|] eqn:Hpr; [|discriminate].
  injection H as H. rewrite H. destruct st; try discriminate.
  - exists (with_pstate p Exiting s).
    split; [reflexivity|]. split; [apply drift_with_pstate|].
    eapply pstate_at_with_pstate. unfold pstate_at. rewrite Hpr. reflexivity.
  - exists s.
    split; [reflexivity|]. split; [apply drift_refl|].
    rewrite Hpr; cbn; congruence.
Qed.

Lemma drift_self p s s' : drift p s s' -> self s' = self s.
Proof. intros H. apply H. Qed.

(** The inner block leaves a started process dead. *)
Lemma escalate_kill_at s p st :
  process (self s) = Some p -> pstate_at p s = Some st -> st <> Unstarted ->
  exists s',
    escalate_kill s = Some (Ok tt, s')
    /\ drift p s s' /\ pstate_at p s' = Some Exited.
Proof.
  intros Hp Hst Hne. unfold escalate_kill.
  rewrite (bind_ok _ _ _ _ _ (is_alive_at s p st Hp Hst)).
  destruct (is_alive_state st) eqn:Ha.
  - assert (Hg : get_process s = Some (Ok p, s))
      by (unfold get_process; rewrite Hp; reflexivity).
    rewrite (bind_ok _ _ _ _ _ Hg).
    destruct (kill_at s p st Hp Hst Ha) as (s1 & K1 & K2 & K3).
    rewrite (bind_ok _ _ _ _ _ K1).
    destruct (join_at s1 p Exiting JOIN_GRACE) as (s2 & J1 & J2 & J3 & _);
      [rewrite (drift_self _ _ _ K2); exact Hp | exact K3 | discriminate
      | unfold JOIN_GRACE; lia |].
    exists s2. split; [exact J1|]. split; [eapply drift_trans; eauto | exact J3].
  - exists s. split; [reflexivity|]. split; [apply drift_refl|].
    destruct st; try discriminate; congruence.
Qed.

(** So does the outer block. *)
Lemma escalate_terminate_at s p st :
  process (self s) = Some p -> pstate_at p s = Some st -> st <> Unstarted ->
  exists s',
    escalate_terminate s = Some (Ok tt, s')
    /\ drift p s s' /\ pstate_at p s' = Some Exited.
Proof.
  intros Hp Hst Hne. unfold escalate_terminate.
  rewrite (bind_ok _ _ _ _ _ (is_alive_at s p st Hp Hst)).
  destruct (is_alive_state st) eqn:Ha.
  - set (e := (ERROR, "Browser process did not terminate, forcefully terminating...", None) : LogEntry).
    set (s0 := on_os (fun w => set_log (log w ++ [e]) w) s).
    assert (Hl : logger ERROR "Browser process did not terminate, forcefully terminating..." None s
                 = Some (Ok tt, s0)) by reflexivity.
    rewrite (bind_ok _ _ _ _ _ Hl).
    assert (Hp0 : process (self s0) = Some p) by exact Hp.
    assert (Hst0 : pstate_at p s0 = Some st) by exact Hst.
    assert (Hg : get_process s0 = Some (Ok p, s0))
      by (unfold get_process; rewrite Hp0; reflexivity).
    rewrite (bind_ok _ _ _ _ _ Hg).
    destruct (terminate_at s0 p st Hp0 Hst0 Hne) as (s1 & st1 & T1 & T2 & T3 & T4).
    rewrite (bind_ok _ _ _ _ _ T1).
    assert (Hp1 : process (self s1) = Some p)
      by (rewrite (drift_self _ _ _ T2); exact Hp0).
    destruct (join_at s1 p st1 JOIN_GRACE Hp1 T3 T4) as (s2 & J1 & J2 & J3 & _);
      [unfold JOIN_GRACE; lia|].
    rewrite (bind_ok _ _ _ _ _ J1).
    assert (Hp2 : process (self s2) = Some p)
      by (rewrite (drift_self _ _ _ J2); exact Hp1).
    destruct (escalate_kill_at s2 p _ Hp2 J3) as (s3 & E1 & E2 & E3);
      [destruct st1; congruence|].
    exists s3. split; [exact E1|]. split; [|exact E3].
    eapply drift_trans; [apply (drift_logged p e s)|].
    eapply drift_trans; [exact T2|]. eapply drift_trans; eauto.
  - exists s. split; [reflexivity|]. split; [apply drift_refl|].
    destruct st; try discriminate; congruence.
Qed.

Lemma hear_shutdown_temper pr : temper (hear_shutdown pr) = temper pr.
Proof.
  unfold hear_shutdown. destruct (pstate pr); try reflexivity.
  destruct (heeds_shutdown (temper pr)); reflexivity.
Qed.

Lemma hear_shutdown_alive pr :
  proc_alive (hear_shutdown pr) = proc_alive pr.
Proof.
  unfold hear_shutdown, proc_alive. destruct (pstate pr) eqn:E; rewrite ?E; try reflexivity.
  destruct (heeds_shutdown (temper pr)); cbn; rewrite ?E; reflexivity.
Qed.

Lemma proc_alive_started pr : proc_alive pr = true -> pstate pr <> Unstarted.
Proof. unfold proc_alive. destruct (pstate pr); congruence. Qed.

Lemma procs_told_to_stop s :
  procs (os (told_to_stop s)) = hear_shutdown <$> procs (os s).
Proof. reflexivity. Qed.

(** The ladder up to, and without, the closing of the two pipe ends. *)
Lemma ladder_kills s p pr :
  process (self s) = Some p ->
  procs (os s) !! p = Some pr ->
  proc_alive pr = true ->
  agent_open s ->
  exists s3,
    (c <- get_agent_side ;;
     conn_send c (SHUTDOWN, None) ;;;
     self_process_join JOIN_GRACE ;;;
     escalate_terminate) s = Some (Ok tt, s3)
    /\ drift p (told_to_stop s) s3
    /\ procs (os s3) !! p = Some (mkProc (temper pr) Exited)
    /\ (pstate pr = Running -> heeds_shutdown (temper pr) = false ->
        now (os s) + JOIN_GRACE <= now (os s3)).
Proof.
  intros Hp Hpr Halive Hopen. unfold agent_open in Hopen.
  assert (Hg : get_agent_side s = Some (Ok (mkConn false), s))
    by (unfold get_agent_side; rewrite Hopen; reflexivity).
  rewrite (bind_ok _ _ _ _ _ Hg).
  assert (Hs : conn_send (mkConn false) (SHUTDOWN, None) s = Some (Ok tt, told_to_stop s))
    by reflexivity.
  rewrite (bind_ok _ _ _ _ _ Hs).
  set (s1 := told_to_stop s).
  assert (Hp1 : process (self s1) = Some p) by exact Hp.
  assert (Hpr1 : procs (os s1) !! p = Some (hear_shutdown pr)).
  { unfold s1. rewrite procs_told_to_stop, list_lookup_fmap, Hpr. reflexivity. }
  assert (Hst1 : pstate_at p s1 = Some (pstate (hear_shutdown pr)))
    by (unfold pstate_at; rewrite Hpr1; reflexivity).
  assert (Hne1 : pstate (hear_shutdown pr) <> Unstarted)
    by (apply proc_alive_started; rewrite hear_shutdown_alive; exact Halive).
  destruct (join_at s1 p _ JOIN_GRACE Hp1 Hst1 Hne1) as (s2 & J1 & J2 & J3 & J4);
    [unfold JOIN_GRACE; lia|].
  rewrite (bind_ok _ _ _ _ _ J1).
  assert (Hp2 : process (self s2) = Some p)
    by (rewrite (drift_self _ _ _ J2); exact Hp1).
  destruct (escalate_terminate_at s2 p _ Hp2 J3) as (s3 & E1 & E2 & E3);
    [destruct (pstate (hear_shutdown pr)); congruence|].
  exists s3. split; [exact E1|].
  assert (Hd : drift p s1 s3) by (eapply drift_trans; eauto).
  split; [exact Hd|]. split.
  - destruct Hd as (_ & _ & _ & Ht & _). rewrite Hpr1 in Ht. cbn in Ht.
    rewrite hear_shutdown_temper in Ht.
    unfold pstate_at in E3.
    destruct (procs (os s3) !! p) as [[tm st]|]; [|discriminate].
    cbn in Ht, E3. congruence.
  - intros Hrun Hdeaf.
    assert (Hstill : pstate (hear_shutdown pr) = Running)
      by (unfold hear_shutdown; rewrite Hrun, Hdeaf; exact Hrun).
    specialize (J4 Hstill). destruct E2 as (_ & _ & _ & _ & _ & _ & _ & Hnow).
    change (now (os s1)) with (now (os s)) in J4. lia.
Qed.

(** [close] on a process that is not alive returns at once. *)
Lemma close_not_alive s p pr :
  process (self s) = Some p ->
  procs (os s) !! p = Some pr ->
  proc_alive pr = false ->
  close s = Some (Ok tt, s).
Proof.
  intros Hp Hpr Hdead. unfold close.
  erewrite bind_ok
    by (apply (is_alive_at s p (pstate pr)); [exact Hp | unfold pstate_at; rewrite Hpr; reflexivity]).
  change (is_alive_state (pstate pr)) with (proc_alive pr). rewrite Hdead. reflexivity.
Qed.

Lemma close_alive s p pr :
  process (self s) = Some p ->
  procs (os s) !! p = Some pr ->
  proc_alive pr = true ->
  agent_open s ->
  exists s3,
    drift p (told_to_stop s) s3
    /\ procs (os s3) !! p = Some (mkProc (temper pr) Exited)
    /\ (pstate pr = Running -> heeds_shutdown (temper pr) = false ->
        now (os s) + JOIN_GRACE <= now (os s3))
    /\ close s =
         Some (Ok tt,
               match browser_side (self s) with
               | Some _ => closed_ends s3
               | None =>
                   on_os (fun w => set_log
                            (log w ++ [close_error_log (AttributeError "browser_side")]) w)
                     (on_self (set_agent_side (Some (mkConn true))) s3)
               end).
Proof.
  intros Hp Hpr Halive Hopen.
  destruct (ladder_kills s p pr Hp Hpr Halive Hopen) as (s3 & L1 & L2 & L3 & L4).
  exists s3. split; [exact L2|]. split; [exact L3|]. split; [exact L4|].
  unfold close.
  erewrite bind_ok
    by (apply (is_alive_at s p (pstate pr)); [exact Hp | unfold pstate_at; rewrite Hpr; reflexivity]).
  change (is_alive_state (pstate pr)) with (proc_alive pr). rewrite Halive. cbn [negb].
  assert (Hself : self s3 = self s) by (apply (drift_self _ _ _ L2)).
  unfold try_except, close_ladder.
  unfold bind in L1 |- *.
  destruct (get_agent_side s) as [[[c|e] s0]|]; try discriminate L1.
  destruct (conn_send c (SHUTDOWN, None) s0) as [[[[]|e] s1]|]; try discriminate L1.
  destruct (self_process_join JOIN_GRACE s1) as [[[[]|e] s2]|]; try discriminate L1.
  rewrite L1.
  unfold close_agent_side, close_browser_side, bind, get_agent_side, get_browser_side, modify.
  unfold agent_open in Hopen. rewrite Hself, Hopen.
  cbn [self on_self browser_side set_agent_side]. rewrite ?Hself.
  cbn [self on_self browser_side set_agent_side].
  destruct (browser_side (self s)); reflexivity.
Qed.

(** When the SHUTDOWN message cannot be sent, the [except] clause is all
    that runs. *)
Lemma close_send_raises s p pr :
  process (self s) = Some p ->
  procs (os s) !! p = Some pr ->
  proc_alive pr = true ->
  agent_side (self s) <> Some (mkConn false) ->
  exists e,
    close s = Some (Ok tt, on_os (fun w => set_log (log w ++ [close_error_log e]) w) s).
Proof.
  intros Hp Hpr Halive Hside. unfold close.
  erewrite bind_ok
    by (apply (is_alive_at s p (pstate pr)); [exact Hp | unfold pstate_at; rewrite Hpr; reflexivity]).
  change (is_alive_state (pstate pr)) with (proc_alive pr). rewrite Halive. cbn [negb].
  unfold try_except, close_ladder, bind, get_agent_side.
  destruct (agent_side (self s)) as [[[|]]|]; [| congruence |];
    cbn; eexists; reflexivity.
Qed.

Lemma join_exiting s p t :
  process (self s) = Some p -> pstate_at p s = Some Exiting ->
  self_process_join t s = Some (Ok tt, with_pstate p Exited s).
Proof.
  unfold pstate_at, self_process_join, bind, get_process, Process_join, lookup_proc.
  intros -> H. destruct (procs (os s) !! p) as [pr|]; [|discriminate].
  injection H as ->. reflexivity.
Qed.










(** ** [check_alive] written out *)

Lemma check_alive_open timeout s :
  agent_open s ->
  check_alive timeout s =
    match inbox (os s) with
    | (a, e) :: rest =>
        if a <=? now (os s) + Z.max 0 timeout
        then if String.eqb (fst e) ALIVE
             then Some (Ok true, received a rest (pinged s))
             else Some (Ok false,
                        on_os (fun w => set_log (log w ++ [not_alive_log]) w)
                          (received a rest (pinged s)))
        else Some (Ok false, waited (Z.max 0 timeout) (pinged s))
    | [] => Some (Ok false, waited (Z.max 0 timeout) (pinged s))
    end.
Proof.
  intros Hopen. unfold agent_open in Hopen.
  unfold check_alive, bind, get_agent_side. rewrite Hopen.
  unfold conn_send, bind, check_closed, modify. cbn [conn_closed ret].
  fold (pinged s).
  assert (Hopen' : agent_side (self (pinged s)) = Some (mkConn false)) by exact Hopen.
  rewrite Hopen'.
  unfold conn_poll, conn_recv, bind, check_closed. cbn [conn_closed ret].
  cbv zeta.
  change (inbox (os (pinged s))) with (inbox (os s)).
  change (now (os (pinged s))) with (now (os s)).
  destruct (inbox (os s)) as [|[a e] rest] eqn:Hin; [reflexivity|].
  destruct (a <=? now (os s) + Z.max 0 timeout); [|reflexivity].
  cbn [self on_os os pinged]. rewrite Hopen. unfold ret.
  cbn [conn_closed inbox set_now os on_os].
  change (inbox (os (pinged s))) with (inbox (os s)). rewrite Hin.
  destruct (String.eqb (fst e) ALIVE); reflexivity.
Qed.

(** What [check_alive] leaves untouched. *)
Lemma check_alive_frame timeout s :
  agent_open s -> 0 <= timeout ->
  exists b s',
    check_alive timeout s = Some (Ok b, s')
    /\ self s' = self s
    /\ procs (os s') = procs (os s)
    /\ exit_at (os s') = exit_at (os s)
    /\ now (os s) <= now (os s').
Proof.
  intros Hopen Ht. rewrite check_alive_open by assumption.
  rewrite (Z.max_r 0 timeout) by exact Ht.
  destruct (inbox (os s)) as [|[a e] rest].
  - eexists _, _. split; [reflexivity|]. cbn. repeat split; lia.
  - destruct (a <=? now (os s) + timeout).
    + destruct (String.eqb (fst e) ALIVE);
        (eexists _, _; split; [reflexivity|]; cbn; repeat split; lia).
    + eexists _, _. split; [reflexivity|]. cbn. repeat split; lia.
Qed.

(** ** C3 *)




(** ** C7 *)

(** C7, as the claim states it, fails in its last part: after a completed
    [close] the probe does not return false, it raises. *)
Lemma check_alive_raises_after_close :
  close (started_sys calm []) = Some (Ok tt, stopped)
  /\ procs (os stopped) !! 0%nat = Some (mkProc calm Exited)
  /\ check_alive 60000 stopped = Some (Raise (OSError "handle is closed"), stopped).
Proof. repeat split; reflexivity. Qed.

(** C7, amended: while the agent end of the pipe is open, [check_alive]
    sends IS_ALIVE and returns a boolean, which is true exactly when the
    first envelope in the pipe arrives within the time-out (a negative
    time-out counts as 0) and carries the id ALIVE; it is false on time-out
    and when that first envelope carries any other id.  After a [close]
    that found the worker alive the agent end is closed and [check_alive]
    does not return false: its send raises [OSError], for every worker,
    every time-out and whatever is in the pipe. *)
Theorem check_alive_true_iff_first_reply_ALIVE timeout s :
  agent_open s ->
  (exists b s',
     check_alive timeout s = Some (Ok b, s')
     /\ outbox (os s') = outbox (os s) ++ [(IS_ALIVE, None)]
     /\ (b = true <->
         exists a obs rest,
           inbox (os s) = (a, (ALIVE, obs)) :: rest
           /\ a <= now (os s) + Z.max 0 timeout))
  /\ (forall p pr,
        process (self s) = Some p ->
        procs (os s) !! p = Some pr ->
        proc_alive pr = true ->
        exists s',
          close s = Some (Ok tt, s')
          /\ agent_side (self s') = Some (mkConn true)
          /\ forall timeout',
               check_alive timeout' s'
               = Some (Raise (OSError "handle is closed"), s')).
Proof.
  intros Hopen. split.
  - rewrite check_alive_open by assumption.
    destruct (inbox (os s)) as [|[a [rid obs]] rest].
    + eexists _, _. split; [reflexivity|]. split; [reflexivity|].
      split; [discriminate|]. intros (a & obs & rest & H & _). discriminate.
    + destruct (a <=? now (os s) + Z.max 0 timeout) eqn:Ha.
      * apply Z.leb_le in Ha. cbn [fst].
        destruct (String.eqb rid ALIVE) eqn:Hid.
        -- apply String.eqb_eq in Hid. subst rid.
           eexists _, _. split; [reflexivity|]. split; [reflexivity|].
           split; [eauto 6|reflexivity].
        -- apply String.eqb_neq in Hid.
           eexists _, _. split; [reflexivity|]. split; [reflexivity|].
           split; [discriminate|]. intros (a' & obs' & rest' & H & _). congruence.
      * apply Z.leb_gt in Ha.
        eexists _, _. split; [reflexivity|]. split; [reflexivity|].
        split; [discriminate|]. intros (a' & obs' & rest' & H & Hle).
        injection H as -> _ _. lia.
  - intros p pr Hp Hpr Halive.
    destruct (close_alive s p pr Hp Hpr Halive Hopen) as (s3 & _ & _ & _ & Hc).
    eexists. split; [exact Hc|].
    assert (Hclosed :
      agent_side (self (match browser_side (self s) with
                        | Some _ => closed_ends s3
                        | None =>
                            on_os (fun w => set_log
                                     (log w ++ [close_error_log (AttributeError "browser_side")]) w)
                              (on_self (set_agent_side (Some (mkConn true))) s3)
                        end)) = Some (mkConn true)).
    { destruct (browser_side (self s)); reflexivity. }
    split; [exact Hclosed|].
    intros timeout'. unfold check_alive, bind, get_agent_side. rewrite Hclosed.
    reflexivity.
Qed.

Lemma check_alive_true_iff_first_reply_ALIVE_witness :
  (exists b s',
     check_alive 5000 answering = Some (Ok b, s')
     /\ outbox (os s') = outbox (os answering) ++ [(IS_ALIVE, None)]
     /\ (b = true <->
         exists a obs rest,
           inbox (os answering) = (a, (ALIVE, obs)) :: rest
           /\ a <= now (os answering) + Z.max 0 5000))
  /\ (forall p pr,
        process (self answering) = Some p ->
        procs (os answering) !! p = Some pr ->
        proc_alive pr = true ->
        exists s',
          close answering = Some (Ok tt, s')
          /\ agent_side (self s') = Some (mkConn true)
          /\ forall timeout',
               check_alive timeout' s'
               = Some (Raise (OSError "handle is closed"), s')).
Proof.
  apply (check_alive_true_iff_first_reply_ALIVE 5000 answering).
  reflexivity.
Defined.

(** ** C6 *)

(** C6, as the claim states it, fails: with the shutdown flag already up,
    [check_alive] still blocks for its whole time-out, far longer than one
    poll interval. *)
Lemma check_alive_blocks_through_shutdown :
  exists s',
    flag_set (os shutting_down) = true
    /\ check_alive 60000 shutting_down = Some (Ok false, s')
    /\ now (os s') = now (os shutting_down) + 60000
    /\ now (os shutting_down) + POLL_INTERVAL < now (os s').
Proof. eexists. repeat split; reflexivity. Qed.

(** C6, amended: only the wait of [step] is a polling loop that looks at
    the shutdown flag on every turn, so it ends within one poll interval of
    the flag; [check_alive] (also as the liveness probe of [init_browser])
    makes one blocking poll that lasts the whole time-out when nothing
    arrives, and the joins of [close] block for the whole grace period on
    a worker that does not exit, whatever the flag. *)
Theorem only_step_polls_the_shutdown_flag timeout te s p pr :
  agent_open s ->
  process (self s) = Some p ->
  procs (os s) !! p = Some pr ->
  pstate pr = Running ->
  heeds_shutdown (temper pr) = false ->
  exit_at (os s) = Some te ->
  inbox (os s) = [] ->
  0 <= timeout ->
  (forall fuel action_str,
     (step_fuel timeout s <= fuel)%nat ->
     exists s',
       step fuel action_str timeout s = Some (Raise TimeoutError, s')
       /\ now (os s') <= Z.max (now (os s)) te + POLL_INTERVAL)
  /\ (exists s',
        check_alive timeout s = Some (Ok false, s')
        /\ now (os s') = now (os s) + timeout)
  /\ (exists s',
        close s = Some (Ok tt, s')
        /\ now (os s) + JOIN_GRACE <= now (os s')).
Proof.
  intros Hopen Hp Hpr Hrun Hdeaf Hex Hin Hto. split; [|split].
  - intros fuel action_str Hfuel.
    destruct (step_times_out fuel action_str timeout s Hopen Hto Hfuel)
      as (s' & H1 & H2 & _); [rewrite Hin; constructor|].
    exists s'. split; [exact H1|].
    rewrite Hex in H2. unfold effective_deadline in H2. lia.
  - rewrite check_alive_open by assumption. rewrite Hin.
    rewrite (Z.max_r 0 timeout) by exact Hto.
    eexists. split; reflexivity.
  - assert (Halive : proc_alive pr = true) by (unfold proc_alive; rewrite Hrun; reflexivity).
    destruct (close_alive s p pr Hp Hpr Halive Hopen) as (s3 & _ & _ & Hlate & Hc).
    eexists. split; [exact Hc|].
    specialize (Hlate Hrun Hdeaf).
    destruct (browser_side (self s)); cbn; exact Hlate.
Qed.

Lemma only_step_polls_the_shutdown_flag_witness :
  (forall fuel action_str,
     (step_fuel 100000 shutting_down <= fuel)%nat ->
     exists s',
       step fuel action_str 100000 shutting_down = Some (Raise TimeoutError, s')
       /\ now (os s') <= Z.max (now (os shutting_down)) 0 + POLL_INTERVAL)
  /\ (exists s',
        check_alive 100000 shutting_down = Some (Ok false, s')
        /\ now (os s') = now (os shutting_down) + 100000)
  /\ (exists s',
        close shutting_down = Some (Ok tt, s')
        /\ now (os shutting_down) + JOIN_GRACE <= now (os s')).
Proof.
  apply (only_step_polls_the_shutdown_flag 100000 0 shutting_down 0%nat
           (mkProc deaf Running)); try reflexivity. lia.
Defined.

(** ** C10 *)

(** Without an [agent_side] attribute, [step] and [check_alive] raise
    [AttributeError]; without a [process] attribute so does [close].  The
    object is left as it was. *)
Lemma step_without_agent_side fuel action_str timeout s :
  agent_side (self s) = None ->
  exists s',
    step fuel action_str timeout s = Some (Raise (AttributeError "agent_side"), s')
    /\ self s' = self s.
Proof.
  intros H. unfold step, bind, uuid4, get_agent_side. cbn [self on_os os].
  rewrite H. eexists. split; reflexivity.
Qed.

Lemma check_alive_without_agent_side timeout s :
  agent_side (self s) = None ->
  check_alive timeout s = Some (Raise (AttributeError "agent_side"), s).
Proof. intros H. unfold check_alive, bind, get_agent_side. rewrite H. reflexivity. Qed.

Lemma close_without_process s :
  process (self s) = None ->
  close s = Some (Raise (AttributeError "process"), s).
Proof.
  intros H. unfold close, self_process_is_alive, bind, get_process.
  rewrite H. reflexivity.
Qed.

Lemma BrowserEnv_new_unavailable browsergym_eval_env w :
  BROWSERGYM_AVAILABLE w = false ->
  exists s,
    BrowserEnv_new browsergym_eval_env w = Some (Ok tt, s)
    /\ self s = mkBrowserEnv false "" browsergym_eval_env None None None None None None
    /\ procs (os s) = procs w
    /\ outbox (os s) = outbox w.
Proof.
  intros H. unfold BrowserEnv_new, BrowserEnv_init, bind, gets, modify.
  cbn [os self on_self]. rewrite H.
  destruct (truthy browsergym_eval_env); cbn; eexists; repeat split; reflexivity.
Qed.

(** C10: with the library unavailable the constructor succeeds, spawns no
    process and creates no pipe (the three attributes stay unset), and
    [eval_mode] is false whatever identifier was passed; on that instance,
    in any later world, [step], [check_alive] and [close] raise
    [AttributeError]. *)
Theorem unavailable_library_disables_instance browsergym_eval_env w :
  BROWSERGYM_AVAILABLE w = false ->
  exists s,
    BrowserEnv_new browsergym_eval_env w = Some (Ok tt, s)
    /\ process (self s) = None
    /\ agent_side (self s) = None
    /\ browser_side (self s) = None
    /\ eval_mode (self s) = false
    /\ procs (os s) = procs w
    /\ forall s1, self s1 = self s ->
         (forall fuel action_str timeout,
            exists s', step fuel action_str timeout s1
                         = Some (Raise (AttributeError "agent_side"), s')
                       /\ self s' = self s1)
         /\ (forall timeout,
               check_alive timeout s1 = Some (Raise (AttributeError "agent_side"), s1))
         /\ close s1 = Some (Raise (AttributeError "process"), s1).
Proof.
  intros H.
  destruct (BrowserEnv_new_unavailable browsergym_eval_env w H) as (s & Hs & Hself & Hprocs & _).
  exists s. split; [exact Hs|]. rewrite Hself. cbn.
  repeat (split; [reflexivity|]). split; [exact Hprocs|].
  intros s1 H1. split; [|split].
  - intros. apply step_without_agent_side. rewrite H1. reflexivity.
  - intros. apply check_alive_without_agent_side. rewrite H1. reflexivity.
  - apply close_without_process. rewrite H1. reflexivity.
Qed.

Lemma unavailable_library_disables_instance_witness :
  exists s,
    BrowserEnv_new (Some "browsergym/miniwob.click-test") no_browsergym = Some (Ok tt, s)
    /\ process (self s) = None
    /\ agent_side (self s) = None
    /\ browser_side (self s) = None
    /\ eval_mode (self s) = false
    /\ procs (os s) = procs no_browsergym
    /\ forall s1, self s1 = self s ->
         (forall fuel action_str timeout,
            exists s', step fuel action_str timeout s1
                         = Some (Raise (AttributeError "agent_side"), s')
                       /\ self s' = self s1)
         /\ (forall timeout,
               check_alive timeout s1 = Some (Raise (AttributeError "agent_side"), s1))
         /\ close s1 = Some (Raise (AttributeError "process"), s1).
Proof.
  apply (unavailable_library_disables_instance
           (Some "browsergym/miniwob.click-test") no_browsergym).
  reflexivity.
Defined.

(** ** C4 *)

(** Once [self.process] is set, two calls of [close] in a row return
    normally, whatever the state of the process and of the pipe. *)
Lemma close_twice_returns s p pr :
  process (self s) = Some p ->
  procs (os s) !! p = Some pr ->
  exists s', (close ;;; close) s = Some (Ok tt, s').
Proof.
  intros Hp Hpr.
  destruct (proc_alive pr) eqn:Halive.
  - destruct (agent_side (self s)) as [[[|]]|] eqn:Hside.
    + destruct (close_send_raises s p pr Hp Hpr Halive) as (e & He);
        [rewrite Hside; discriminate|].
      set (s1 := on_os (fun w => set_log (log w ++ [close_error_log e]) w) s) in He.
      rewrite (bind_ok _ _ _ _ _ He).
      destruct (close_send_raises s1 p pr Hp Hpr Halive) as (e' & He');
        [change (agent_side (self s1)) with (agent_side (self s));
         rewrite Hside; discriminate|].
      rewrite He'. eauto.
    + destruct (close_alive s p pr Hp Hpr Halive Hside) as (s3 & D & L & _ & Hc).
      rewrite (bind_ok _ _ _ _ _ Hc).
      assert (Hself : process (self s3) = Some p)
        by (rewrite (drift_self _ _ _ D); exact Hp).
      eexists. eapply close_not_alive.
      * destruct (browser_side (self s)); cbn; exact Hself.
      * destruct (browser_side (self s)); cbn; exact L.
      * reflexivity.
    + destruct (close_send_raises s p pr Hp Hpr Halive) as (e & He);
        [rewrite Hside; discriminate|].
      set (s1 := on_os (fun w => set_log (log w ++ [close_error_log e]) w) s) in He.
      rewrite (bind_ok _ _ _ _ _ He).
      destruct (close_send_raises s1 p pr Hp Hpr Halive) as (e' & He');
        [change (agent_side (self s1)) with (agent_side (self s));
         rewrite Hside; discriminate|].
      rewrite He'. eauto.
  - rewrite (bind_ok _ _ _ _ _ (close_not_alive s p pr Hp Hpr Halive)).
    rewrite (close_not_alive s p pr Hp Hpr Halive). eauto.
Qed.

(** C4: the claim includes the instance built while the library is
    unavailable; there [self.process] was never assigned and [close]
    raises. *)
Theorem close_raises_when_library_unavailable :
  exists s,
    BrowserEnv_new None no_browsergym = Some (Ok tt, s)
    /\ close s = Some (Raise (AttributeError "process"), s).
Proof. eexists. split; reflexivity. Qed.

(** ** One attempt of [init_browser] *)

(** What [spawn_worker] does: the new process is the last of the table and
    [self.process]; it runs (or has already crashed) when nothing raised,
    and was not started when [start()] raised. *)
Lemma spawn_worker_spec s :
  let n := length (procs (os s)) in
  exists o s' st,
    spawn_worker s = Some (o, s')
    /\ procs (os s') = procs (os s) ++ [mkProc (spawn (os s) n) st]
    /\ self s' = set_process (Some n) (self s)
    /\ exit_at (os s') = exit_at (os s)
    /\ spawn (os s') = spawn (os s)
    /\ now (os s') = now (os s)
    /\ match o with
       | Ok _ => st <> Unstarted /\ either_closed (self s) = false
       | Raise e => st = Unstarted /\ exists m, e = OSError m
       end.
Proof.
  intros n. unfold spawn_worker, try_except, bind, Process_new, modify, get_process,
    Process_start, lookup_proc, update_proc, modify, logger, raise.
  cbn [os self on_os on_self process set_process procs set_procs].
  fold n. rewrite list_lookup_middle by reflexivity.
  change (either_closed _) with (either_closed (self s)).
  destruct (either_closed (self s)) eqn:Hc.
  { cbn. eexists _, _, Unstarted. repeat split; eauto. }
  cbn [temper].
  destruct (start_fails (spawn (os s) n)).
  { cbn. eexists _, _, Unstarted. repeat split; eauto. }
  eexists _, _, (if crashes (spawn (os s) n) then Exited else Running).
  split; [reflexivity|]. cbn.
  rewrite alter_app_r_alt by reflexivity. fold n. rewrite Nat.sub_diag. cbn.
  repeat split; auto. destruct (crashes _); discriminate.
Qed.

Lemma ends_open s :
  ends_set s -> either_closed (self s) = false -> agent_open s.
Proof.
  unfold ends_set, either_closed, agent_open. intros [Ha Hb].
  destruct (agent_side (self s)) as [[ca]|]; [|congruence].
  destruct (browser_side (self s)) as [[cb]|]; [|congruence].
  cbn. intros H. apply orb_false_iff in H as [_ ->]. reflexivity.
Qed.

Lemma init_browser_attempt_spec s :
  ends_set s ->
  exists o s',
    init_browser_attempt s = Some (o, s')
    /\ ends_set s'
    /\ length (procs (os s')) = S (length (procs (os s)))
    /\ old_alive_same (length (procs (os s))) s s'
    /\ exit_at (os s') = exit_at (os s)
    /\ match o with
       | Ok _ => True
       | Raise e =>
           (e = BrowserInitException \/ exists m, e = OSError m)
           /\ exists pr,
                procs (os s') !! length (procs (os s)) = Some pr
                /\ proc_alive pr = false
       end.
Proof.
  intros Hends. pose proof Hends as [Ha Hb].
  set (n := length (procs (os s))).
  unfold init_browser_attempt.
  set (s0 := on_os (fun w => set_log (log w ++ [(DEBUG, "Starting browser env...", None)]) w) s).
  assert (Hl : logger DEBUG "Starting browser env..." None s = Some (Ok tt, s0))
    by reflexivity.
  rewrite (bind_ok _ _ _ _ _ Hl).
  destruct (spawn_worker_spec s0) as (o1 & s1 & st & S1 & S2 & S3 & S4 & _ & _ & S7).
  change (length (procs (os s0))) with n in S2, S3.
  change (procs (os s0)) with (procs (os s)) in S2.
  change (self s0) with (self s) in S3, S7.
  change (exit_at (os s0)) with (exit_at (os s)) in S4.
  assert (Hends1 : ends_set s1)
    by (unfold ends_set; rewrite S3; exact Hends).
  assert (Hlen1 : length (procs (os s1)) = S n)
    by (rewrite S2, length_app; cbn; fold n; lia).
  assert (Hold1 : old_alive_same n s s1).
  { intros q Hq. rewrite S2, lookup_app_l by (fold n; lia). reflexivity. }
  assert (Hnew1 : procs (os s1) !! n = Some (mkProc (spawn (os s0) n) st))
    by (rewrite S2; apply list_lookup_middle; reflexivity).
  destruct o1 as [[]|e].
  - rewrite (bind_ok _ _ _ _ _ S1). destruct S7 as [Hst Hclosed].
    assert (Hopen1 : agent_open s1).
    { apply ends_open; [exact Hends1|]. rewrite S3. exact Hclosed. }
    destruct (check_alive_frame INIT_PROBE_TIMEOUT s1 Hopen1)
      as (b & s2 & C1 & C2 & C3 & C4 & _); [unfold INIT_PROBE_TIMEOUT; lia|].
    rewrite (bind_ok _ _ _ _ _ C1).
    assert (Hends2 : ends_set s2) by (unfold ends_set; rewrite C2; exact Hends1).
    destruct b; cbn [negb].
    + exists (Ok tt), s2. split; [reflexivity|]. split; [exact Hends2|].
      split; [rewrite C3; exact Hlen1|].
      split; [intros q Hq; rewrite C3; apply Hold1; exact Hq|].
      split; [congruence | exact I].
    + assert (Hp2 : process (self s2) = Some n) by (rewrite C2, S3; reflexivity).
      assert (Hpr2 : procs (os s2) !! n = Some (mkProc (spawn (os s0) n) st))
        by (rewrite C3; exact Hnew1).
      destruct (proc_alive (mkProc (spawn (os s0) n) st)) eqn:Halive.
      * assert (Hopen2 : agent_open s2) by (unfold agent_open; rewrite C2; exact Hopen1).
        destruct (close_alive s2 n _ Hp2 Hpr2 Halive Hopen2) as (s3 & D & L & _ & Hc).
        rewrite (bind_ok _ _ _ _ _ Hc).
        destruct Hends2 as [Ha2 Hb2].
        destruct (browser_side (self s2)) as [cb|]; [|congruence].
        destruct D as (D1 & D2 & D3 & _ & _ & _ & D7 & _).
        exists (Raise BrowserInitException), (closed_ends s3).
        split; [reflexivity|]. split; [split; discriminate|].
        split.
        { cbn. rewrite D2. unfold told_to_stop. cbn.
          rewrite length_fmap, C3. exact Hlen1. }
        split.
        { intros q Hq. cbn. rewrite D3 by lia. unfold told_to_stop. cbn.
          rewrite list_lookup_fmap, C3, <- (Hold1 q Hq).
          destruct (procs (os s1) !! q) as [pr|]; cbn; [|reflexivity].
          rewrite hear_shutdown_alive. reflexivity. }
        split.
        { cbn. rewrite D7. unfold told_to_stop. cbn. congruence. }
        split; [auto|]. eexists. split; [exact L|reflexivity].
      * rewrite (bind_ok _ _ _ _ _ (close_not_alive s2 n _ Hp2 Hpr2 Halive)).
        exists (Raise BrowserInitException), s2.
        split; [reflexivity|]. split; [exact Hends2|].
        split; [rewrite C3; exact Hlen1|].
        split; [intros q Hq; rewrite C3; apply Hold1; exact Hq|].
        split; [congruence|]. split; [auto|]. eauto.
  - rewrite (bind_raise _ _ _ _ _ S1). destruct S7 as [-> [m ->]].
    exists (Raise (OSError m)), s1.
    split; [reflexivity|]. split; [exact Hends1|]. split; [exact Hlen1|].
    split; [exact Hold1|]. split; [exact S4|]. split; [eauto|]. eauto.
Qed.

(** ** The retry loop *)

Lemma tenacity_retry_spec k :
  forall s,
    ends_set s ->
    exists o s',
      tenacity_retry k init_browser_attempt s = Some (o, s')
      /\ (length (procs (os s)) < length (procs (os s'))
          <= length (procs (os s)) + S k)%nat
      /\ old_alive_same (length (procs (os s))) s s'
      /\ match o with
         | Ok _ => True
         | Raise e =>
             ((e = RetryError
               /\ (length (procs (os s')) = (length (procs (os s)) + S k)%nat
                   \/ flag_set (os s') = true))
              \/ exists m, e = OSError m)
             /\ spawned_quiet (length (procs (os s))) s'
         end.
Proof.
  induction k as [|k IH]; intros s Hends;
    destruct (init_browser_attempt_spec s Hends)
      as (o1 & s1 & A1 & A2 & A3 & A4 & A5 & A6);
    cbn [tenacity_retry]; rewrite A1.
  - destruct o1 as [[]|e].
    + exists (Ok tt), s1. split; [reflexivity|]. split; [lia|]. split; [exact A4 | exact I].
    + destruct A6 as [[-> | [m ->]] (pr & Hpr & Hdead)]; cbn [is_BrowserInitException].
      * exists (Raise RetryError), s1. split; [reflexivity|]. split; [lia|].
        split; [exact A4|]. split; [left; split; [reflexivity | left; lia]|].
        intros q pr' Hq Hq'. apply lookup_lt_Some in Hq' as Hlt.
        assert (q = length (procs (os s))) by lia. subst q. congruence.
      * exists (Raise (OSError m)), s1. split; [reflexivity|]. split; [lia|].
        split; [exact A4|]. split; [eauto|].
        intros q pr' Hq Hq'. apply lookup_lt_Some in Hq' as Hlt.
        assert (q = length (procs (os s))) by lia. subst q. congruence.
  - destruct o1 as [[]|e].
    + exists (Ok tt), s1. split; [reflexivity|]. split; [lia|]. split; [exact A4 | exact I].
    + destruct A6 as [[-> | [m ->]] (pr & Hpr & Hdead)]; cbn [is_BrowserInitException].
      * destruct (flag_set (os s1)) eqn:Hflag.
        -- exists (Raise RetryError), s1. split; [reflexivity|]. split; [lia|].
           split; [exact A4|]. split; [left; split; [reflexivity | right; exact Hflag]|].
           intros q pr' Hq Hq'. apply lookup_lt_Some in Hq' as Hlt.
           assert (q = length (procs (os s))) by lia. subst q. congruence.
        -- set (s2 := on_os (fun w => set_now (now w + RETRY_WAIT) w) s1).
           assert (Hsl : sleep RETRY_WAIT s1 = Some (Ok tt, s2)) by reflexivity.
           rewrite (bind_ok _ _ _ _ _ Hsl).
           destruct (IH s2 A2) as (o & s' & B1 & B2 & B3 & B4).
           change (procs (os s2)) with (procs (os s1)) in B2, B3, B4.
           rewrite A3 in B2, B3, B4.
           exists o, s'. split; [exact B1|]. split; [lia|].
           split.
           { intros q Hq. rewrite (B3 q) by lia. apply A4. exact Hq. }
           destruct o as [[]|e]; [exact I|]. destruct B4 as [Hcase Hquiet].
           split.
           { destruct Hcase as [[-> Hwhy]|Hos]; [left|right; exact Hos].
             split; [reflexivity|]. destruct Hwhy as [Hlen|Hf]; [left; lia | right; exact Hf]. }
           intros q pr' Hq Hq'.
           destruct (decide (q = length (procs (os s)))) as [->|Hne].
           ++ specialize (B3 (length (procs (os s))) ltac:(lia)).
              change (procs (os s2)) with (procs (os s1)) in B3.
              rewrite Hq', Hpr in B3. cbn in B3. congruence.
           ++ apply (Hquiet q pr'); [lia | exact Hq'].
      * exists (Raise (OSError m)), s1. split; [reflexivity|]. split; [lia|].
        split; [exact A4|]. split; [eauto|].
        intros q pr' Hq Hq'. apply lookup_lt_Some in Hq' as Hlt.
        assert (q = length (procs (os s))) by lia. subst q. congruence.
Qed.

Lemma pipe_open_not_closed s : pipe_open s -> either_closed (self s) = false.
Proof. unfold pipe_open, either_closed. intros [-> ->]. reflexivity. Qed.

(** [spawn_worker] when the pipe is open and [start()] works. *)
Lemma spawn_worker_ok s :
  either_closed (self s) = false ->
  start_fails (spawn (os s) (length (procs (os s)))) = false ->
  spawn_worker s = Some (Ok tt, spawned s).
Proof.
  intros Hc Hsf.
  unfold spawn_worker, try_except, bind, Process_new, modify, get_process,
    Process_start, lookup_proc, update_proc, modify.
  cbn [os self on_os on_self process set_process procs set_procs].
  rewrite list_lookup_middle by reflexivity.
  change (either_closed _) with (either_closed (self s)). rewrite Hc.
  cbn [temper]. rewrite Hsf.
  unfold spawned, on_os, on_self, set_procs. cbn.
  rewrite alter_app_r_alt by reflexivity. rewrite Nat.sub_diag. reflexivity.
Qed.

(** [spawn_worker] when an end of the pipe has been closed. *)
Lemma spawn_worker_on_closed_pipe s :
  either_closed (self s) = true ->
  exists s',
    spawn_worker s = Some (Raise (OSError "handle is closed"), s')
    /\ self s' = set_process (Some (length (procs (os s)))) (self s)
    /\ procs (os s') = procs (os s)
                       ++ [mkProc (spawn (os s) (length (procs (os s)))) Unstarted].
Proof.
  intros Hc.
  unfold spawn_worker, try_except, bind, Process_new, modify, get_process,
    Process_start, lookup_proc, update_proc, modify.
  cbn [os self on_os on_self process set_process procs set_procs].
  rewrite list_lookup_middle by reflexivity.
  change (either_closed _) with (either_closed (self s)). rewrite Hc.
  cbn. eexists. repeat split.
Qed.

(** An attempt whose worker runs but whose probe stays unanswered: [close]
    shuts the worker down and closes the pipe. *)
Lemma init_browser_attempt_hung s :
  pipe_open s ->
  start_fails (spawn (os s) (length (procs (os s)))) = false ->
  crashes (spawn (os s) (length (procs (os s)))) = false ->
  inbox (os s) = [] ->
  exists s',
    init_browser_attempt s = Some (Raise BrowserInitException, s')
    /\ agent_side (self s') = Some (mkConn true)
    /\ browser_side (self s') = Some (mkConn true)
    /\ length (procs (os s')) = S (length (procs (os s)))
    /\ spawned_quiet (length (procs (os s))) s'
    /\ exit_at (os s') = exit_at (os s)
    /\ now (os s) + INIT_PROBE_TIMEOUT <= now (os s').
Proof.
  intros Hpipe Hsf Hcr Hin. pose proof Hpipe as [Hag Hbr].
  unfold init_browser_attempt.
  assert (Hl : logger DEBUG "Starting browser env..." None s
               = Some (Ok tt, logged starting_log s)) by reflexivity.
  rewrite (bind_ok _ _ _ _ _ Hl).
  rewrite (bind_ok _ _ _ _ _
             (spawn_worker_ok (logged starting_log s)
                (pipe_open_not_closed s Hpipe) Hsf)).
  set (n := length (procs (os s))) in *.
  set (s1 := spawned (logged starting_log s)).
  assert (Hopen1 : agent_open s1) by exact Hag.
  assert (Hc : check_alive INIT_PROBE_TIMEOUT s1
               = Some (Ok false, waited INIT_PROBE_TIMEOUT (pinged s1))).
  { rewrite check_alive_open by exact Hopen1.
    change (Z.max 0 INIT_PROBE_TIMEOUT) with INIT_PROBE_TIMEOUT.
    change (inbox (os s1)) with (inbox (os s)). rewrite Hin. reflexivity. }
  rewrite (bind_ok _ _ _ _ _ Hc). cbn [negb].
  set (s2 := waited INIT_PROBE_TIMEOUT (pinged s1)).
  assert (Hprocs2 : procs (os s2) = procs (os s) ++ [mkProc (spawn (os s) n) Running]).
  { unfold s2, s1, spawned. cbn. fold n. rewrite Hcr. reflexivity. }
  assert (Hp2 : process (self s2) = Some n) by reflexivity.
  assert (Hpr2 : procs (os s2) !! n = Some (mkProc (spawn (os s) n) Running))
    by (rewrite Hprocs2; apply list_lookup_middle; reflexivity).
  destruct (close_alive s2 n _ Hp2 Hpr2 eq_refl Hag) as (s3 & D & L & _ & Hclose).
  change (browser_side (self s2)) with (browser_side (self s)) in Hclose.
  rewrite Hbr in Hclose.
  rewrite (bind_ok _ _ _ _ _ Hclose).
  exists (closed_ends s3). split; [reflexivity|].
  destruct D as (D1 & D2 & D3 & _ & _ & _ & D7 & D8).
  split; [reflexivity|]. split; [reflexivity|].
  assert (Hlen : length (procs (os s3)) = S n).
  { rewrite D2. unfold told_to_stop. cbn [os on_os].
    change (procs (deliver (SHUTDOWN, None) (os s2)))
      with (hear_shutdown <$> procs (os s2)).
    rewrite length_fmap, Hprocs2, length_app. cbn. fold n. lia. }
  split; [exact Hlen|]. split.
  - intros q pr Hq Hlook. cbn in Hlook.
    apply lookup_lt_Some in Hlook as Hlt. fold n in Hq.
    assert (q = n) by lia. subst q. rewrite L in Hlook.
    injection Hlook as <-. reflexivity.
  - split; [cbn; rewrite D7; reflexivity|].
    cbn. cbn in D8. exact D8.
Qed.

(** [spawn_worker] when [start()] fails on an open pipe. *)
Lemma spawn_worker_start_fails s :
  either_closed (self s) = false ->
  start_fails (spawn (os s) (length (procs (os s)))) = true ->
  exists s',
    spawn_worker s = Some (Raise (OSError "spawn failed"), s')
    /\ procs (os s') = procs (os s)
                       ++ [mkProc (spawn (os s) (length (procs (os s)))) Unstarted]
    /\ now (os s') = now (os s).
Proof.
  intros Hc Hsf.
  unfold spawn_worker, try_except, bind, Process_new, modify, get_process,
    Process_start, lookup_proc, update_proc, modify.
  cbn [os self on_os on_self process set_process procs set_procs].
  rewrite list_lookup_middle by reflexivity.
  change (either_closed _) with (either_closed (self s)). rewrite Hc.
  cbn [temper]. rewrite Hsf.
  cbn. eexists. repeat split.
Qed.

(** An attempt whose worker has died on its own and sent nothing: the probe
    lasts its 200 s, [close] finds nothing to do, the pipe stays open. *)
Lemma init_browser_attempt_stillborn s :
  pipe_open s ->
  start_fails (spawn (os s) (length (procs (os s)))) = false ->
  crashes (spawn (os s) (length (procs (os s)))) = true ->
  inbox (os s) = [] ->
  init_browser_attempt s
  = Some (Raise BrowserInitException,
          waited INIT_PROBE_TIMEOUT (pinged (spawned (logged starting_log s)))).
Proof.
  intros Hpipe Hsf Hcr Hin. pose proof Hpipe as [Hag Hbr].
  unfold init_browser_attempt.
  assert (Hl : logger DEBUG "Starting browser env..." None s
               = Some (Ok tt, logged starting_log s)) by reflexivity.
  rewrite (bind_ok _ _ _ _ _ Hl).
  rewrite (bind_ok _ _ _ _ _
             (spawn_worker_ok (logged starting_log s)
                (pipe_open_not_closed s Hpipe) Hsf)).
  set (n := length (procs (os s))) in *.
  set (s1 := spawned (logged starting_log s)).
  assert (Hopen1 : agent_open s1) by exact Hag.
  assert (Hc : check_alive INIT_PROBE_TIMEOUT s1
               = Some (Ok false, waited INIT_PROBE_TIMEOUT (pinged s1))).
  { rewrite check_alive_open by exact Hopen1.
    change (Z.max 0 INIT_PROBE_TIMEOUT) with INIT_PROBE_TIMEOUT.
    change (inbox (os s1)) with (inbox (os s)). rewrite Hin. reflexivity. }
  rewrite (bind_ok _ _ _ _ _ Hc). cbn [negb].
  set (s2 := waited INIT_PROBE_TIMEOUT (pinged s1)).
  assert (Hprocs2 : procs (os s2) = procs (os s) ++ [mkProc (spawn (os s) n) Exited]).
  { unfold s2, s1, spawned. cbn. fold n. rewrite Hcr. reflexivity. }
  assert (Hp2 : process (self s2) = Some n) by reflexivity.
  assert (Hpr2 : procs (os s2) !! n = Some (mkProc (spawn (os s) n) Exited))
    by (rewrite Hprocs2; apply list_lookup_middle; reflexivity).
  rewrite (bind_ok _ _ _ _ _ (close_not_alive s2 n _ Hp2 Hpr2 eq_refl)).
  reflexivity.
Qed.

(** The shutdown flag as a proposition. *)
Lemma flag_set_up w : flag_set w = true <-> flag_up_at (exit_at w) (now w).
Proof.
  unfold flag_set, flag_up_at. destruct (exit_at w) as [te|].
  - apply Z.leb_le.
  - split; [discriminate | contradiction].
Qed.

Lemma flag_up_later ex t t' : t <= t' -> flag_up_at ex t -> flag_up_at ex t'.
Proof. unfold flag_up_at. destruct ex; [lia | auto]. Qed.

(** The retries when every worker dies on its own and sends nothing: the
    [k]-th probe ends at [now + k * 200 s + (k - 1) * 1 s], and the loop
    stops at the first of these moments at which the shutdown flag is up,
    at the latest after the last attempt. *)
Lemma tenacity_retry_stillborn n :
  forall s,
    pipe_open s ->
    inbox (os s) = [] ->
    (forall m, (length (procs (os s)) <= m)%nat ->
       start_fails (spawn (os s) m) = false /\ crashes (spawn (os s) m) = true) ->
    exists (k : nat) s',
      tenacity_retry n init_browser_attempt s = Some (Raise RetryError, s')
      /\ (1 <= k <= S n)%nat
      /\ length (procs (os s')) = (length (procs (os s)) + k)%nat
      /\ now (os s')
         = now (os s) + Z.of_nat k * INIT_PROBE_TIMEOUT + (Z.of_nat k - 1) * RETRY_WAIT
      /\ ((k < S n)%nat -> flag_up_at (exit_at (os s)) (now (os s')))
      /\ (forall i : nat, (1 <= i < k)%nat ->
            ~ flag_up_at (exit_at (os s))
                (now (os s) + Z.of_nat i * INIT_PROBE_TIMEOUT
                 + (Z.of_nat i - 1) * RETRY_WAIT)).
Proof.
  induction n as [|n IH]; intros s Hpipe Hin Hdie;
    destruct (Hdie (length (procs (os s))) (le_n _)) as [Hsf Hcr];
    pose proof (init_browser_attempt_stillborn s Hpipe Hsf Hcr Hin) as Hatt;
    set (s1 := waited INIT_PROBE_TIMEOUT (pinged (spawned (logged starting_log s)))) in *;
    assert (Hlen1 : length (procs (os s1)) = S (length (procs (os s))))
      by (unfold s1, spawned; cbn; rewrite length_app; cbn; lia);
    assert (Hnow1 : now (os s1) = now (os s) + INIT_PROBE_TIMEOUT)
      by reflexivity;
    cbn [tenacity_retry]; rewrite Hatt; cbn [is_BrowserInitException].
  - exists 1%nat, s1. split; [reflexivity|]. split; [lia|]. split; [lia|].
    split; [rewrite Hnow1; lia|]. split; [lia|]. intros i Hi. lia.
  - destruct (flag_set (os s1)) eqn:Hflag.
    + exists 1%nat, s1. split; [reflexivity|]. split; [lia|]. split; [lia|].
      split; [rewrite Hnow1; lia|].
      split; [intros _; apply flag_set_up in Hflag; exact Hflag|].
      intros i Hi. lia.
    + set (s2 := on_os (fun w => set_now (now w + RETRY_WAIT) w) s1).
      assert (Hsl : sleep RETRY_WAIT s1 = Some (Ok tt, s2)) by reflexivity.
      rewrite (bind_ok _ _ _ _ _ Hsl).
      destruct (IH s2) as (k & s' & B1 & B2 & B3 & B4 & B5 & B6).
      { exact Hpipe. }
      { exact Hin. }
      { intros m Hm. apply Hdie.
        change (procs (os s2)) with (procs (os s1)) in Hm. lia. }
      change (procs (os s2)) with (procs (os s1)) in B3.
      change (now (os s2)) with (now (os s1) + RETRY_WAIT) in B4, B6.
      change (exit_at (os s2)) with (exit_at (os s)) in B5, B6.
      exists (S k), s'. split; [exact B1|]. split; [lia|].
      split; [rewrite B3, Hlen1; lia|].
      split; [rewrite B4, Hnow1; lia|].
      split; [intros Hk; apply B5; lia|].
      intros i Hi Hup.
      destruct (decide (i = 1%nat)) as [->|Hne].
      * assert (Hf : flag_set (os s1) = true).
        { apply flag_set_up. rewrite Hnow1.
          eapply flag_up_later; [|exact Hup]. lia. }
        congruence.
      * apply (B6 (i - 1)%nat); [lia|].
        eapply flag_up_later; [|exact Hup]. rewrite Hnow1. lia.
Qed.

(** ** C5 *)

(** C5, as the claim states it, fails: after the fifth failed probe the
    constructor does not fail with [BrowserInitException] but with
    tenacity's [RetryError].  Five processes were spawned, four waits of
    one second lie between the five probes of 200 s, none is alive. *)
Lemma init_browser_exhaustion_raises_RetryError :
  BrowserEnv_new None workers_die = Some (Raise RetryError, exhausted)
  /\ length (procs (os exhausted)) = 5%nat
  /\ now (os exhausted) = 5 * INIT_PROBE_TIMEOUT + 4 * RETRY_WAIT
  /\ Forall (fun pr => proc_alive pr = false) (procs (os exhausted)).
Proof.
  split; [vm_compute; reflexivity|]. split; [vm_compute; reflexivity|].
  split; [vm_compute; reflexivity|].
  apply Forall_forall. intros pr Hin. vm_compute in Hin.
  repeat (apply elem_of_cons in Hin as [->|Hin]; [reflexivity|]).
  apply elem_of_nil in Hin. contradiction.
Qed.

(** C5, amended: [init_browser] returns after at least one and at most
    five attempts (one process each).  When it fails, it fails either with
    tenacity's [RetryError] -- after the fifth failed liveness probe, or
    earlier when the shutdown flag is up after a failed probe -- or with
    the error raised by starting the process; in both cases [close] has run
    after every failed probe and none of the processes spawned by this call
    is alive.  An error of the start is not retried: it ends the call at
    once, after one process and without any wait.  A failed probe with the
    shutdown flag up ends the call at once with [RetryError], after one
    process.  Between two attempts lies a wait of 1 s: when every worker
    dies on its own and sends nothing, the [k]-th probe ends
    [k * 200 s + (k - 1) * 1 s] after the start, and the call ends with
    [RetryError] at the first of these moments at which the flag is up, at
    the latest at the fifth. *)
Theorem init_browser_bounded_retry s :
  ends_set s ->
  (exists o s',
     init_browser s = Some (o, s')
     /\ (length (procs (os s)) < length (procs (os s'))
         <= length (procs (os s)) + MAX_ATTEMPTS)%nat
     /\ match o with
        | Ok _ => True
        | Raise e =>
            ((e = RetryError
              /\ (length (procs (os s')) = (length (procs (os s)) + MAX_ATTEMPTS)%nat
                  \/ flag_set (os s') = true))
             \/ exists m, e = OSError m)
            /\ spawned_quiet (length (procs (os s))) s'
        end)
  /\ (either_closed (self s) = true
      \/ start_fails (spawn (os s) (length (procs (os s)))) = true ->
      exists m s',
        init_browser s = Some (Raise (OSError m), s')
        /\ length (procs (os s')) = S (length (procs (os s)))
        /\ now (os s') = now (os s))
  /\ (pipe_open s ->
      inbox (os s) = [] ->
      start_fails (spawn (os s) (length (procs (os s)))) = false ->
      flag_up_at (exit_at (os s)) (now (os s) + INIT_PROBE_TIMEOUT) ->
      exists s',
        init_browser s = Some (Raise RetryError, s')
        /\ length (procs (os s')) = S (length (procs (os s))))
  /\ (pipe_open s ->
      inbox (os s) = [] ->
      (forall m, (length (procs (os s)) <= m)%nat ->
         start_fails (spawn (os s) m) = false /\ crashes (spawn (os s) m) = true) ->
      exists (k : nat) s',
        init_browser s = Some (Raise RetryError, s')
        /\ (1 <= k <= MAX_ATTEMPTS)%nat
        /\ length (procs (os s')) = (length (procs (os s)) + k)%nat
        /\ now (os s')
           = now (os s) + Z.of_nat k * INIT_PROBE_TIMEOUT
             + (Z.of_nat k - 1) * RETRY_WAIT
        /\ ((k < MAX_ATTEMPTS)%nat -> flag_up_at (exit_at (os s)) (now (os s')))
        /\ (forall i : nat, (1 <= i < k)%nat ->
              ~ flag_up_at (exit_at (os s))
                  (now (os s) + Z.of_nat i * INIT_PROBE_TIMEOUT
                   + (Z.of_nat i - 1) * RETRY_WAIT))).
Proof.
  intros Hends. split; [|split; [|split]].
  - unfold init_browser.
    destruct (tenacity_retry_spec (MAX_ATTEMPTS - 1) s Hends)
      as (o & s' & H1 & H2 & _ & H4).
    exists o, s'. split; [exact H1|]. split; [exact H2|]. exact H4.
  - intros Hbad.
    assert (Hspawn : exists m s1,
              spawn_worker (logged starting_log s) = Some (Raise (OSError m), s1)
              /\ length (procs (os s1)) = S (length (procs (os s)))
              /\ now (os s1) = now (os s)).
    { destruct (either_closed (self s)) eqn:Hc.
      - destruct (spawn_worker_on_closed_pipe (logged starting_log s) Hc)
          as (s1 & B1 & _ & B3).
        exists "handle is closed", s1. split; [exact B1|].
        split; [rewrite B3, length_app; cbn; lia|].
        revert B1. unfold spawn_worker, try_except, bind, Process_new, modify,
          get_process, Process_start, lookup_proc.
        cbn [os self on_os on_self process set_process procs set_procs].
        rewrite list_lookup_middle by reflexivity.
        change (either_closed _) with (either_closed (self s)). rewrite Hc.
        cbn. intros B1. injection B1 as <-. reflexivity.
      - destruct Hbad as [Hbad | Hsf]; [discriminate|].
        destruct (spawn_worker_start_fails (logged starting_log s) Hc Hsf)
          as (s1 & B1 & B2 & B3).
        exists "spawn failed", s1. split; [exact B1|].
        split; [rewrite B2, length_app; cbn; lia | exact B3]. }
    destruct Hspawn as (m & s1 & B1 & B2 & B3).
    exists m, s1. split; [|split; [exact B2 | exact B3]].
    assert (Hatt : init_browser_attempt s = Some (Raise (OSError m), s1)).
    { unfold init_browser_attempt.
      assert (Hl : logger DEBUG "Starting browser env..." None s
                   = Some (Ok tt, logged starting_log s)) by reflexivity.
      rewrite (bind_ok _ _ _ _ _ Hl). rewrite (bind_raise _ _ _ _ _ B1). reflexivity. }
    unfold init_browser. cbn [tenacity_retry MAX_ATTEMPTS Nat.sub].
    rewrite Hatt. reflexivity.
  - intros Hpipe Hin Hsf Hflag.
    assert (Hatt : exists s1,
              init_browser_attempt s = Some (Raise BrowserInitException, s1)
              /\ length (procs (os s1)) = S (length (procs (os s)))
              /\ exit_at (os s1) = exit_at (os s)
              /\ now (os s) + INIT_PROBE_TIMEOUT <= now (os s1)).
    { destruct (crashes (spawn (os s) (length (procs (os s))))) eqn:Hcr.
      - eexists. split; [exact (init_browser_attempt_stillborn s Hpipe Hsf Hcr Hin)|].
        split; [unfold spawned; cbn; rewrite length_app; cbn; lia|].
        split; [reflexivity | cbn; lia].
      - destruct (init_browser_attempt_hung s Hpipe Hsf Hcr Hin)
          as (s1 & A1 & _ & _ & A4 & _ & A6 & A7).
        exists s1. auto. }
    destruct Hatt as (s1 & A1 & A2 & A3 & A4).
    exists s1. split; [|exact A2].
    unfold init_browser. cbn [tenacity_retry MAX_ATTEMPTS Nat.sub].
    rewrite A1. cbn [is_BrowserInitException].
    assert (Hf : flag_set (os s1) = true).
    { apply flag_set_up. rewrite A3. eapply flag_up_later; [exact A4 | exact Hflag]. }
    rewrite Hf. reflexivity.
  - intros Hpipe Hin Hdie. unfold init_browser.
    exact (tenacity_retry_stillborn (MAX_ATTEMPTS - 1) s Hpipe Hin Hdie).
Qed.

Lemma init_browser_bounded_retry_witness :
  exists (k : nat) s',
    init_browser (mkSys piped_env workers_die) = Some (Raise RetryError, s')
    /\ k = MAX_ATTEMPTS
    /\ length (procs (os s')) = k
    /\ now (os s') = 5 * INIT_PROBE_TIMEOUT + 4 * RETRY_WAIT.
Proof.
  destruct (init_browser_bounded_retry (mkSys piped_env workers_die))
    as (_ & _ & _ & Hretry); [split; discriminate|].
  destruct Hretry as (k & s' & H1 & H2 & H3 & H4 & H5 & _).
  - split; reflexivity.
  - reflexivity.
  - intros m _. split; reflexivity.
  - assert (Hk : k = MAX_ATTEMPTS).
    { destruct (decide (k < MAX_ATTEMPTS)%nat) as [Hlt|Hge]; [|lia].
      destruct (H5 Hlt). }
    exists k, s'. split; [exact H1|]. split; [exact Hk|].
    split; [exact H3|]. rewrite H4, Hk. reflexivity.
Defined.

(** * Properties of the worker loop *)

Lemma interruptible_undisturbed {A} (m : M A) s :
  undisturbed s -> interruptible m s = m s.
Proof. unfold undisturbed, interruptible. intros ->. reflexivity. Qed.

Lemma gym_deliver e w : gym (deliver e w) = gym w.
Proof. unfold deliver. destruct (String.eqb (fst e) SHUTDOWN); reflexivity. Qed.

Lemma procs_deliver_other e w :
  fst e <> SHUTDOWN -> procs (deliver e w) = procs w.
Proof.
  intros H. apply String.eqb_neq in H. unfold deliver. rewrite H. reflexivity.
Qed.

(** A reply sent by an undisturbed worker. *)
Lemma reply_sends e s :
  browser_open s -> undisturbed s ->
  reply e s = Some (Ok tt, on_os (deliver e) s).
Proof.
  intros Hb Hu. unfold browser_open in Hb.
  unfold reply, bind, get_browser_side. rewrite Hb.
  rewrite interruptible_undisturbed by exact Hu. reflexivity.
Qed.

Lemma handle_get_goal rid d goal urls s :
  browser_open s -> undisturbed s ->
  rid <> SHUTDOWN -> rid <> IS_ALIVE ->
  dict_get d "action" = Some (VStr BROWSER_EVAL_GET_GOAL_ACTION) ->
  eval_goal (self s) = Some goal ->
  goal_image_urls (self s) = Some urls ->
  handle (rid, Some d) s
    = Some (Ok Continue, on_os (deliver (rid, Some (goal_reply goal urls))) s).
Proof.
  intros Hb Hu H1 H2 Ha Hg Hi.
  apply String.eqb_neq in H1, H2.
  unfold handle. cbn [fst snd]. rewrite H1, H2.
  unfold payload_subscript, subscript. rewrite Ha.
  unfold bind at 1. cbn [ret is_str].
  change (String.eqb BROWSER_EVAL_GET_GOAL_ACTION BROWSER_EVAL_GET_GOAL_ACTION) with true.
  cbn iota. unfold bind, get_eval_goal, get_goal_image_urls. rewrite Hg, Hi.
  rewrite reply_sends by assumption. reflexivity.
Qed.

Lemma handle_get_rewards rid d rewards s :
  browser_open s -> undisturbed s ->
  rid <> SHUTDOWN -> rid <> IS_ALIVE ->
  dict_get d "action" = Some (VStr BROWSER_EVAL_GET_REWARDS_ACTION) ->
  eval_rewards (self s) = Some rewards ->
  handle (rid, Some d) s
    = Some (Ok Continue,
            on_os (deliver (rid, Some (rewards_reply (gym (os s)) rewards))) s).
Proof.
  intros Hb Hu H1 H2 Ha Hr.
  apply String.eqb_neq in H1, H2.
  unfold handle. cbn [fst snd]. rewrite H1, H2.
  unfold payload_subscript, subscript. rewrite Ha.
  unfold bind at 1. cbn [ret is_str].
  change (String.eqb BROWSER_EVAL_GET_REWARDS_ACTION BROWSER_EVAL_GET_GOAL_ACTION) with false.
  cbn iota. unfold bind at 1. cbn [ret is_str].
  change (String.eqb BROWSER_EVAL_GET_REWARDS_ACTION BROWSER_EVAL_GET_REWARDS_ACTION) with true.
  cbn iota. unfold bind, get_eval_rewards, gets. rewrite Hr.
  rewrite reply_sends by assumption. reflexivity.
Qed.

(** One turn of the body when a request has arrived within the poll. *)
Lemma serve_once_request a e rest s :
  browser_open s -> undisturbed s ->
  inbox (os s) = (a, e) :: rest ->
  a <= now (os s) + POLL_INTERVAL ->
  forall flow s',
    handle e (received a rest s) = Some (Ok flow, s') ->
    serve_once s = Some (Ok flow, s').
Proof.
  intros Hb Hu Hin Ha flow s' Hh. unfold browser_open in Hb.
  unfold serve_once, try_KeyboardInterrupt, bind, get_browser_side. rewrite Hb.
  rewrite interruptible_undisturbed by exact Hu.
  unfold conn_poll, bind, check_closed. cbn [conn_closed ret]. cbv zeta.
  change (Z.max 0 POLL_INTERVAL) with POLL_INTERVAL. rewrite Hin.
  apply Z.leb_le in Ha. rewrite Ha.
  cbn [self on_os]. rewrite Hb.
  rewrite interruptible_undisturbed by exact Hu.
  unfold conn_recv, bind, check_closed. cbn [conn_closed ret os on_os inbox set_now].
  rewrite Hin. fold (received a rest s). rewrite Hh. reflexivity.
Qed.

(** A turn of the loop whose body says [Continue]. *)
Lemma serve_continues fuel s s' :
  undisturbed s -> flag_set (os s) = false ->
  serve_once s = Some (Ok Continue, s') ->
  serve (S fuel) s = serve fuel s'.
Proof.
  intros Hu Hf H1. cbn [serve]. unfold bind at 1.
  rewrite interruptible_undisturbed by exact Hu.
  unfold should_continue, gets. rewrite Hf. cbn [negb].
  unfold bind. rewrite H1. reflexivity.
Qed.

(** The loop ends, without a call of [env.close], as soon as
    [should_continue()] is false. *)
Lemma serve_stops_when_told fuel s :
  undisturbed s -> flag_set (os s) = true ->
  serve (S fuel) s = Some (Ok tt, s).
Proof.
  intros Hu Hf. cbn [serve]. unfold bind.
  rewrite interruptible_undisturbed by exact Hu.
  unfold should_continue, gets. rewrite Hf. reflexivity.
Qed.

(** SIGINT that arrives while the worker polls: the handler calls
    [env.close], drops what it raises, and the body says [Return]. *)
Lemma serve_once_interrupted s :
  browser_side (self s) <> None ->
  sigint (gym (os s)) = Some 0%nat ->
  (forall e, close_raises (gym (os s)) = Some e -> is_Exception e = true) ->
  serve_once s = Some (Ok Return, after_interrupt s).
Proof.
  intros Hb Hs Hexc.
  unfold serve_once, try_KeyboardInterrupt, bind, get_browser_side.
  destruct (browser_side (self s)) as [c|]; [|congruence].
  unfold interruptible at 1. rewrite Hs.
  unfold logger, modify, try_except, env_close, interruptible, env_record, bind,
    modify, gets, ret, raise.
  cbn [os on_os gym on_gym set_gym sigint set_sigint set_log].
  unfold after_interrupt, interrupted_log.
  cbn [os on_os gym on_gym set_gym sigint set_sigint set_log close_raises set_env_calls].
  destruct (close_raises (gym (os s))) as [e|]; [|reflexivity].
  cbn [is_Exception]. rewrite (Hexc e eq_refl). reflexivity.
Qed.

(** SIGINT between [env.step] and the reply: the environment is closed,
    no reply is sent, the body says [Return]. *)
Lemma serve_once_interrupted_mid_request :
  exists s',
    serve_once interrupted_mid_request = Some (Ok Return, s')
    /\ env_calls (gym (os s')) = [EnvStep (VStr "noop()"); EnvClose]
    /\ outbox (os s') = [].
Proof. eexists. split; [vm_compute; reflexivity|]. split; reflexivity. Qed.

(** ** C9 *)

(** C9: a request whose action is GET_EVAL_GOAL, respectively
    GET_EVAL_REWARDS, is answered under its own id with the goal text and
    image urls, respectively with [json.dumps] of the reward history, both
    taken from the worker's attributes; the environment is not called, the
    attributes are unchanged, and the loop goes round again. *)
Theorem eval_requests_answered_from_worker_state
    a rid d rest goal urls rewards payload s :
  browser_open s ->
  undisturbed s ->
  flag_set (os s) = false ->
  inbox (os s) = (a, (rid, Some d)) :: rest ->
  a <= now (os s) + POLL_INTERVAL ->
  rid <> SHUTDOWN ->
  rid <> IS_ALIVE ->
  eval_goal (self s) = Some goal ->
  goal_image_urls (self s) = Some urls ->
  eval_rewards (self s) = Some rewards ->
  (dict_get d "action" = Some (VStr BROWSER_EVAL_GET_GOAL_ACTION)
   /\ payload = goal_reply goal urls)
  \/ (dict_get d "action" = Some (VStr BROWSER_EVAL_GET_REWARDS_ACTION)
      /\ payload = rewards_reply (gym (os s)) rewards) ->
  exists s',
    serve_once s = Some (Ok Continue, s')
    /\ (forall fuel, serve (S fuel) s = serve fuel s')
    /\ outbox (os s') = outbox (os s) ++ [(rid, Some payload)]
    /\ env_calls (gym (os s')) = env_calls (gym (os s))
    /\ self s' = self s
    /\ inbox (os s') = rest.
Proof.
  intros Hb Hu Hf Hin Ha H1 H2 Hg Hi Hr Hcase.
  exists (on_os (deliver (rid, Some payload)) (received a rest s)).
  assert (Hrun : serve_once s
                 = Some (Ok Continue,
                         on_os (deliver (rid, Some payload)) (received a rest s))).
  { apply (serve_once_request a (rid, Some d) rest s Hb Hu Hin Ha).
    destruct Hcase as [[Hact ->] | [Hact ->]].
    - apply handle_get_goal; assumption.
    - apply (handle_get_rewards rid d rewards (received a rest s)); assumption. }
  split; [exact Hrun|].
  split; [intros fuel; apply serve_continues; assumption|].
  cbn [os on_os self]. rewrite outbox_deliver, gym_deliver, inbox_deliver.
  repeat split; reflexivity.
Qed.

Lemma eval_requests_answered_from_worker_state_witness :
  exists s',
    serve_once
      (serving_sys [(0, (sample_uuid 0, Some [("action", VStr "GET_EVAL_REWARDS")]))])
      = Some (Ok Continue, s')
    /\ outbox (os s')
         = [(sample_uuid 0,
             Some (rewards_reply sample_gym [VObj 7; VObj 8]))]
    /\ env_calls (gym (os s')) = []
    /\ self s' = serving_env (VStr "Click the button.") [VStr "http://x/1.png"]
                   [VObj 7; VObj 8].
Proof.
  destruct (eval_requests_answered_from_worker_state
              0 (sample_uuid 0) [("action", VStr "GET_EVAL_REWARDS")] []
              (VStr "Click the button.") [VStr "http://x/1.png"] [VObj 7; VObj 8]
              (rewards_reply sample_gym [VObj 7; VObj 8])
              (serving_sys [(0, (sample_uuid 0,
                                 Some [("action", VStr "GET_EVAL_REWARDS")]))]))
    as (s' & H1 & _ & H3 & H4 & H5 & _);
    try reflexivity; try discriminate.
  - right. split; reflexivity.
  - exists s'. split; [exact H1|]. split; [exact H3|]. split; [exact H4|exact H5].
Defined.

(** ** C8 *)

(** C8: when [should_continue()] turns false the worker leaves the loop
    and returns, and [env.close] has not been called: the only call made
    on the environment is the initial [reset]. *)
Theorem worker_exits_without_releasing_env :
  exists s',
    browser_process 3 worker_told_to_stop = Some (Ok tt, s')
    /\ flag_set (os s') = true
    /\ env_calls (gym (os s')) = [EnvReset].
Proof. eexists. split; [vm_compute; reflexivity|]. split; reflexivity. Qed.

(** * Further properties of the supervisor *)

(** X1: [close] on a process that has exited, or that was never started,
    returns at once and changes nothing: no SHUTDOWN is sent and the two
    pipe ends stay open. *)
Theorem close_on_dead_process_changes_nothing s p pr :
  process (self s) = Some p ->
  procs (os s) !! p = Some pr ->
  pstate pr = Exited \/ pstate pr = Unstarted ->
  close s = Some (Ok tt, s).
Proof.
  intros Hp Hpr Hst. apply (close_not_alive s p pr Hp Hpr).
  unfold proc_alive. destruct Hst as [-> | ->]; reflexivity.
Qed.

Lemma close_on_dead_process_changes_nothing_witness :
  close worker_gone = Some (Ok tt, worker_gone)
  /\ agent_side (self worker_gone) = Some (mkConn false)
  /\ outbox (os worker_gone) = [].
Proof.
  split; [|split; reflexivity].
  apply (close_on_dead_process_changes_nothing worker_gone 0%nat
           (mkProc stillborn Exited)); [reflexivity | reflexivity |].
  left. reflexivity.
Defined.

(** The exact state after [close] on a running worker that heeds SHUTDOWN. *)
Lemma close_graceful_state s p pr c :
  process (self s) = Some p ->
  procs (os s) !! p = Some pr ->
  pstate pr = Running ->
  heeds_shutdown (temper pr) = true ->
  agent_open s ->
  browser_side (self s) = Some c ->
  close s = Some (Ok tt, closed_ends (with_pstate p Exited (told_to_stop s))).
Proof.
  intros Hp Hpr Hrun Hheed Hopen Hb. unfold agent_open in Hopen.
  assert (Hst : pstate_at p s = Some Running)
    by (unfold pstate_at; rewrite Hpr; cbn; congruence).
  unfold close. rewrite (bind_ok _ _ _ _ _ (is_alive_at s p Running Hp Hst)).
  cbn [is_alive_state negb]. unfold try_except.
  assert (Hladder : close_ladder s
            = Some (Ok tt, closed_ends (with_pstate p Exited (told_to_stop s)))).
  { unfold close_ladder.
    assert (Hg : get_agent_side s = Some (Ok (mkConn false), s))
      by (unfold get_agent_side; rewrite Hopen; reflexivity).
    rewrite (bind_ok _ _ _ _ _ Hg).
    assert (Hs : conn_send (mkConn false) (SHUTDOWN, None) s
                 = Some (Ok tt, told_to_stop s)) by reflexivity.
    rewrite (bind_ok _ _ _ _ _ Hs).
    assert (Hst1 : pstate_at p (told_to_stop s) = Some Exiting).
    { unfold pstate_at. rewrite procs_told_to_stop, list_lookup_fmap, Hpr. cbn.
      unfold hear_shutdown. rewrite Hrun, Hheed. reflexivity. }
    rewrite (bind_ok _ _ _ _ _ (join_exiting (told_to_stop s) p JOIN_GRACE Hp Hst1)).
    assert (Hst2 : pstate_at p (with_pstate p Exited (told_to_stop s)) = Some Exited)
      by (eapply pstate_at_with_pstate; exact Hst1).
    unfold escalate_terminate.
    rewrite (bind_ok _ _ _ _ _
               (bind_ok _ _ _ _ _
                  (is_alive_at (with_pstate p Exited (told_to_stop s)) p Exited Hp Hst2))).
    cbn [is_alive_state].
    set (s2 := with_pstate p Exited (told_to_stop s)).
    assert (Ha2 : close_agent_side s2
                  = Some (Ok tt, on_self (set_agent_side (Some (mkConn true))) s2)).
    { unfold close_agent_side, bind, get_agent_side.
      change (agent_side (self s2)) with (agent_side (self s)).
      rewrite Hopen. reflexivity. }
    rewrite (bind_ok _ _ _ _ _ Ha2).
    unfold close_browser_side, bind, get_browser_side.
    change (browser_side (self (on_self (set_agent_side (Some (mkConn true))) s2)))
      with (browser_side (self s)).
    rewrite Hb. reflexivity. }
  rewrite Hladder. reflexivity.
Qed.

(** X2: a running worker that exits on SHUTDOWN is shut down gracefully:
    SHUTDOWN is the only message sent, no [join] runs into its time-out of
    5 s (the clock of the model does not advance), nothing is logged (no
    forced termination), the process is gone and both pipe ends are
    closed. *)
Theorem close_graceful s p pr c :
  process (self s) = Some p ->
  procs (os s) !! p = Some pr ->
  pstate pr = Running ->
  heeds_shutdown (temper pr) = true ->
  agent_open s ->
  browser_side (self s) = Some c ->
  exists s',
    close s = Some (Ok tt, s')
    /\ outbox (os s') = outbox (os s) ++ [(SHUTDOWN, None)]
    /\ now (os s') = now (os s)
    /\ log (os s') = log (os s)
    /\ pstate_at p s' = Some Exited
    /\ agent_side (self s') = Some (mkConn true)
    /\ browser_side (self s') = Some (mkConn true).
Proof.
  intros Hp Hpr Hrun Hheed Hopen Hb.
  eexists. split; [exact (close_graceful_state s p pr c Hp Hpr Hrun Hheed Hopen Hb)|].
  cbn. repeat split.
  unfold pstate_at. cbn. rewrite list_lookup_alter_eq, list_lookup_fmap, Hpr.
  reflexivity.
Qed.

Lemma close_graceful_witness :
  exists s',
    close (started_sys calm []) = Some (Ok tt, s')
    /\ outbox (os s') = outbox (os (started_sys calm [])) ++ [(SHUTDOWN, None)]
    /\ now (os s') = now (os (started_sys calm []))
    /\ log (os s') = log (os (started_sys calm []))
    /\ pstate_at 0 s' = Some Exited
    /\ agent_side (self s') = Some (mkConn true)
    /\ browser_side (self s') = Some (mkConn true).
Proof.
  apply (close_graceful (started_sys calm []) 0%nat (mkProc calm Running)
           (mkConn false)); reflexivity.
Defined.

(** X3: [check_alive] takes at most one envelope out of the pipe.  When the
    first envelope arrives within the time-out (a negative time-out counts
    as 0: the poll does not block) it is consumed whatever its id, and the
    result says whether that id is ALIVE (so a late reply of an abandoned
    call makes the probe fail); otherwise nothing is consumed and the
    call lasts the whole time-out. *)
Theorem check_alive_consumes_one_envelope timeout s :
  agent_open s ->
  exists b s',
    check_alive timeout s = Some (Ok b, s')
    /\ ((b = false
         /\ inbox (os s') = inbox (os s)
         /\ now (os s') = now (os s) + Z.max 0 timeout)
        \/ exists a e,
             inbox (os s) = (a, e) :: inbox (os s')
             /\ a <= now (os s) + Z.max 0 timeout
             /\ now (os s') = Z.max (now (os s)) a
             /\ b = String.eqb (fst e) ALIVE).
Proof.
  intros Hopen. rewrite check_alive_open by assumption.
  destruct (inbox (os s)) as [|[a e] rest] eqn:Hin.
  - eexists _, _. split; [reflexivity|]. left. cbn. auto.
  - destruct (a <=? now (os s) + Z.max 0 timeout) eqn:Ha.
    + apply Z.leb_le in Ha.
      destruct (String.eqb (fst e) ALIVE) eqn:Hid;
        (eexists _, _; split; [reflexivity|]; right; exists a, e;
         split; [reflexivity|]; split; [exact Ha|]; split; [cbn; lia|];
         cbn; congruence).
    + eexists _, _. split; [reflexivity|]. left. cbn. auto.
Qed.

Lemma check_alive_consumes_one_envelope_witness :
  exists s1 s2,
    check_alive 1000 stale_before_alive = Some (Ok false, s1)
    /\ check_alive 1000 s1 = Some (Ok true, s2)
    /\ inbox (os s2) = [].
Proof.
  destruct (check_alive_consumes_one_envelope 1000 stale_before_alive eq_refl)
    as (b & s1 & H1 & _).
  assert (Hb : b = false) by (vm_compute in H1; congruence).
  subst b. exists s1.
  assert (Hs1 : s1 = received 5 [(7, (ALIVE, None))]
                       (logged not_alive_log (pinged stale_before_alive)))
    by (vm_compute in H1; injection H1 as <-; reflexivity).
  eexists. split; [exact H1|]. subst s1. split; vm_compute; reflexivity.
Defined.

(** ** [init_browser] and the constructor, step by step *)

(** An attempt whose probe is answered. *)
Lemma init_browser_attempt_answered a obs rest s :
  pipe_open s ->
  start_fails (spawn (os s) (length (procs (os s)))) = false ->
  inbox (os s) = (a, (ALIVE, obs)) :: rest ->
  a <= now (os s) + INIT_PROBE_TIMEOUT ->
  init_browser_attempt s
    = Some (Ok tt, received a rest (pinged (spawned (logged starting_log s)))).
Proof.
  intros Hpipe Hsf Hin Ha. pose proof Hpipe as [Hag Hbr].
  unfold init_browser_attempt.
  assert (Hl : logger DEBUG "Starting browser env..." None s
               = Some (Ok tt, logged starting_log s)) by reflexivity.
  rewrite (bind_ok _ _ _ _ _ Hl).
  rewrite (bind_ok _ _ _ _ _
             (spawn_worker_ok (logged starting_log s)
                (pipe_open_not_closed s Hpipe) Hsf)).
  set (s1 := spawned (logged starting_log s)).
  assert (Hopen1 : agent_open s1) by exact Hag.
  assert (Hc : check_alive INIT_PROBE_TIMEOUT s1
               = Some (Ok true, received a rest (pinged s1))).
  { rewrite check_alive_open by exact Hopen1.
    change (Z.max 0 INIT_PROBE_TIMEOUT) with INIT_PROBE_TIMEOUT.
    change (inbox (os s1)) with (inbox (os s)). rewrite Hin.
    change (now (os s1)) with (now (os s)).
    apply Z.leb_le in Ha. rewrite Ha. reflexivity. }
  rewrite (bind_ok _ _ _ _ _ Hc). reflexivity.
Qed.

(** X4: where the library is available, the start of the process works and
    the first envelope in the pipe is ALIVE and arrives within the 200 s of
    the probe, the constructor succeeds at the first attempt: one process
    is spawned and is [self.process], one IS_ALIVE was sent, both pipe ends
    are open, [close] is registered with [atexit] once, and [eval_mode] is
    on exactly for a non-empty environment name. *)
Theorem constructor_succeeds_on_first_probe browsergym_eval_env a obs rest w :
  BROWSERGYM_AVAILABLE w = true ->
  start_fails (spawn w (length (procs w))) = false ->
  inbox w = (a, (ALIVE, obs)) :: rest ->
  a <= now w + INIT_PROBE_TIMEOUT ->
  exists s,
    BrowserEnv_new browsergym_eval_env w = Some (Ok tt, s)
    /\ eval_mode (self s) = truthy browsergym_eval_env
    /\ pipe_open s
    /\ process (self s) = Some (length (procs w))
    /\ length (procs (os s)) = S (length (procs w))
    /\ outbox (os s) = outbox w ++ [(IS_ALIVE, None)]
    /\ inbox (os s) = rest
    /\ atexit (os s) = S (atexit w)
    /\ now (os s) = Z.max (now w) a.
Proof.
  intros Hav Hsf Hin Ha.
  unfold BrowserEnv_new, BrowserEnv_init.
  unfold bind at 1. unfold gets at 1. cbn [os]. rewrite Hav.
  unfold bind at 1. unfold modify at 1.
  replace (truthy browsergym_eval_env && negb true) with false
    by (destruct (truthy browsergym_eval_env); reflexivity).
  unfold bind at 1. unfold ret at 1.
  unfold bind at 1. unfold modify at 1.
  set (s0 := on_self _ (on_self _ _)).
  assert (Hpipe : pipe_open s0) by (split; reflexivity).
  assert (Hinit : init_browser s0
                  = Some (Ok tt, received a rest (pinged (spawned (logged starting_log s0))))).
  { unfold init_browser. cbn [tenacity_retry MAX_ATTEMPTS Nat.sub].
    rewrite (init_browser_attempt_answered a obs rest s0 Hpipe Hsf Hin Ha).
    reflexivity. }
  rewrite (bind_ok _ _ _ _ _ Hinit).
  eexists. split; [reflexivity|]. cbn.
  rewrite andb_true_r, length_app. cbn.
  repeat split; try reflexivity; lia.
Qed.

Lemma constructor_succeeds_on_first_probe_witness :
  exists s,
    BrowserEnv_new (Some "") worker_answers = Some (Ok tt, s)
    /\ eval_mode (self s) = false
    /\ process (self s) = Some 0%nat
    /\ outbox (os s) = [(IS_ALIVE, None)]
    /\ atexit (os s) = 1%nat
    /\ now (os s) = 1200.
Proof.
  destruct (constructor_succeeds_on_first_probe (Some "") 1200 None []
              worker_answers eq_refl eq_refl eq_refl)
    as (s & H1 & H2 & _ & H4 & _ & H6 & _ & H8 & H9).
  - vm_compute. discriminate.
  - exists s. repeat split; assumption.
Defined.

(** X5: a worker that starts but does not answer the probe ends the
    retries early.  The failed probe makes [close] shut the worker down and
    close both pipe ends; after the wait of one second the second attempt
    cannot start its process on the closed pipe, and that [OSError] is not
    retried.  Two processes were created, none is alive. *)
Theorem init_browser_gives_up_after_hung_worker s :
  pipe_open s ->
  start_fails (spawn (os s) (length (procs (os s)))) = false ->
  crashes (spawn (os s) (length (procs (os s)))) = false ->
  inbox (os s) = [] ->
  exit_at (os s) = None ->
  exists s',
    init_browser s = Some (Raise (OSError "handle is closed"), s')
    /\ length (procs (os s')) = S (S (length (procs (os s))))
    /\ spawned_quiet (length (procs (os s))) s'
    /\ agent_side (self s') = Some (mkConn true)
    /\ browser_side (self s') = Some (mkConn true).
Proof.
  intros Hpipe Hsf Hcr Hin Hex.
  destruct (init_browser_attempt_hung s Hpipe Hsf Hcr Hin)
    as (s1 & A1 & A2 & A3 & A4 & A5 & A6 & _).
  unfold init_browser. cbn [tenacity_retry MAX_ATTEMPTS Nat.sub].
  rewrite A1. cbn [is_BrowserInitException].
  unfold flag_set. rewrite A6, Hex.
  set (s2 := on_os (fun w => set_now (now w + RETRY_WAIT) w) s1).
  assert (Hsl : sleep RETRY_WAIT s1 = Some (Ok tt, s2)) by reflexivity.
  rewrite (bind_ok _ _ _ _ _ Hsl).
  assert (Hclosed : either_closed (self s2) = true).
  { unfold either_closed. change (self s2) with (self s1). rewrite A2, A3. reflexivity. }
  destruct (spawn_worker_on_closed_pipe (logged starting_log s2) Hclosed)
    as (s3 & B1 & B2 & B3).
  assert (Hatt : init_browser_attempt s2
                 = Some (Raise (OSError "handle is closed"), s3)).
  { unfold init_browser_attempt.
    assert (Hl : logger DEBUG "Starting browser env..." None s2
                 = Some (Ok tt, logged starting_log s2)) by reflexivity.
    rewrite (bind_ok _ _ _ _ _ Hl). rewrite (bind_raise _ _ _ _ _ B1). reflexivity. }
  rewrite Hatt. cbn [is_BrowserInitException].
  change (procs (os (logged starting_log s2))) with (procs (os s1)) in B2, B3.
  change (self (logged starting_log s2)) with (self s1) in B2.
  exists s3. split; [reflexivity|].
  split; [rewrite B3, length_app, A4; cbn; lia|].
  split.
  - intros q pr Hq Hlook. rewrite B3 in Hlook.
    apply lookup_app_Some in Hlook as [Hold | [Hge Hnew]].
    + exact (A5 q pr Hq Hold).
    + destruct (q - length (procs (os s1)))%nat; [|discriminate].
      injection Hnew as <-. reflexivity.
  - rewrite B2. cbn. auto.
Qed.

Lemma init_browser_gives_up_after_hung_worker_witness :
  exists s',
    init_browser (mkSys piped_env workers_hang)
      = Some (Raise (OSError "handle is closed"), s')
    /\ length (procs (os s')) = 2%nat
    /\ spawned_quiet 0 s'.
Proof.
  destruct (init_browser_gives_up_after_hung_worker (mkSys piped_env workers_hang))
    as (s' & H1 & H2 & H3 & _); try reflexivity.
  - split; reflexivity.
  - exists s'. repeat split; assumption.
Defined.

(** X6: once [close] has shut a live worker down, [step] raises [OSError]
    from its send, not [TimeoutError]: nothing more is sent. *)
Theorem step_after_close_raises_OSError fuel action_str timeout s p pr c :
  process (self s) = Some p ->
  procs (os s) !! p = Some pr ->
  proc_alive pr = true ->
  agent_open s ->
  browser_side (self s) = Some c ->
  exists s',
    (close ;;; step fuel action_str timeout) s
      = Some (Raise (OSError "handle is closed"), s')
    /\ outbox (os s') = outbox (os s) ++ [(SHUTDOWN, None)].
Proof.
  intros Hp Hpr Halive Hopen Hb.
  destruct (close_alive s p pr Hp Hpr Halive Hopen) as (s3 & D & _ & _ & Hc).
  rewrite Hb in Hc. rewrite (bind_ok _ _ _ _ _ Hc).
  unfold step, bind, uuid4, get_agent_side. cbn.
  eexists. split; [reflexivity|]. cbn.
  destruct D as (_ & _ & _ & _ & -> & _). reflexivity.
Qed.

Lemma step_after_close_raises_OSError_witness :
  exists s',
    (close ;;; step 50 "noop()" 100000) (started_sys deaf [])
      = Some (Raise (OSError "handle is closed"), s')
    /\ outbox (os s') = [(SHUTDOWN, None)].
Proof.
  apply (step_after_close_raises_OSError 50 "noop()" 100000 (started_sys deaf [])
           0%nat (mkProc deaf Running) (mkConn false)); reflexivity.
Defined.

(** * Further properties of the worker loop *)

(** ** Dicts *)

Lemma dict_get_set_same d k v : dict_get (dict_set d k v) k = Some v.
Proof.
  induction d as [|[k' v'] d IH]; cbn.
  - rewrite String.eqb_refl. reflexivity.
  - destruct (String.eqb k' k) eqn:E; cbn.
    + rewrite String.eqb_refl. reflexivity.
    + rewrite E. exact IH.
Qed.

Lemma dict_get_set_other d k v k' :
  k' <> k -> dict_get (dict_set d k v) k' = dict_get d k'.
Proof.
  intros Hne. induction d as [|[k0 v0] d IH]; cbn.
  - apply String.eqb_neq in Hne. rewrite String.eqb_sym, Hne. reflexivity.
  - destruct (String.eqb k0 k) eqn:E; cbn.
    + apply String.eqb_eq in E. subst k0.
      assert (H : String.eqb k k' = false) by (apply String.eqb_neq; congruence).
      rewrite H. reflexivity.
    + destruct (String.eqb k0 k'); [reflexivity | exact IH].
Qed.

(** ** The payload transformations *)

Lemma serialize_obs_ok
    obs dom shot page elapsed html_str text marked som png page' elapsed' s :
  dict_get obs "dom_object" = Some dom ->
  dict_get obs "screenshot" = Some shot ->
  dict_get obs "active_page_index" = Some page ->
  dict_get obs "elapsed_time" = Some elapsed ->
  flatten_dom_to_str (gym (os s)) dom = Gives html_str ->
  html_handle (gym (os s)) html_str = Gives text ->
  overlay_som (gym (os s)) shot
    (default (VDict []) (dict_get obs "extra_element_properties")) = Gives marked ->
  image_to_png_base64_url (gym (os s)) marked = Gives som ->
  image_to_png_base64_url (gym (os s)) shot = Gives png ->
  call_item (gym (os s)) page = Gives page' ->
  call_item (gym (os s)) elapsed = Gives elapsed' ->
  serialize_obs obs s
    = Some (Ok (transformed obs text som png page' elapsed'), s).
Proof.
  intros Hd Hs Hp He L1 L2 L3 L4 L5 L6 L7.
  unfold serialize_obs, bind, gets, subscript.
  rewrite Hd. cbn [ret]. rewrite L1. cbn [lib_call ret]. rewrite L2.
  cbn [lib_call ret].
  rewrite (dict_get_set_other obs "text_content" _ "screenshot") by discriminate.
  rewrite Hs. cbn [ret].
  rewrite (dict_get_set_other _ "text_content" _ "extra_element_properties")
    by discriminate.
  rewrite L3. cbn [lib_call ret]. rewrite L4. cbn [lib_call ret].
  rewrite (dict_get_set_other _ "set_of_marks" _ "screenshot") by discriminate.
  rewrite (dict_get_set_other obs "text_content" _ "screenshot") by discriminate.
  rewrite Hs. cbn [ret]. rewrite L5. cbn [lib_call ret].
  rewrite (dict_get_set_other _ "screenshot" _ "active_page_index") by discriminate.
  rewrite (dict_get_set_other _ "set_of_marks" _ "active_page_index") by discriminate.
  rewrite (dict_get_set_other _ "text_content" _ "active_page_index") by discriminate.
  rewrite Hp. cbn [ret]. rewrite L6. cbn [lib_call ret].
  rewrite (dict_get_set_other _ "active_page_index" _ "elapsed_time") by discriminate.
  rewrite (dict_get_set_other _ "screenshot" _ "elapsed_time") by discriminate.
  rewrite (dict_get_set_other _ "set_of_marks" _ "elapsed_time") by discriminate.
  rewrite (dict_get_set_other _ "text_content" _ "elapsed_time") by discriminate.
  rewrite He. cbn [ret]. rewrite L7. reflexivity.
Qed.

(** The transformations change nothing but their result, and what they
    raise is an [Exception]. *)
Lemma serialize_obs_pure obs s o s' :
  serialize_obs obs s = Some (o, s') ->
  s' = s /\ forall e, o = Raise e -> is_Exception e = true.
Proof.
  assert (Hret : forall (d : Dict) s0 o0 s1,
            ret d s0 = Some (o0, s1) ->
            s1 = s0 /\ forall e, o0 = Raise e -> is_Exception e = true).
  { intros d s0 o0 s1 H. injection H as <- <-. split; [reflexivity | discriminate]. }
  assert (Hsub : forall d k (f : PyVal -> M Dict),
            (forall v s0 o0 s1, f v s0 = Some (o0, s1) ->
               s1 = s0 /\ forall e, o0 = Raise e -> is_Exception e = true) ->
            forall s0 o0 s1, bind (subscript d k) f s0 = Some (o0, s1) ->
              s1 = s0 /\ forall e, o0 = Raise e -> is_Exception e = true).
  { intros d k f Hf s0 o0 s1 H. unfold bind, subscript in H.
    destruct (dict_get d k) as [v|]; [exact (Hf v _ _ _ H)|].
    injection H as <- <-. split; [reflexivity|]. intros e He. injection He as <-.
    reflexivity. }
  assert (Hlib : forall r (f : PyVal -> M Dict),
            (forall v s0 o0 s1, f v s0 = Some (o0, s1) ->
               s1 = s0 /\ forall e, o0 = Raise e -> is_Exception e = true) ->
            forall s0 o0 s1, bind (lib_call r) f s0 = Some (o0, s1) ->
              s1 = s0 /\ forall e, o0 = Raise e -> is_Exception e = true).
  { intros r f Hf s0 o0 s1 H. unfold bind in H.
    destruct r as [v|e He]; [exact (Hf v _ _ _ H)|].
    injection H as <- <-. split; [reflexivity|]. intros e' He'. injection He' as <-.
    exact He. }
  intros H. unfold serialize_obs, bind at 1, gets in H.
  set (g := gym (os s)) in H. clearbody g. revert s o s' H.
  apply Hsub; intros dom. apply Hlib; intros html_str. apply Hlib; intros text.
  cbv zeta. apply Hsub; intros shot. apply Hlib; intros marked.
  apply Hlib; intros som. apply Hsub; intros shot'. apply Hlib; intros png.
  apply Hsub; intros page. apply Hlib; intros page'.
  apply Hsub; intros elapsed. apply Hlib; intros elapsed'. apply Hret.
Qed.

(** X7: when the observation has the four entries the transformations read
    and none of the library calls raises, the observation is returned with
    five entries rewritten: [text_content] is the converted DOM,
    [set_of_marks] and [screenshot] are both encoded from the screenshot as
    [env.step] returned it, and the two scalars are unwrapped by [.item()];
    every other entry is as the environment returned it. *)
Theorem serialize_obs_entries
    obs dom shot page elapsed html_str text marked som png page' elapsed' s :
  dict_get obs "dom_object" = Some dom ->
  dict_get obs "screenshot" = Some shot ->
  dict_get obs "active_page_index" = Some page ->
  dict_get obs "elapsed_time" = Some elapsed ->
  flatten_dom_to_str (gym (os s)) dom = Gives html_str ->
  html_handle (gym (os s)) html_str = Gives text ->
  overlay_som (gym (os s)) shot
    (default (VDict []) (dict_get obs "extra_element_properties")) = Gives marked ->
  image_to_png_base64_url (gym (os s)) marked = Gives som ->
  image_to_png_base64_url (gym (os s)) shot = Gives png ->
  call_item (gym (os s)) page = Gives page' ->
  call_item (gym (os s)) elapsed = Gives elapsed' ->
  exists obs',
    serialize_obs obs s = Some (Ok obs', s)
    /\ dict_get obs' "text_content" = Some text
    /\ dict_get obs' "set_of_marks" = Some som
    /\ dict_get obs' "screenshot" = Some png
    /\ dict_get obs' "active_page_index" = Some page'
    /\ dict_get obs' "elapsed_time" = Some elapsed'
    /\ forall k,
         k <> "text_content" -> k <> "set_of_marks" -> k <> "screenshot" ->
         k <> "active_page_index" -> k <> "elapsed_time" ->
         dict_get obs' k = dict_get obs k.
Proof.
  intros Hd Hs Hp He L1 L2 L3 L4 L5 L6 L7.
  exists (transformed obs text som png page' elapsed').
  split; [eapply serialize_obs_ok; eassumption|]. unfold transformed.
  repeat split.
  - rewrite !dict_get_set_other by discriminate. apply dict_get_set_same.
  - rewrite !dict_get_set_other by discriminate. apply dict_get_set_same.
  - rewrite !dict_get_set_other by discriminate. apply dict_get_set_same.
  - rewrite !dict_get_set_other by discriminate. apply dict_get_set_same.
  - apply dict_get_set_same.
  - intros k H1 H2 H3 H4 H5. rewrite !dict_get_set_other by assumption. reflexivity.
Qed.

Lemma serialize_obs_entries_witness :
  exists obs',
    serialize_obs
      [("dom_object", VObj 0); ("screenshot", VObj 1); ("url", VStr "about:blank");
       ("active_page_index", VObj 2); ("elapsed_time", VObj 3)]
      (serving_sys []) = Some (Ok obs', serving_sys [])
    /\ dict_get obs' "screenshot" = Some (VObj 1)
    /\ dict_get obs' "url" = Some (VStr "about:blank").
Proof.
  destruct (serialize_obs_entries
              [("dom_object", VObj 0); ("screenshot", VObj 1);
               ("url", VStr "about:blank");
               ("active_page_index", VObj 2); ("elapsed_time", VObj 3)]
              (VObj 0) (VObj 1) (VObj 2) (VObj 3)
              (VObj 0) (VObj 0) (VObj 1) (VObj 1) (VObj 1) (VObj 2) (VObj 3)
              (serving_sys [])
              eq_refl eq_refl eq_refl eq_refl
              eq_refl eq_refl eq_refl eq_refl eq_refl eq_refl eq_refl)
    as (obs' & H1 & _ & _ & H4 & _ & _ & H7).
  exists obs'. split; [exact H1|]. split; [exact H4|].
  rewrite H7 by discriminate. reflexivity.
Defined.

(** X8: an observation that lacks one of the four entries the
    transformations read is never returned: they raise an [Exception] and
    change nothing.  When [dom_object], the first entry read, is the one
    missing, the exception is [KeyError] for it; a missing entry that is
    read later gives its [KeyError] unless a library call on what came
    before it raises first. *)
Theorem serialize_obs_missing_entry obs s :
  dict_get obs "dom_object" = None
  \/ dict_get obs "screenshot" = None
  \/ dict_get obs "active_page_index" = None
  \/ dict_get obs "elapsed_time" = None ->
  exists e,
    serialize_obs obs s = Some (Raise e, s)
    /\ is_Exception e = true
    /\ (dict_get obs "dom_object" = None -> e = KeyError "dom_object").
Proof.
  intros Hmiss.
  destruct (dict_get obs "dom_object") as [dom|] eqn:Hd.
  2:{ exists (KeyError "dom_object").
      split; [|split; [reflexivity | reflexivity]].
      unfold serialize_obs, bind, gets, subscript. rewrite Hd. reflexivity. }
  destruct (serialize_obs obs s) as [[o s']|] eqn:Hrun.
  2:{ exfalso. revert Hrun. unfold serialize_obs, bind, gets, subscript, lib_call.
      repeat match goal with
             | |- context [match ?x with _ => _ end] =>
                 match x with
                 | dict_get _ _ => destruct x
                 | flatten_dom_to_str _ _ => destruct x
                 | html_handle _ _ => destruct x
                 | overlay_som _ _ _ => destruct x
                 | image_to_png_base64_url _ _ => destruct x
                 | call_item _ _ => destruct x
                 end; cbn [ret raise]
             end; discriminate. }
  destruct (serialize_obs_pure _ _ _ _ Hrun) as [-> Hexc].
  destruct o as [obs'|e].
  - exfalso. revert Hrun. unfold serialize_obs, bind, gets, subscript.
    rewrite Hd. cbn [ret].
    destruct (lib_call (flatten_dom_to_str (gym (os s)) dom) s)
      as [[[html_str|?] ?]|] eqn:E1; try discriminate.
    destruct (lib_call (html_handle (gym (os s)) html_str) s0)
      as [[[text|?] ?]|] eqn:E2; try discriminate.
    rewrite (dict_get_set_other obs "text_content" _ "screenshot") by discriminate.
    destruct (dict_get obs "screenshot") as [shot|] eqn:Hs; [|discriminate].
    cbn [ret].
    match goal with
    | |- context [lib_call ?r s1] =>
        destruct (lib_call r s1) as [[[marked|?] ?]|] eqn:E3; try discriminate
    end.
    destruct (lib_call (image_to_png_base64_url (gym (os s)) marked) s2)
      as [[[som|?] ?]|] eqn:E4; try discriminate.
    rewrite (dict_get_set_other _ "set_of_marks" _ "screenshot") by discriminate.
    rewrite (dict_get_set_other obs "text_content" _ "screenshot") by discriminate.
    rewrite Hs. cbn [ret].
    destruct (lib_call (image_to_png_base64_url (gym (os s)) shot) s3)
      as [[[png|?] ?]|] eqn:E5; try discriminate.
    rewrite (dict_get_set_other _ "screenshot" _ "active_page_index") by discriminate.
    rewrite (dict_get_set_other _ "set_of_marks" _ "active_page_index") by discriminate.
    rewrite (dict_get_set_other _ "text_content" _ "active_page_index") by discriminate.
    destruct (dict_get obs "active_page_index") as [page|] eqn:Hp; [|discriminate].
    cbn [ret].
    destruct (lib_call (call_item (gym (os s)) page) s4)
      as [[[page'|?] ?]|] eqn:E6; try discriminate.
    rewrite (dict_get_set_other _ "active_page_index" _ "elapsed_time") by discriminate.
    rewrite (dict_get_set_other _ "screenshot" _ "elapsed_time") by discriminate.
    rewrite (dict_get_set_other _ "set_of_marks" _ "elapsed_time") by discriminate.
    rewrite (dict_get_set_other _ "text_content" _ "elapsed_time") by discriminate.
    destruct (dict_get obs "elapsed_time") as [elapsed|] eqn:He; [|discriminate].
    destruct Hmiss as [H | [H | [H | H]]]; discriminate.
  - exists e. split; [reflexivity|]. split; [exact (Hexc e eq_refl)|].
    discriminate.
Qed.

Lemma serialize_obs_missing_entry_witness :
  exists e,
    serialize_obs [("screenshot", VObj 1); ("elapsed_time", VObj 3)] (serving_sys [])
      = Some (Raise e, serving_sys [])
    /\ is_Exception e = true
    /\ (dict_get [("screenshot", VObj 1); ("elapsed_time", VObj 3)] "dom_object" = None
        -> e = KeyError "dom_object").
Proof.
  apply (serialize_obs_missing_entry
           [("screenshot", VObj 1); ("elapsed_time", VObj 3)] (serving_sys [])).
  left. reflexivity.
Defined.

(** ** One turn of the loop, branch by branch *)

(** One turn of the body when a request has arrived within the poll and
    handling it does not end in [KeyboardInterrupt]. *)
Lemma serve_once_handles a e rest s :
  browser_open s -> undisturbed s ->
  inbox (os s) = (a, e) :: rest ->
  a <= now (os s) + POLL_INTERVAL ->
  forall (o : Outcome Flow) s',
    handle e (received a rest s) = Some (o, s') ->
    o <> Raise KeyboardInterrupt ->
    serve_once s = Some (o, s').
Proof.
  intros Hb Hu Hin Ha o s' Hh Hne. unfold browser_open in Hb.
  unfold serve_once, try_KeyboardInterrupt, bind, get_browser_side. rewrite Hb.
  rewrite interruptible_undisturbed by exact Hu.
  unfold conn_poll, bind, check_closed. cbn [conn_closed ret]. cbv zeta.
  change (Z.max 0 POLL_INTERVAL) with POLL_INTERVAL. rewrite Hin.
  apply Z.leb_le in Ha. rewrite Ha.
  cbn [self on_os]. rewrite Hb.
  rewrite interruptible_undisturbed by exact Hu.
  unfold conn_recv, bind, check_closed. cbn [conn_closed ret os on_os inbox set_now].
  rewrite Hin. fold (received a rest s). rewrite Hh.
  destruct o as [flow|ex]; [reflexivity|].
  destruct ex; try reflexivity. congruence.
Qed.

(** X9: an IS_ALIVE envelope, whatever its payload, is answered with
    [(ALIVE, None)]; the environment is not called, the worker's attributes
    are unchanged, and the loop goes round again. *)
Theorem probe_answered_without_env a obs rest s :
  browser_open s ->
  undisturbed s ->
  inbox (os s) = (a, (IS_ALIVE, obs)) :: rest ->
  a <= now (os s) + POLL_INTERVAL ->
  exists s',
    serve_once s = Some (Ok Continue, s')
    /\ outbox (os s') = outbox (os s) ++ [(ALIVE, None)]
    /\ env_calls (gym (os s')) = env_calls (gym (os s))
    /\ self s' = self s
    /\ inbox (os s') = rest.
Proof.
  intros Hb Hu Hin Ha.
  exists (on_os (deliver (ALIVE, None)) (received a rest s)).
  split.
  - apply (serve_once_handles a (IS_ALIVE, obs) rest s Hb Hu Hin Ha);
      [|discriminate].
    unfold handle. cbn [fst snd].
    change (String.eqb IS_ALIVE SHUTDOWN) with false.
    change (String.eqb IS_ALIVE IS_ALIVE) with true. cbn iota.
    unfold bind. rewrite reply_sends by assumption. reflexivity.
  - cbn. repeat split; reflexivity.
Qed.

Lemma probe_answered_without_env_witness :
  exists s',
    serve_once (serving_sys [(0, (IS_ALIVE, None))]) = Some (Ok Continue, s')
    /\ outbox (os s') = [(ALIVE, None)]
    /\ env_calls (gym (os s')) = []
    /\ inbox (os s') = [].
Proof.
  destruct (probe_answered_without_env 0 None [] (serving_sys [(0, (IS_ALIVE, None))]))
    as (s' & H1 & H2 & H3 & _ & H5); try reflexivity.
  - vm_compute. discriminate.
  - exists s'. repeat split; assumption.
Defined.

Lemma env_close_undisturbed s :
  undisturbed s ->
  env_close s
    = Some (match close_raises (gym (os s)) with
            | Some e => Raise e
            | None => Ok tt
            end, env_closed s).
Proof.
  intros Hu. unfold env_close. rewrite interruptible_undisturbed by exact Hu.
  unfold bind, env_record, modify, gets. cbn [os on_os gym on_gym set_gym close_raises set_env_calls].
  destruct (close_raises (gym (os s))); reflexivity.
Qed.

(** X10: on a SHUTDOWN envelope the worker calls [env.close], sends
    nothing, and leaves the loop; an exception raised by [env.close] is not
    handled there and ends [browser_process]. *)
Theorem shutdown_releases_env_and_ends_loop fuel a obs rest s :
  browser_open s ->
  undisturbed s ->
  flag_set (os s) = false ->
  inbox (os s) = (a, (SHUTDOWN, obs)) :: rest ->
  a <= now (os s) + POLL_INTERVAL ->
  close_raises (gym (os s)) <> Some KeyboardInterrupt ->
  exists s',
    serve (S fuel) s
      = Some (match close_raises (gym (os s)) with
              | Some e => Raise e
              | None => Ok tt
              end, s')
    /\ env_calls (gym (os s')) = env_calls (gym (os s)) ++ [EnvClose]
    /\ outbox (os s') = outbox (os s)
    /\ inbox (os s') = rest.
Proof.
  intros Hb Hu Hf Hin Ha Hki.
  set (s1 := logged shutdown_log (received a rest s)).
  assert (Hh : handle (SHUTDOWN, obs) (received a rest s)
               = Some (match close_raises (gym (os s)) with
                       | Some e => Raise e
                       | None => Ok Return
                       end, env_closed s1)).
  { unfold handle. cbn [fst snd].
    change (String.eqb SHUTDOWN SHUTDOWN) with true. cbn iota.
    assert (Hl : logger DEBUG "SHUTDOWN recv, shutting down browser env..." None
                   (received a rest s) = Some (Ok tt, s1)) by reflexivity.
    rewrite (bind_ok _ _ _ _ _ Hl).
    unfold bind. rewrite (env_close_undisturbed s1) by exact Hu.
    change (close_raises (gym (os s1))) with (close_raises (gym (os s))).
    destruct (close_raises (gym (os s))); reflexivity. }
  assert (Hone : serve_once s
                 = Some (match close_raises (gym (os s)) with
                         | Some e => Raise e
                         | None => Ok Return
                         end, env_closed s1)).
  { apply (serve_once_handles a (SHUTDOWN, obs) rest s Hb Hu Hin Ha _ _ Hh).
    destruct (close_raises (gym (os s))) as [e|]; [|discriminate]. congruence. }
  exists (env_closed s1). split.
  - cbn [serve]. unfold bind at 1.
    rewrite interruptible_undisturbed by exact Hu.
    unfold should_continue, gets. rewrite Hf. cbn [negb].
    unfold bind. rewrite Hone.
    destruct (close_raises (gym (os s))); reflexivity.
  - cbn. repeat split; reflexivity.
Qed.

Lemma shutdown_releases_env_and_ends_loop_witness :
  exists s',
    serve 1 (serving_sys [(3, (SHUTDOWN, None))]) = Some (Ok tt, s')
    /\ env_calls (gym (os s')) = [EnvClose]
    /\ outbox (os s') = []
    /\ inbox (os s') = [].
Proof.
  destruct (shutdown_releases_env_and_ends_loop
              0 3 None [] (serving_sys [(3, (SHUTDOWN, None))]))
    as (s' & H1 & H2 & H3 & H4); try reflexivity; try discriminate.
  exists s'. repeat split; assumption.
Defined.

Lemma env_step_undisturbed act s :
  undisturbed s ->
  env_step act s
    = Some (match step_result (gym (os s)) (env_calls (gym (os s))) act with
            | Ok r => Ok r
            | Raise e => Raise e
            end, stepped act s).
Proof.
  intros Hu. unfold env_step. rewrite interruptible_undisturbed by exact Hu.
  unfold bind, env_record, modify, gets.
  destruct (step_result (gym (os s)) (env_calls (gym (os s))) act); reflexivity.
Qed.

Lemma append_eval_reward_ok reward rewards s :
  eval_rewards (self s) = Some rewards ->
  append_eval_reward reward s
    = Some (Ok tt,
            on_self (fun b =>
              set_eval_state (eval_goal b) (goal_image_urls b)
                (Some (rewards ++ [reward])) b) s).
Proof.
  intros H. unfold append_eval_reward, bind, get_eval_rewards. rewrite H. reflexivity.
Qed.

(** X11: an ordinary action is passed to [env.step] once; when the
    observation has the four entries read and no library call of the
    transformations raises, the reply goes out under the id of the request
    and carries the transformed observation; the reward is appended to the
    reward history exactly when [eval_mode] is on; the loop goes round
    again. *)
Theorem action_is_stepped_and_answered
    a rid d rest act obs reward dom shot page elapsed
    html_str text marked som png page' elapsed' rewards s :
  browser_open s ->
  undisturbed s ->
  inbox (os s) = (a, (rid, Some d)) :: rest ->
  a <= now (os s) + POLL_INTERVAL ->
  rid <> SHUTDOWN ->
  rid <> IS_ALIVE ->
  dict_get d "action" = Some act ->
  is_str act BROWSER_EVAL_GET_GOAL_ACTION = false ->
  is_str act BROWSER_EVAL_GET_REWARDS_ACTION = false ->
  step_result (gym (os s)) (env_calls (gym (os s))) act = Ok (obs, reward) ->
  dict_get obs "dom_object" = Some dom ->
  dict_get obs "screenshot" = Some shot ->
  dict_get obs "active_page_index" = Some page ->
  dict_get obs "elapsed_time" = Some elapsed ->
  flatten_dom_to_str (gym (os s)) dom = Gives html_str ->
  html_handle (gym (os s)) html_str = Gives text ->
  overlay_som (gym (os s)) shot
    (default (VDict []) (dict_get obs "extra_element_properties")) = Gives marked ->
  image_to_png_base64_url (gym (os s)) marked = Gives som ->
  image_to_png_base64_url (gym (os s)) shot = Gives png ->
  call_item (gym (os s)) page = Gives page' ->
  call_item (gym (os s)) elapsed = Gives elapsed' ->
  eval_rewards (self s) = Some rewards ->
  exists s',
    serve_once s = Some (Ok Continue, s')
    /\ env_calls (gym (os s')) = env_calls (gym (os s)) ++ [EnvStep act]
    /\ outbox (os s')
         = outbox (os s)
           ++ [(rid, Some (transformed obs text som png page' elapsed'))]
    /\ eval_rewards (self s')
         = Some (if eval_mode (self s) then rewards ++ [reward] else rewards)
    /\ inbox (os s') = rest.
Proof.
  intros Hb Hu Hin Ha H1 H2 Hact Hg Hr Hstep Hd Hs Hp He
    L1 L2 L3 L4 L5 L6 L7 Hrew.
  set (s0 := received a rest s).
  set (s1 := stepped act s0).
  set (s2 := if eval_mode (self s) then
               on_self (fun b =>
                 set_eval_state (eval_goal b) (goal_image_urls b)
                   (Some (rewards ++ [reward])) b) s1
             else s1).
  set (payload := transformed obs text som png page' elapsed').
  assert (Hb2 : browser_open s2)
    by (unfold s2; destruct (eval_mode (self s)); exact Hb).
  assert (Hu2 : undisturbed s2)
    by (unfold s2; destruct (eval_mode (self s)); exact Hu).
  assert (Hser : serialize_obs obs s2 = Some (Ok payload, s2)).
  { assert (Hg2 : gym (os s2) = gym (os s1))
      by (unfold s2; destruct (eval_mode (self s)); reflexivity).
    apply (serialize_obs_ok obs dom shot page elapsed html_str text marked);
      try assumption; rewrite Hg2; assumption. }
  assert (Hh : handle (rid, Some d) s0
               = Some (Ok Continue, on_os (deliver (rid, Some payload)) s2)).
  { apply String.eqb_neq in H1, H2.
    unfold handle. cbn [fst snd]. rewrite H1, H2.
    unfold payload_subscript, subscript. rewrite Hact.
    unfold bind at 1. cbn [ret]. rewrite Hg.
    unfold bind at 1. cbn [ret]. rewrite Hr.
    unfold bind at 1. cbn [ret].
    unfold bind at 1. rewrite (env_step_undisturbed act s0) by exact Hu.
    change (gym (os s0)) with (gym (os s)). rewrite Hstep.
    unfold bind at 1. unfold gets at 1. fold s1.
    change (eval_mode (self s1)) with (eval_mode (self s)). cbn [fst snd].
    assert (Hrw : (if eval_mode (self s) then append_eval_reward reward else ret tt) s1
                  = Some (Ok tt, s2)).
    { unfold s2. destruct (eval_mode (self s)); [|reflexivity].
      apply append_eval_reward_ok. exact Hrew. }
    rewrite (bind_ok _ _ _ _ _ Hrw).
    rewrite (bind_ok _ _ _ _ _ Hser).
    unfold bind. rewrite reply_sends by assumption.
    reflexivity. }
  exists (on_os (deliver (rid, Some payload)) s2).
  split; [exact (serve_once_request a _ rest s Hb Hu Hin Ha _ _ Hh)|].
  cbn [os on_os self]. rewrite outbox_deliver, gym_deliver, inbox_deliver.
  unfold s2. destruct (eval_mode (self s)); cbn; rewrite ?Hrew; repeat split; reflexivity.
Qed.

Lemma action_is_stepped_and_answered_witness :
  exists s',
    serve_once (serving_sys [(0, (sample_uuid 0, Some [("action", VStr "noop()")]))])
      = Some (Ok Continue, s')
    /\ env_calls (gym (os s')) = [EnvStep (VStr "noop()")]
    /\ eval_rewards (self s') = Some [VObj 7; VObj 8; VObj 4]
    /\ inbox (os s') = [].
Proof.
  destruct (action_is_stepped_and_answered
              0 (sample_uuid 0) [("action", VStr "noop()")] [] (VStr "noop()")
              [("dom_object", VObj 0); ("screenshot", VObj 1);
               ("active_page_index", VObj 2); ("elapsed_time", VObj 3)]
              (VObj 4) (VObj 0) (VObj 1) (VObj 2) (VObj 3)
              (VObj 0) (VObj 0) (VObj 1) (VObj 1) (VObj 1) (VObj 2) (VObj 3)
              [VObj 7; VObj 8]
              (serving_sys [(0, (sample_uuid 0, Some [("action", VStr "noop()")]))]))
    as (s' & H1 & H2 & _ & H4 & H5); try reflexivity; try discriminate.
  exists s'. repeat split; assumption.
Defined.

(** X12: a request without an action is not answered and ends the worker:
    a [None] payload under an id other than the two control tags raises
    [TypeError], a dict without the key [action] raises [KeyError]; the
    envelope is consumed, the environment is not called, and the exception
    leaves the loop. *)
Theorem request_without_action_ends_worker fuel a rid payload rest e s :
  browser_open s ->
  undisturbed s ->
  flag_set (os s) = false ->
  inbox (os s) = (a, (rid, payload)) :: rest ->
  a <= now (os s) + POLL_INTERVAL ->
  rid <> SHUTDOWN ->
  rid <> IS_ALIVE ->
  (payload = None /\ e = TypeError)
  \/ (exists d, payload = Some d /\ dict_get d "action" = None
                /\ e = KeyError "action") ->
  serve (S fuel) s = Some (Raise e, received a rest s).
Proof.
  intros Hb Hu Hf Hin Ha H1 H2 Hcase.
  assert (Hh : handle (rid, payload) (received a rest s)
               = Some (Raise e, received a rest s)).
  { apply String.eqb_neq in H1, H2.
    unfold handle. cbn [fst snd]. rewrite H1, H2.
    destruct Hcase as [[-> ->] | (d & -> & Hnone & ->)].
    - reflexivity.
    - unfold payload_subscript, subscript, bind. rewrite Hnone. reflexivity. }
  assert (Hne : (Raise e : Outcome Flow) <> Raise KeyboardInterrupt).
  { destruct Hcase as [[_ ->] | (d & _ & _ & ->)]; discriminate. }
  cbn [serve]. unfold bind at 1.
  rewrite interruptible_undisturbed by exact Hu.
  unfold should_continue, gets. rewrite Hf. cbn [negb].
  unfold bind.
  rewrite (serve_once_handles a _ rest s Hb Hu Hin Ha _ _ Hh Hne). reflexivity.
Qed.

Lemma request_without_action_ends_worker_witness :
  serve 5 (serving_sys [(0, (ALIVE, None)); (1, (SHUTDOWN, None))])
    = Some (Raise TypeError, received 0 [(1, (SHUTDOWN, None))]
                               (serving_sys [(0, (ALIVE, None)); (1, (SHUTDOWN, None))])).
Proof.
  apply (request_without_action_ends_worker 4 0 ALIVE None [(1, (SHUTDOWN, None))]
           TypeError); try reflexivity; try discriminate.
  left. split; reflexivity.
Defined.

(** ** At most one reply per turn *)

Lemma same_pipe_refl s : same_pipe s s.
Proof. split; reflexivity. Qed.

Lemma same_pipe_trans s1 s2 s3 :
  same_pipe s1 s2 -> same_pipe s2 s3 -> same_pipe s1 s3.
Proof. unfold same_pipe. intros [A1 A2] [B1 B2]. split; congruence. Qed.

Lemma quiet_ret {A} (a : A) : quiet (ret a).
Proof. intros s o s' H. injection H as _ <-. apply same_pipe_refl. Qed.

Lemma quiet_raise {A} e : quiet (@raise A e).
Proof. intros s o s' H. injection H as _ <-. apply same_pipe_refl. Qed.

Lemma quiet_gets {A} (f : Sys -> A) : quiet (gets f).
Proof. intros s o s' H. injection H as _ <-. apply same_pipe_refl. Qed.

Lemma quiet_modify f :
  (forall s, same_pipe s (f s)) -> quiet (modify f).
Proof. intros Hf s o s' H. injection H as _ <-. apply Hf. Qed.

Lemma quiet_bind {A B} (m : M A) (k : A -> M B) :
  quiet m -> (forall a, quiet (k a)) -> quiet (bind m k).
Proof.
  intros Hm Hk s o s' H. unfold bind in H.
  destruct (m s) as [[[a|e] s1]|] eqn:Hms; [| |discriminate].
  - eapply same_pipe_trans; [exact (Hm _ _ _ Hms) | exact (Hk a _ _ _ H)].
  - injection H as _ <-. exact (Hm _ _ _ Hms).
Qed.

Lemma quiet_try_except {A} (m : M A) h :
  quiet m -> (forall e, quiet (h e)) -> quiet (try_except m h).
Proof.
  intros Hm Hh s o s' H. unfold try_except in H.
  destruct (m s) as [[[a|e] s1]|] eqn:Hms; [| |discriminate].
  - injection H as _ <-. exact (Hm _ _ _ Hms).
  - destruct (is_Exception e).
    + eapply same_pipe_trans; [exact (Hm _ _ _ Hms) | exact (Hh e _ _ _ H)].
    + injection H as _ <-. exact (Hm _ _ _ Hms).
Qed.

Lemma quiet_interruptible {A} (m : M A) : quiet m -> quiet (interruptible m).
Proof.
  intros Hm s o s' H. unfold interruptible in H.
  destruct (sigint (gym (os s))) as [[|k]|].
  - injection H as _ <-. split; reflexivity.
  - apply Hm in H. exact H.
  - exact (Hm _ _ _ H).
Qed.

Lemma quiet_logger lvl msg e : quiet (logger lvl msg e).
Proof. apply quiet_modify. intros s. split; reflexivity. Qed.

Lemma quiet_subscript d k : quiet (subscript d k).
Proof. unfold subscript. destruct (dict_get d k); [apply quiet_ret | apply quiet_raise]. Qed.

Lemma quiet_payload_subscript p k : quiet (payload_subscript p k).
Proof. destruct p; [apply quiet_subscript | apply quiet_raise]. Qed.

Lemma quiet_get_browser_side : quiet get_browser_side.
Proof.
  intros s o s' H. unfold get_browser_side in H.
  destruct (browser_side (self s)); injection H as _ <-; apply same_pipe_refl.
Qed.

Lemma quiet_get_eval_goal : quiet get_eval_goal.
Proof.
  intros s o s' H. unfold get_eval_goal in H.
  destruct (eval_goal (self s)); injection H as _ <-; apply same_pipe_refl.
Qed.

Lemma quiet_get_goal_image_urls : quiet get_goal_image_urls.
Proof.
  intros s o s' H. unfold get_goal_image_urls in H.
  destruct (goal_image_urls (self s)); injection H as _ <-; apply same_pipe_refl.
Qed.

Lemma quiet_get_eval_rewards : quiet get_eval_rewards.
Proof.
  intros s o s' H. unfold get_eval_rewards in H.
  destruct (eval_rewards (self s)); injection H as _ <-; apply same_pipe_refl.
Qed.

Lemma quiet_env_record c : quiet (env_record c).
Proof. apply quiet_modify. intros s. split; reflexivity. Qed.

Lemma quiet_env_step act : quiet (env_step act).
Proof.
  apply quiet_interruptible, quiet_bind; [apply quiet_gets|]. intros g.
  apply quiet_bind; [apply quiet_env_record|]. intros _.
  destruct (step_result g (env_calls g) act); [apply quiet_ret | apply quiet_raise].
Qed.

Lemma quiet_env_close : quiet env_close.
Proof.
  apply quiet_interruptible, quiet_bind; [apply quiet_env_record|]. intros _.
  apply quiet_bind; [apply quiet_gets|]. intros g.
  destruct (close_raises g); [apply quiet_raise | apply quiet_ret].
Qed.

Lemma quiet_append_eval_reward v : quiet (append_eval_reward v).
Proof.
  apply quiet_bind; [apply quiet_get_eval_rewards|]. intros r.
  apply quiet_modify. intros s. split; reflexivity.
Qed.

Lemma quiet_lib_call r : quiet (lib_call r).
Proof. destruct r as [v|e He]; [apply quiet_ret | apply quiet_raise]. Qed.

Lemma quiet_serialize_obs obs : quiet (serialize_obs obs).
Proof.
  unfold serialize_obs.
  repeat first [ apply quiet_ret
               | apply quiet_gets
               | apply quiet_subscript
               | apply quiet_lib_call
               | apply quiet_bind; [|intros ?]
               | progress cbv zeta ].
Qed.

Lemma quiet_conn_poll c t : quiet (conn_poll c t).
Proof.
  intros s o s' H. unfold conn_poll, bind, check_closed in H.
  destruct (conn_closed c); [injection H as _ <-; apply same_pipe_refl|].
  cbn [ret] in H. cbv zeta in H.
  destruct (inbox (os s)) as [|[a e] rest] eqn:Hin.
  - injection H as _ <-. split; reflexivity.
  - destruct (a <=? now (os s) + Z.max 0 t); injection H as _ <-; split; reflexivity.
Qed.

Lemma one_reply_of_same_pipe e s s' : same_pipe s s' -> one_reply e s s'.
Proof. intros [H1 H2]. split; [exact H1 | left; exact H2]. Qed.

Lemma one_reply_after e s1 s2 s3 :
  same_pipe s1 s2 -> one_reply e s2 s3 -> one_reply e s1 s3.
Proof.
  intros [A1 A2] [B1 B2]. split; [congruence|].
  destruct B2 as [B2 | (r & Hr & B2)]; [left; congruence|].
  right. exists r. split; [exact Hr | congruence].
Qed.

Lemma one_reply_before e s1 s2 s3 :
  one_reply e s1 s2 -> same_pipe s2 s3 -> one_reply e s1 s3.
Proof.
  intros [A1 A2] [B1 B2]. split; [congruence|].
  destruct A2 as [A2 | (r & Hr & A2)]; [left; congruence|].
  right. exists r. split; [exact Hr | congruence].
Qed.

Lemma replies_once_quiet e {A} (m : M A) : quiet m -> replies_once e m.
Proof. intros Hm s o s' H. apply one_reply_of_same_pipe. exact (Hm _ _ _ H). Qed.

Lemma replies_once_bind_l e {A B} (m : M A) (k : A -> M B) :
  quiet m -> (forall a, replies_once e (k a)) -> replies_once e (bind m k).
Proof.
  intros Hm Hk s o s' H. unfold bind in H.
  destruct (m s) as [[[a|ex] s1]|] eqn:Hms; [| |discriminate].
  - eapply one_reply_after; [exact (Hm _ _ _ Hms) | exact (Hk a _ _ _ H)].
  - injection H as _ <-. apply one_reply_of_same_pipe. exact (Hm _ _ _ Hms).
Qed.

Lemma replies_once_bind_r e {A B} (m : M A) (k : A -> M B) :
  replies_once e m -> (forall a, quiet (k a)) -> replies_once e (bind m k).
Proof.
  intros Hm Hk s o s' H. unfold bind in H.
  destruct (m s) as [[[a|ex] s1]|] eqn:Hms; [| |discriminate].
  - eapply one_reply_before; [exact (Hm _ _ _ Hms) | exact (Hk a _ _ _ H)].
  - injection H as _ <-. exact (Hm _ _ _ Hms).
Qed.

(** A reply sends its envelope or nothing. *)
Lemma reply_replies_once e r : answers e r -> replies_once e (reply r).
Proof.
  intros Hans s o s' H. unfold reply, bind, get_browser_side in H.
  destruct (browser_side (self s)) as [c|];
    [|injection H as _ <-; apply one_reply_of_same_pipe, same_pipe_refl].
  unfold interruptible in H.
  assert (Hsend : forall s0, conn_send c r s0 = Some (o, s') -> one_reply e s0 s').
  { intros s0 H0. unfold conn_send, bind, check_closed in H0.
    destruct (conn_closed c);
      [injection H0 as _ <-; apply one_reply_of_same_pipe, same_pipe_refl|].
    cbn in H0. injection H0 as _ <-. split; cbn.
    - apply inbox_deliver.
    - right. exists r. split; [exact Hans | apply outbox_deliver]. }
  destruct (sigint (gym (os s))) as [[|k]|].
  - injection H as _ <-. apply one_reply_of_same_pipe. split; reflexivity.
  - apply Hsend in H. exact H.
  - exact (Hsend _ H).
Qed.

(** Handling a request sends at most one envelope, in answer to it. *)
Lemma handle_replies_once e : replies_once e (handle e).
Proof.
  unfold handle.
  destruct (String.eqb (fst e) SHUTDOWN).
  { apply replies_once_quiet.
    apply quiet_bind; [apply quiet_logger|]. intros _.
    apply quiet_bind; [apply quiet_env_close|]. intros _. apply quiet_ret. }
  destruct (String.eqb (fst e) IS_ALIVE) eqn:Halive.
  { apply String.eqb_eq in Halive.
    apply replies_once_bind_r; [|intros _; apply quiet_ret].
    apply reply_replies_once. right. split; [exact Halive | reflexivity]. }
  apply replies_once_bind_l; [apply quiet_payload_subscript|]. intros action.
  destruct (is_str action BROWSER_EVAL_GET_GOAL_ACTION).
  { apply replies_once_bind_l; [apply quiet_get_eval_goal|]. intros goal.
    apply replies_once_bind_l; [apply quiet_get_goal_image_urls|]. intros urls.
    apply replies_once_bind_r; [|intros _; apply quiet_ret].
    apply reply_replies_once. left. reflexivity. }
  apply replies_once_bind_l; [apply quiet_payload_subscript|]. intros action'.
  destruct (is_str action' BROWSER_EVAL_GET_REWARDS_ACTION).
  { apply replies_once_bind_l; [apply quiet_get_eval_rewards|]. intros rewards.
    apply replies_once_bind_l; [apply quiet_gets|]. intros g.
    apply replies_once_bind_r; [|intros _; apply quiet_ret].
    apply reply_replies_once. left. reflexivity. }
  apply replies_once_bind_l; [apply quiet_payload_subscript|]. intros action''.
  apply replies_once_bind_l; [apply quiet_env_step|]. intros r.
  apply replies_once_bind_l; [apply quiet_gets|]. intros em.
  apply replies_once_bind_l.
  { destruct em; [apply quiet_append_eval_reward | apply quiet_ret]. }
  intros _.
  apply replies_once_bind_l; [apply quiet_serialize_obs|]. intros obs.
  apply replies_once_bind_r; [|intros _; apply quiet_ret].
  apply reply_replies_once. left. reflexivity.
Qed.

(** The handler of [KeyboardInterrupt] neither receives nor sends. *)
Lemma quiet_interrupt_handler :
  quiet (logger DEBUG "Browser env process interrupted by user." None ;;;
         try_except env_close (fun _ => ret tt) ;;;
         ret Return).
Proof.
  apply quiet_bind; [apply quiet_logger|]. intros _.
  apply quiet_bind; [|intros _; apply quiet_ret].
  apply quiet_try_except; [apply quiet_env_close|]. intros _. apply quiet_ret.
Qed.

(** X13: in one turn of the loop the worker takes at most one envelope
    from the pipe and sends at most one; what it sends answers the envelope
    it took: it carries the same id, or it is [(ALIVE, None)] for an
    IS_ALIVE probe.  Nothing is sent when nothing was received.  This holds
    whatever the turn ends in, an exception or an interrupt included. *)
Theorem worker_turn_sends_at_most_one_reply s o s' :
  serve_once s = Some (o, s') ->
  (inbox (os s') = inbox (os s) /\ outbox (os s') = outbox (os s))
  \/ exists a e,
       inbox (os s) = (a, e) :: inbox (os s')
       /\ (outbox (os s') = outbox (os s)
           \/ exists r, answers e r /\ outbox (os s') = outbox (os s) ++ [r]).
Proof.
  intros H. unfold serve_once, try_KeyboardInterrupt in H.
  match type of H with
  | match ?body s with _ => _ end = _ =>
      destruct (body s) as [[ob s1]|] eqn:Hbody; [|discriminate]
  end.
  assert (Hrel : (inbox (os s1) = inbox (os s) /\ outbox (os s1) = outbox (os s))
                 \/ exists a e,
                      inbox (os s) = (a, e) :: inbox (os s1)
                      /\ (outbox (os s1) = outbox (os s)
                          \/ exists r, answers e r
                                       /\ outbox (os s1) = outbox (os s) ++ [r])).
  { clear H. unfold bind in Hbody.
    destruct (get_browser_side s) as [[[c|ex] sa]|] eqn:Hg; [| |discriminate].
    2:{ injection Hbody as _ <-. left. exact (quiet_get_browser_side _ _ _ Hg). }
    pose proof (quiet_get_browser_side _ _ _ Hg) as Pa.
    destruct (interruptible (conn_poll c POLL_INTERVAL) sa) as [[[ready|ex] sb]|] eqn:Hp;
      [| |discriminate].
    2:{ injection Hbody as _ <-. left.
        exact (same_pipe_trans _ _ _ Pa
                 (quiet_interruptible _ (quiet_conn_poll c POLL_INTERVAL) _ _ _ Hp)). }
    pose proof (same_pipe_trans _ _ _ Pa
                  (quiet_interruptible _ (quiet_conn_poll c POLL_INTERVAL) _ _ _ Hp)) as Pb.
    destruct ready; [|injection Hbody as _ <-; left; exact Pb].
    destruct (get_browser_side sb) as [[[c'|ex] sc]|] eqn:Hg'; [| |discriminate].
    2:{ injection Hbody as _ <-. left.
        exact (same_pipe_trans _ _ _ Pb (quiet_get_browser_side _ _ _ Hg')). }
    pose proof (same_pipe_trans _ _ _ Pb (quiet_get_browser_side _ _ _ Hg')) as Pc.
    destruct (interruptible (conn_recv c') sc) as [[[e|ex] sd]|] eqn:Hr;
      [| |discriminate].
    - (* an envelope was received *)
      assert (Hrecv : exists a, inbox (os sc) = (a, e) :: inbox (os sd)
                                /\ outbox (os sd) = outbox (os sc)).
      { unfold interruptible in Hr.
        assert (Hcr : forall s0, conn_recv c' s0 = Some (Ok e, sd) ->
                      exists a, inbox (os s0) = (a, e) :: inbox (os sd)
                                /\ outbox (os sd) = outbox (os s0)).
        { intros s0 H0. unfold conn_recv, bind, check_closed in H0.
          destruct (conn_closed c'); [discriminate|]. cbn [ret] in H0.
          destruct (inbox (os s0)) as [|[a0 e0] rest0] eqn:Hin0; [discriminate|].
          injection H0 as <- <-. exists a0. split; reflexivity. }
        destruct (sigint (gym (os sc))) as [[|k]|]; [discriminate| |exact (Hcr _ Hr)].
        apply Hcr in Hr. exact Hr. }
      destruct Hrecv as (a & Hin & Hout).
      destruct (handle_replies_once e _ _ _ Hbody) as [Hi Ho].
      destruct Pc as [Pc1 Pc2].
      right. exists a, e. split; [congruence|].
      destruct Ho as [Ho | (r & Hr' & Ho)]; [left; congruence|].
      right. exists r. split; [exact Hr' | congruence].
    - (* the receive was interrupted or raised *)
      injection Hbody as _ <-. left.
      assert (Hq : same_pipe sc sd).
      { unfold interruptible in Hr.
        assert (Hcr : forall s0, conn_recv c' s0 = Some (Raise ex, sd) -> same_pipe s0 sd).
        { intros s0 H0. unfold conn_recv, bind, check_closed in H0.
          destruct (conn_closed c');
            [injection H0 as _ <-; apply same_pipe_refl|]. cbn [ret] in H0.
          destruct (inbox (os s0)) as [|[a0 e0] rest0]; discriminate. }
        destruct (sigint (gym (os sc))) as [[|k]|].
        - injection Hr as _ <-. split; reflexivity.
        - apply Hcr in Hr. exact Hr.
        - exact (Hcr _ Hr). }
      exact (same_pipe_trans _ _ _ Pc Hq). }
  assert (Hend : same_pipe s1 s').
  { destruct ob as [flow|ex]; [injection H as _ <-; apply same_pipe_refl|].
    destruct ex; try (injection H as _ <-; apply same_pipe_refl).
    exact (quiet_interrupt_handler _ _ _ H). }
  destruct Hend as [E1 E2].
  destruct Hrel as [[R1 R2] | (a & e & Hin & Ho)].
  - left. split; congruence.
  - right. exists a, e. split; [congruence|].
    destruct Ho as [Ho | (r & Hr & Ho)]; [left; congruence|].
    right. exists r. split; [exact Hr | congruence].
Qed.

Lemma worker_turn_sends_at_most_one_reply_witness :
  exists a e,
    inbox (os (serving_sys
                 [(0, (sample_uuid 0, Some [("action", VStr "GET_EVAL_GOAL")]))]))
      = (a, e) :: inbox (os after_goal_request)
    /\ exists r, answers e r
                 /\ outbox (os after_goal_request) = [] ++ [r].
Proof.
  destruct (worker_turn_sends_at_most_one_reply
              (serving_sys
                 [(0, (sample_uuid 0, Some [("action", VStr "GET_EVAL_GOAL")]))])
              (Ok Continue) after_goal_request)
    as [[H _] | (a & e & Hin & Ho)].
  - vm_compute. reflexivity.
  - vm_compute in H. discriminate H.
  - exists a, e. split; [exact Hin|].
    destruct Ho as [Ho | Ho]; [vm_compute in Ho; discriminate Ho | exact Ho].
Defined.

(** ** [KeyboardInterrupt] inside the [try] statement *)

Lemma tame_ret {A} (a : A) : tame (ret a).
Proof. intros s o s' Hw H. injection H as <- <-. split; [exact Hw | discriminate]. Qed.

Lemma tame_raise {A} e : e <> KeyboardInterrupt -> tame (@raise A e).
Proof.
  intros Hne s o s' Hw H. injection H as <- <-.
  split; [exact Hw | congruence].
Qed.

Lemma tame_gets {A} (f : Sys -> A) : tame (gets f).
Proof. intros s o s' Hw H. injection H as <- <-. split; [exact Hw | discriminate]. Qed.

Lemma tame_modify f :
  (forall s, step_result (gym (os (f s))) = step_result (gym (os s))
             /\ close_raises (gym (os (f s))) = close_raises (gym (os s))) ->
  tame (modify f).
Proof.
  intros Hf s o s' [W1 W2] H. injection H as <- <-.
  destruct (Hf s) as [F1 F2]. split; [|discriminate].
  split; [intros; rewrite F1; apply W1 | intros e; rewrite F2; apply W2].
Qed.

Lemma tame_bind {A B} (m : M A) (k : A -> M B) :
  tame m -> (forall a, tame (k a)) -> tame (bind m k).
Proof.
  intros Hm Hk s o s' Hw H. unfold bind in H.
  destruct (m s) as [[[a|e] s1]|] eqn:Hms; [| |discriminate].
  - destruct (Hm _ _ _ Hw Hms) as [Hw1 _]. exact (Hk a _ _ _ Hw1 H).
  - injection H as <- <-. destruct (Hm _ _ _ Hw Hms) as [Hw1 Hki].
    split; [exact Hw1|]. intros He. apply Hki. congruence.
Qed.

Lemma tame_interruptible {A} (m : M A) : tame m -> tame (interruptible m).
Proof.
  intros Hm s o s' Hw H. unfold interruptible in H.
  destruct (sigint (gym (os s))) as [[|k]|] eqn:Hs.
  - injection H as <- <-. split; [exact Hw | reflexivity].
  - apply Hm in H; [exact H | exact Hw].
  - exact (Hm _ _ _ Hw H).
Qed.

Lemma tame_try_except {A} (m : M A) h :
  tame m -> (forall e, tame (h e)) -> tame (try_except m h).
Proof.
  intros Hm Hh s o s' Hw H. unfold try_except in H.
  destruct (m s) as [[[a|e] s1]|] eqn:Hms; [| |discriminate].
  - injection H as <- <-. exact (Hm _ _ _ Hw Hms).
  - destruct (Hm _ _ _ Hw Hms) as [Hw1 Hk].
    destruct (is_Exception e) eqn:He.
    + exact (Hh e _ _ _ Hw1 H).
    + injection H as <- <-. split; [exact Hw1 | exact Hk].
Qed.

Lemma tame_logger lvl msg e : tame (logger lvl msg e).
Proof. apply tame_modify. intros s. split; reflexivity. Qed.

Lemma tame_subscript d k : tame (subscript d k).
Proof.
  unfold subscript. destruct (dict_get d k);
    [apply tame_ret | apply tame_raise; discriminate].
Qed.

Lemma tame_payload_subscript p k : tame (payload_subscript p k).
Proof. destruct p; [apply tame_subscript | apply tame_raise; discriminate]. Qed.

Lemma tame_get_browser_side : tame get_browser_side.
Proof.
  intros s o s' Hw H. unfold get_browser_side in H.
  destruct (browser_side (self s)); injection H as <- <-;
    (split; [exact Hw | discriminate]).
Qed.

Lemma tame_get_eval_goal : tame get_eval_goal.
Proof.
  intros s o s' Hw H. unfold get_eval_goal in H.
  destruct (eval_goal (self s)); injection H as <- <-;
    (split; [exact Hw | discriminate]).
Qed.

Lemma tame_get_goal_image_urls : tame get_goal_image_urls.
Proof.
  intros s o s' Hw H. unfold get_goal_image_urls in H.
  destruct (goal_image_urls (self s)); injection H as <- <-;
    (split; [exact Hw | discriminate]).
Qed.

Lemma tame_get_eval_rewards : tame get_eval_rewards.
Proof.
  intros s o s' Hw H. unfold get_eval_rewards in H.
  destruct (eval_rewards (self s)); injection H as <- <-;
    (split; [exact Hw | discriminate]).
Qed.

Lemma tame_env_record c : tame (env_record c).
Proof. apply tame_modify. intros s. split; reflexivity. Qed.

Lemma tame_env_step act : tame (env_step act).
Proof.
  apply tame_interruptible. intros s o s' Hw H.
  unfold bind, gets, env_record, modify in H.
  destruct (step_result (gym (os s)) (env_calls (gym (os s))) act) as [r|e] eqn:Hr;
    injection H as <- <-.
  - split; [exact Hw | discriminate].
  - split; [exact Hw|]. intros He. injection He as ->.
    destruct Hw as [W1 _]. exfalso. exact (W1 _ _ Hr).
Qed.

Lemma tame_env_close : tame env_close.
Proof.
  apply tame_interruptible. intros s o s' Hw H.
  unfold bind, gets, env_record, modify in H. cbn in H.
  destruct (close_raises (gym (os s))) as [e|] eqn:Hc; injection H as <- <-.
  - split; [exact Hw|]. intros He. injection He as ->.
    destruct Hw as [_ W2]. specialize (W2 _ Hc). discriminate.
  - split; [exact Hw | discriminate].
Qed.

Lemma tame_append_eval_reward v : tame (append_eval_reward v).
Proof.
  apply tame_bind; [apply tame_get_eval_rewards|]. intros r.
  apply tame_modify. intros s. split; reflexivity.
Qed.

Lemma tame_lib_call r : tame (lib_call r).
Proof. destruct r as [v|e He]; [apply tame_ret | apply tame_raise; intros ->; discriminate He]. Qed.

Lemma tame_serialize_obs obs : tame (serialize_obs obs).
Proof.
  unfold serialize_obs.
  repeat first [ apply tame_ret
               | apply tame_gets
               | apply tame_subscript
               | apply tame_lib_call
               | apply tame_bind; [|intros ?]
               | progress cbv zeta ].
Qed.

Lemma tame_conn_send c e : tame (conn_send c e).
Proof.
  intros s o s' Hw H. unfold conn_send, bind, check_closed in H.
  destruct (conn_closed c);
    [injection H as <- <-; split; [exact Hw | discriminate]|].
  cbn in H. injection H as <- <-. split; [|discriminate].
  destruct Hw as [W1 W2]. split; cbn; rewrite gym_deliver; assumption.
Qed.

Lemma tame_conn_poll c t : tame (conn_poll c t).
Proof.
  intros s o s' Hw H. unfold conn_poll, bind, check_closed in H.
  destruct (conn_closed c);
    [injection H as <- <-; split; [exact Hw | discriminate]|].
  cbn [ret] in H. cbv zeta in H.
  destruct (inbox (os s)) as [|[a e] rest].
  - injection H as <- <-. split; [exact Hw | discriminate].
  - destruct (a <=? now (os s) + Z.max 0 t); injection H as <- <-;
      (split; [exact Hw | discriminate]).
Qed.

Lemma tame_conn_recv c : tame (conn_recv c).
Proof.
  intros s o s' Hw H. unfold conn_recv, bind, check_closed in H.
  destruct (conn_closed c);
    [injection H as <- <-; split; [exact Hw | discriminate]|].
  cbn [ret] in H.
  destruct (inbox (os s)) as [|[a e] rest]; [discriminate|].
  injection H as <- <-. split; [exact Hw | discriminate].
Qed.

Lemma tame_reply e : tame (reply e).
Proof.
  apply tame_bind; [apply tame_get_browser_side|]. intros c.
  apply tame_interruptible, tame_conn_send.
Qed.

Lemma tame_handle e : tame (handle e).
Proof.
  unfold handle.
  repeat first
    [ apply tame_ret
    | apply tame_gets
    | apply tame_logger
    | apply tame_env_close
    | apply tame_env_step
    | apply tame_reply
    | apply tame_payload_subscript
    | apply tame_get_eval_goal
    | apply tame_get_goal_image_urls
    | apply tame_get_eval_rewards
    | apply tame_append_eval_reward
    | apply tame_serialize_obs
    | apply tame_bind; [|intros ?]
    | match goal with |- tame (if ?b then _ else _) => destruct b end
    | progress cbv zeta ].
Qed.

Lemma returns_closed_bind_continue {A} (m : M A) :
  returns_closed (m ;;; ret Continue).
Proof.
  intros s s' H. unfold bind in H.
  destruct (m s) as [[[a|e] s1]|]; discriminate.
Qed.

Lemma returns_closed_bind {A} (m : M A) (k : A -> M Flow) :
  (forall a, returns_closed (k a)) -> returns_closed (bind m k).
Proof.
  intros Hk s s' H. unfold bind in H.
  destruct (m s) as [[[a|e] s1]|]; [exact (Hk a _ _ H) | discriminate | discriminate].
Qed.

Lemma env_close_ok_closed s s' :
  env_close s = Some (Ok tt, s') -> env_closed_last s'.
Proof.
  intros H. unfold env_close, interruptible in H.
  assert (Hin : forall s0,
            (env_record EnvClose ;;;
             g <- gets (fun s => gym (os s)) ;;
             match close_raises g with Some e => raise e | None => ret tt end) s0
            = Some (Ok tt, s') -> env_closed_last s').
  { intros s0 H0. unfold bind, env_record, modify, gets in H0. cbn in H0.
    destruct (close_raises (gym (os s0))); [discriminate|].
    injection H0 as <-. eexists. reflexivity. }
  destruct (sigint (gym (os s))) as [[|k]|]; [discriminate| |exact (Hin _ H)].
  apply Hin in H. exact H.
Qed.

(** A request is handled with [Return] only on SHUTDOWN, after
    [env.close()]. *)
Lemma handle_returns_closed e : returns_closed (handle e).
Proof.
  unfold handle.
  destruct (String.eqb (fst e) SHUTDOWN).
  { intros s s' H. unfold bind at 1 in H.
    destruct (logger DEBUG _ None s) as [[[[]|ex] s1]|]; try discriminate.
    unfold bind in H.
    destruct (env_close s1) as [[[[]|ex] s2]|] eqn:Hc; try discriminate.
    injection H as <-. exact (env_close_ok_closed _ _ Hc). }
  destruct (String.eqb (fst e) IS_ALIVE); [apply returns_closed_bind_continue|].
  apply returns_closed_bind. intros action.
  destruct (is_str action BROWSER_EVAL_GET_GOAL_ACTION).
  { do 2 (apply returns_closed_bind; intros ?). apply returns_closed_bind_continue. }
  apply returns_closed_bind. intros action'.
  destruct (is_str action' BROWSER_EVAL_GET_REWARDS_ACTION).
  { do 2 (apply returns_closed_bind; intros ?). apply returns_closed_bind_continue. }
  do 5 (apply returns_closed_bind; intros ?). apply returns_closed_bind_continue.
Qed.

(** The [try] body of the loop. *)
Lemma tame_serve_body :
  tame (c <- get_browser_side ;;
        ready <- interruptible (conn_poll c POLL_INTERVAL) ;;
        if ready then
          c <- get_browser_side ;;
          e <- interruptible (conn_recv c) ;;
          handle e
        else ret Continue).
Proof.
  apply tame_bind; [apply tame_get_browser_side|]. intros c.
  apply tame_bind; [apply tame_interruptible, tame_conn_poll|]. intros ready.
  destruct ready; [|apply tame_ret].
  apply tame_bind; [apply tame_get_browser_side|]. intros c'.
  apply tame_bind; [apply tame_interruptible, tame_conn_recv|]. intros e.
  apply tame_handle.
Qed.

Lemma serve_body_returns_closed :
  returns_closed (c <- get_browser_side ;;
                  ready <- interruptible (conn_poll c POLL_INTERVAL) ;;
                  if ready then
                    c <- get_browser_side ;;
                    e <- interruptible (conn_recv c) ;;
                    handle e
                  else ret Continue).
Proof.
  apply returns_closed_bind. intros c.
  apply returns_closed_bind. intros ready.
  destruct ready.
  - do 2 (apply returns_closed_bind; intros ?). apply handle_returns_closed.
  - intros s s' H. discriminate.
Qed.

(** X14: with an environment that does not itself raise
    [KeyboardInterrupt], the operator's interrupt (one signal) never leaves
    the [try] statement of the loop as [KeyboardInterrupt], wherever in the
    turn it arrives; and whenever the turn ends the loop (on SHUTDOWN or on
    the interrupt), [env.close()] was the last call made on the
    environment. *)
Theorem interrupt_is_handled_inside_turn s o s' :
  env_well_behaved s ->
  serve_once s = Some (o, s') ->
  o <> Raise KeyboardInterrupt
  /\ (o = Ok Return -> env_closed_last s').
Proof.
  intros Hw H. unfold serve_once, try_KeyboardInterrupt in H.
  match type of H with
  | match ?body s with _ => _ end = _ =>
      destruct (body s) as [[ob s1]|] eqn:Hbody; [|discriminate]
  end.
  destruct (tame_serve_body _ _ _ Hw Hbody) as [Hw1 Hki].
  destruct ob as [flow|ex].
  - injection H as <- <-. split; [discriminate|].
    intros Hret. injection Hret as ->. exact (serve_body_returns_closed _ _ Hbody).
  - destruct (is_Exception ex) eqn:Hex.
    + assert (H' : Some (Raise ex, s1) = Some (o, s')) by (destruct ex; try exact H; discriminate).
      injection H' as <- <-. split; [destruct ex; discriminate | discriminate].
    + destruct ex; try discriminate Hex.
      specialize (Hki eq_refl).
      assert (Hl : logger DEBUG "Browser env process interrupted by user." None s1
                   = Some (Ok tt, logged interrupted_log s1)) by reflexivity.
      rewrite (bind_ok _ _ _ _ _ Hl) in H.
      assert (Hu : undisturbed (logged interrupted_log s1)) by exact Hki.
      assert (Hc : try_except env_close (fun _ => ret tt) (logged interrupted_log s1)
                   = Some (Ok tt, env_closed (logged interrupted_log s1))).
      { unfold try_except. rewrite (env_close_undisturbed _ Hu).
        change (close_raises (gym (os (logged interrupted_log s1))))
          with (close_raises (gym (os s1))).
        destruct (close_raises (gym (os s1))) as [e|] eqn:Hcr; [|reflexivity].
        destruct Hw1 as [_ W2]. rewrite (W2 e Hcr). reflexivity. }
      rewrite (bind_ok _ _ _ _ _ Hc) in H. injection H as <- <-.
      split; [discriminate|]. intros _. eexists. reflexivity.
Qed.

Lemma interrupt_is_handled_inside_turn_witness :
  (Ok Return : Outcome Flow) <> Raise KeyboardInterrupt
  /\ ((Ok Return : Outcome Flow) = Ok Return
      -> env_closed_last after_mid_request_interrupt).
Proof.
  apply (interrupt_is_handled_inside_turn interrupted_mid_request (Ok Return)
           after_mid_request_interrupt).
  - split.
    + intros calls action. vm_compute. discriminate.
    + intros e He. vm_compute in He. discriminate He.
  - vm_compute. reflexivity.
Defined.

(** * Properties of the start-up of the worker *)

(** X15: in open mode a failure of [gym.make] with any [Exception] ends the
    worker with a normal return and one logged error: no request is read,
    nothing is answered, the environment is never used. *)
Theorem open_mode_make_failure_ends_worker s e fuel :
  BROWSERGYM_AVAILABLE (os s) = true ->
  eval_mode (self s) = false ->
  undisturbed s ->
  make_raises (gym (os s)) = Some e ->
  is_Exception e = true ->
  browser_process fuel s = Some (Ok tt, logged (make_failed_log e) s).
Proof.
  intros Ha Hm Hu Hr He.
  unfold browser_process, bind, gets. rewrite Ha. cbn [negb]. rewrite Hm.
  unfold make_open_env, try_except, bind, gym_make.
  rewrite interruptible_undisturbed by exact Hu.
  unfold bind, gets. rewrite Hr. cbn [raise]. rewrite He.
  reflexivity.
Qed.

Lemma open_mode_make_failure_ends_worker_witness :
  browser_process 0 (make_fails (OSError "no display"))
  = Some (Ok tt, logged (make_failed_log (OSError "no display"))
                   (make_fails (OSError "no display"))).
Proof.
  apply open_mode_make_failure_ends_worker; reflexivity.
Defined.
(** The name of the task as the start-up leaves it, and the log line of
    line 101. *)
Lemma make_eval_env_named s name0 :
  browsergym_eval_env (self s) = Some name0 ->
  exists s1,
    make_eval_env s
    = try_ImportError
        (name <- gets (fun s => default "" (browsergym_eval_env (self s))) ;;
         (if contains "visualwebarena" name then task_import
          else if contains "webarena" name then task_import
          else if contains "miniwob" name then task_import
          else raise ValueError) ;;;
         gym_make ;;;
         ret true)
        (fun e =>
           logger ERROR "Failed to import browsergym environment: " (Some e) ;;;
           ret false) s1
    /\ browsergym_eval_env (self s1) = Some (prefixed name0)
    /\ os s1 = os (logged (INFO, "Initializing browser env for web browsing evaluation.", None) s)
    /\ eval_mode (self s1) = eval_mode (self s).
Proof.
  intros Hn. unfold make_eval_env, bind at 1, gets. rewrite Hn.
  unfold bind at 1, logger, modify. unfold prefixed.
  destruct (String.prefix "browsergym/" name0) eqn:Hp; cbn [negb].
  - eexists. split; [reflexivity|]. cbn. rewrite Hn. auto.
  - eexists. split; [reflexivity|]. cbn. auto.
Qed.

(** X16: in evaluation mode only [ImportError] is handled at start-up: any
    other exception of [gym.make] leaves [browser_process] as that
    exception, where open mode would have logged it and returned.  The
    environment has not been used and nothing was read or sent. *)
Theorem eval_mode_make_failure_escapes s name0 e fuel :
  BROWSERGYM_AVAILABLE (os s) = true ->
  eval_mode (self s) = true ->
  browsergym_eval_env (self s) = Some name0 ->
  supported (prefixed name0) = true ->
  import_raises (gym (os s)) = false ->
  undisturbed s ->
  make_raises (gym (os s)) = Some e ->
  e <> ImportError ->
  exists s',
    browser_process fuel s = Some (Raise e, s')
    /\ env_untouched s s' /\ same_pipe s s'.
Proof.
  intros Ha Hm Hn Hs Hi Hu Hr He.
  unfold browser_process, bind at 1, gets. rewrite Ha. cbn [negb].
  unfold bind at 1. rewrite Hm. unfold bind at 1.
  destruct (make_eval_env_named s name0 Hn) as (s1 & -> & Hn1 & Hos & _).
  assert (Hbody :
    (name <- gets (fun s => default "" (browsergym_eval_env (self s))) ;;
     (if contains "visualwebarena" name then task_import
      else if contains "webarena" name then task_import
      else if contains "miniwob" name then task_import
      else raise ValueError) ;;;
     gym_make ;;;
     ret true) s1 = Some (Raise e, s1)).
  { unfold bind at 1, gets. rewrite Hn1. cbn [default from_option id].
    assert (Hti : task_import s1 = Some (Ok tt, s1)).
    { unfold task_import, bind, gets. rewrite Hos. cbn. rewrite Hi. reflexivity. }
    assert (Hgm : gym_make s1 = Some (Raise e, s1)).
    { unfold gym_make. rewrite interruptible_undisturbed
        by (unfold undisturbed; rewrite Hos; exact Hu).
      unfold bind, gets. rewrite Hos. cbn. rewrite Hr. reflexivity. }
    assert (Hrest : (task_import ;;; gym_make ;;; ret true) s1 = Some (Raise e, s1)).
    { rewrite (bind_ok _ _ _ _ _ Hti). unfold bind. rewrite Hgm. reflexivity. }
    unfold supported in Hs.
    destruct (contains "visualwebarena" (prefixed name0)); [exact Hrest|].
    destruct (contains "webarena" (prefixed name0)); [exact Hrest|].
    destruct (contains "miniwob" (prefixed name0)); [exact Hrest|discriminate Hs]. }
  unfold try_ImportError. rewrite Hbody.
  exists s1. split; [destruct e; try reflexivity; congruence|].
  unfold env_untouched, same_pipe. rewrite Hos. cbn. auto.
Qed.

Lemma eval_mode_make_failure_escapes_witness :
  exists s',
    browser_process 0 (eval_make_fails "miniwob.click-test" (OSError "no display"))
    = Some (Raise (OSError "no display"), s')
    /\ env_untouched (eval_make_fails "miniwob.click-test" (OSError "no display")) s'
    /\ same_pipe (eval_make_fails "miniwob.click-test" (OSError "no display")) s'.
Proof.
  apply (eval_mode_make_failure_escapes _ "miniwob.click-test");
    try reflexivity.
  discriminate.
Defined.

(** X17: an evaluation task outside the three benchmark families ends
    [browser_process] with [ValueError], which the handler of
    [ImportError] does not take; the environment has not been used. *)
Theorem unsupported_eval_env_raises_ValueError s name0 fuel :
  BROWSERGYM_AVAILABLE (os s) = true ->
  eval_mode (self s) = true ->
  browsergym_eval_env (self s) = Some name0 ->
  supported (prefixed name0) = false ->
  exists s',
    browser_process fuel s = Some (Raise ValueError, s')
    /\ browsergym_eval_env (self s') = Some (prefixed name0)
    /\ env_untouched s s' /\ same_pipe s s'.
Proof.
  intros Ha Hm Hn Hs.
  unfold browser_process, bind at 1, gets. rewrite Ha. cbn [negb].
  unfold bind at 1. rewrite Hm. unfold bind at 1.
  destruct (make_eval_env_named s name0 Hn) as (s1 & -> & Hn1 & Hos & _).
  unfold try_ImportError, bind at 1, gets. rewrite Hn1. cbn [default from_option id].
  unfold supported in Hs.
  apply orb_false_elim in Hs as [Hs H3]. apply orb_false_elim in Hs as [H1 H2].
  rewrite H1, H2, H3. unfold bind, raise.
  exists s1. split; [reflexivity|]. split; [exact Hn1|].
  unfold env_untouched, same_pipe. rewrite Hos. cbn. auto.
Qed.

Lemma unsupported_eval_env_raises_ValueError_witness :
  exists s',
    browser_process 0 (eval_make_fails "workarena.l1" ImportError)
    = Some (Raise ValueError, s')
    /\ browsergym_eval_env (self s') = Some (prefixed "workarena.l1")
    /\ env_untouched (eval_make_fails "workarena.l1" ImportError) s'
    /\ same_pipe (eval_make_fails "workarena.l1" ImportError) s'.
Proof.
  apply (unsupported_eval_env_raises_ValueError _ "workarena.l1"); reflexivity.
Defined.
(** ** Reading the goal: lines 134 to 153 *)

Lemma env_reset_undisturbed s :
  undisturbed s ->
  env_reset s
  = Some (Ok (reset_obs (gym (os s))),
          on_os (on_gym (fun g => set_env_calls (env_calls g ++ [EnvReset]) g)) s).
Proof.
  intros Hu. unfold env_reset. rewrite interruptible_undisturbed by exact Hu.
  reflexivity.
Qed.

(** The first lines of [read_goal], up to the test of [eval_mode]. *)
Lemma read_goal_reset s :
  undisturbed s ->
  read_goal s
  = ((if eval_mode (self s) then
        goal <- subscript (reset_obs (gym (os s))) "goal" ;;
        set_eval_goal goal ;;;
        (match dict_get (reset_obs (gym (os s))) "goal_object" with
         | Some (VList messages) =>
             (match messages with
              | first :: _ =>
                  text <- value_subscript first "text" ;;
                  set_eval_goal text
              | [] => ret tt
              end) ;;;
             collect_goal_images messages
         | Some _ => raise TypeError
         | None => ret tt
         end) ;;;
        logger DEBUG "Browsing goal: " None
      else ret tt) ;;;
     logger INFO "Browser env started." None) (reset_done s).
Proof.
  intros Hu. unfold read_goal.
  rewrite (bind_ok _ _ _ _ _ (env_reset_undisturbed s Hu)).
  reflexivity.
Qed.

(** X18: in evaluation mode an observation of [env.reset()] without the
    entry [goal] ends the start-up with [KeyError]: the environment has been
    reset and is not closed, and the loop is never entered. *)
Theorem read_goal_without_goal_raises_KeyError s :
  eval_mode (self s) = true ->
  undisturbed s ->
  dict_get (reset_obs (gym (os s))) "goal" = None ->
  read_goal s = Some (Raise (KeyError "goal"), reset_done s).
Proof.
  intros Hm Hu Hg. rewrite (read_goal_reset s Hu). rewrite Hm.
  unfold bind, subscript. rewrite Hg. reflexivity.
Qed.

Lemma read_goal_without_goal_raises_KeyError_witness :
  read_goal (eval_reset_gives [("url", VStr "about:blank")])
  = Some (Raise (KeyError "goal"),
          reset_done (eval_reset_gives [("url", VStr "about:blank")])).
Proof.
  apply read_goal_without_goal_raises_KeyError; reflexivity.
Defined.

(** What the loop over the goal messages leaves alone. *)
Lemma collect_goal_images_frame messages : forall s o s',
  collect_goal_images messages s = Some (o, s') ->
  os s' = os s
  /\ eval_goal (self s') = eval_goal (self s)
  /\ eval_rewards (self s') = eval_rewards (self s)
  /\ eval_mode (self s') = eval_mode (self s).
Proof.
  induction messages as [|message rest IH]; intros s o s' H.
  - injection H as _ <-. auto.
  - cbn [collect_goal_images] in H. unfold bind at 1 in H.
    assert (Hv : forall v k s0 o0 s1,
              value_subscript v k s0 = Some (o0, s1) -> s1 = s0).
    { intros v k s0 o0 s1 H0. destruct v; cbn in H0;
        try (injection H0 as _ <-; reflexivity).
      unfold subscript in H0. destruct (dict_get d k); injection H0 as _ <-; reflexivity. }
    destruct (value_subscript message "type" s) as [[[ty|ex] s1]|] eqn:Hty;
      [| |discriminate].
    2:{ injection H as _ <-. apply Hv in Hty. subst s1. auto. }
    apply Hv in Hty. subst s1.
    unfold bind at 1 in H.
    destruct (is_str ty "image_url").
    + unfold bind at 1 in H.
      destruct (value_subscript message "image_url" s) as [[[src|ex] s1]|] eqn:Hsrc;
        [| |discriminate].
      2:{ injection H as _ <-. apply Hv in Hsrc. subst s1. auto. }
      apply Hv in Hsrc. subst s1.
      unfold bind at 1 in H.
      destruct ((match src with
                 | VDict d => subscript d "url"
                 | _ => ret src
                 end) s) as [[ou s1]|] eqn:Hurl; [|discriminate].
      assert (s1 = s) as ->.
      { destruct src; try (injection Hurl as _ <-; reflexivity).
        unfold subscript in Hurl.
        destruct (dict_get d "url"); injection Hurl as _ <-; reflexivity. }
      destruct ou as [u|ex]; [|injection H as _ <-; auto].
      unfold append_goal_image_url, bind at 1, get_goal_image_urls in H.
      destruct (goal_image_urls (self s)) as [urls|].
      * cbn in H. apply IH in H. cbn in H. exact H.
      * injection H as _ <-. auto.
    + cbn [ret] in H. apply IH in H. exact H.
Qed.

(** X19: the loop over the goal messages appends, in their order, the
    image sources of the messages of type [image_url] to the list it
    found; what was on the list stays in front. *)
Theorem collect_goal_images_appends_sources messages : forall s s' old,
  goal_image_urls (self s) = Some old ->
  collect_goal_images messages s = Some (Ok tt, s') ->
  goal_image_urls (self s') = Some (old ++ flat_map image_source messages).
Proof.
  induction messages as [|message rest IH]; intros s s' old Hold H.
  - injection H as <-. cbn. rewrite app_nil_r. exact Hold.
  - cbn [collect_goal_images] in H. unfold bind at 1 in H.
    destruct message as [ | ? | ? | d | ? ]; cbn [value_subscript raise] in H;
      try discriminate.
    unfold subscript in H. cbn [flat_map image_source].
    destruct (dict_get d "type") as [ty|]; [|discriminate].
    cbn [ret] in H. unfold bind at 1 in H.
    destruct (is_str ty "image_url").
    + assert (Hadd : forall u,
                (append_goal_image_url u ;;; collect_goal_images rest) s
                = Some (Ok tt, s') ->
                goal_image_urls (self s')
                = Some (old ++ [u] ++ flat_map image_source rest)).
      { intros u H0. unfold bind at 1, append_goal_image_url, bind,
          get_goal_image_urls in H0. rewrite Hold in H0. cbn in H0.
        rewrite app_assoc. eapply IH; [|exact H0]. reflexivity. }
      destruct (dict_get d "image_url") as [src|]; [|unfold bind, raise in H; cbv beta iota in H; discriminate H].
      destruct src as [ | ? | ? | u | ? ]; try exact (Hadd _ H).
      unfold bind, ret in H. cbv beta iota in H.
      destruct (dict_get u "url") as [v|]; [|discriminate H].
      exact (Hadd _ H).
    + cbn [ret] in H. cbn [app]. eapply IH; [exact Hold | exact H].
Qed.

Lemma collect_goal_images_appends_sources_witness :
  goal_image_urls
    (self (images_collected sample_goal_object
             (serving_sys [])))
  = Some ([VStr "http://x/1.png"] ++ flat_map image_source sample_goal_object).
Proof.
  apply (collect_goal_images_appends_sources sample_goal_object (serving_sys []));
    vm_compute; reflexivity.
Defined.
(** X20: in evaluation mode, when the observation of [env.reset()] has a
    non-empty [goal_object], the goal on record is the [text] of its first
    message, not the entry [goal]. *)
Theorem goal_object_text_replaces_goal s s' d rest text :
  eval_mode (self s) = true ->
  undisturbed s ->
  dict_get (reset_obs (gym (os s))) "goal_object" = Some (VList (VDict d :: rest)) ->
  dict_get d "text" = Some text ->
  read_goal s = Some (Ok tt, s') ->
  eval_goal (self s') = Some text.
Proof.
  intros Hm Hu Hgo Ht H. rewrite (read_goal_reset s Hu) in H.
  rewrite Hm, Hgo in H. unfold bind at 1 in H.
  match type of H with
  | match ?body ?s0 with _ => _ end = _ =>
      destruct (body s0) as [[[[]|ex] s4]|] eqn:Hbody; [| discriminate | discriminate]
  end.
  injection H as <-. cbn [self on_os logger modify].
  change (eval_goal (self s4) = Some text).
  unfold bind at 1, subscript in Hbody.
  destruct (dict_get (reset_obs (gym (os s))) "goal") as [g0|]; [|discriminate Hbody].
  cbn [ret] in Hbody. unfold bind at 1, set_eval_goal, modify in Hbody.
  unfold bind at 1 in Hbody.
  match type of Hbody with
  | match ?body ?s0 with _ => _ end = _ =>
      destruct (body s0) as [[[[]|ex] s3]|] eqn:Hgoal; [| discriminate | discriminate]
  end.
  injection Hbody as <-. cbn [self on_os].
  unfold bind at 1 in Hgoal. cbn [value_subscript] in Hgoal.
  unfold bind at 1, subscript in Hgoal. rewrite Ht in Hgoal.
  cbn [ret] in Hgoal. unfold set_eval_goal, modify in Hgoal.
  apply collect_goal_images_frame in Hgoal as (_ & Hg & _).
  rewrite Hg. reflexivity.
Qed.

Lemma goal_object_text_replaces_goal_witness :
  eval_goal
    (self (goal_read [("goal", VStr "PLACEHOLDER_GOAL");
                      ("goal_object", VList sample_goal_object)]))
  = Some (VStr "Buy the item shown.").
Proof.
  apply (goal_object_text_replaces_goal
           (eval_reset_gives [("goal", VStr "PLACEHOLDER_GOAL");
                              ("goal_object", VList sample_goal_object)])
           _ [("type", VStr "text"); ("text", VStr "Buy the item shown.")]
           (tl sample_goal_object));
    vm_compute; reflexivity.
Defined.

(** X21: in evaluation mode, when the observation has a [goal] and its
    [goal_object] is absent or empty, the start-up completes with that
    goal on record, no goal image and no reward, after one call on the
    environment. *)
Theorem goal_entry_is_goal_without_goal_object s goal :
  eval_mode (self s) = true ->
  undisturbed s ->
  dict_get (reset_obs (gym (os s))) "goal" = Some goal ->
  dict_get (reset_obs (gym (os s))) "goal_object" = None
  \/ dict_get (reset_obs (gym (os s))) "goal_object" = Some (VList []) ->
  read_goal s = Some (Ok tt, goal_recorded goal s).
Proof.
  intros Hm Hu Hg Hgo. rewrite (read_goal_reset s Hu). rewrite Hm.
  unfold bind at 1. unfold bind at 1. unfold subscript. rewrite Hg.
  destruct Hgo as [-> | ->]; reflexivity.
Qed.

Lemma goal_entry_is_goal_without_goal_object_witness :
  read_goal (eval_reset_gives [("goal", VStr "Click."); ("goal_object", VList [])])
  = Some (Ok tt,
          goal_recorded (VStr "Click.")
            (eval_reset_gives [("goal", VStr "Click."); ("goal_object", VList [])])).
Proof.
  apply goal_entry_is_goal_without_goal_object; try reflexivity.
  right. reflexivity.
Defined.



(** ** The object during a turn *)

Lemma still_ret {A} (a : A) : still (ret a).
Proof. intros s o s' H. injection H as _ <-. reflexivity. Qed.

Lemma still_raise {A} e : still (@raise A e).
Proof. intros s o s' H. injection H as _ <-. reflexivity. Qed.

Lemma still_gets {A} (f : Sys -> A) : still (gets f).
Proof. intros s o s' H. injection H as _ <-. reflexivity. Qed.

Lemma still_modify f : (forall s, self (f s) = self s) -> still (modify f).
Proof. intros Hf s o s' H. injection H as _ <-. apply Hf. Qed.

Lemma still_bind {A B} (m : M A) (k : A -> M B) :
  still m -> (forall a, still (k a)) -> still (bind m k).
Proof.
  intros Hm Hk s o s' H. unfold bind in H.
  destruct (m s) as [[[a|e] s1]|] eqn:Hms; [| |discriminate].
  - rewrite (Hk a _ _ _ H). exact (Hm _ _ _ Hms).
  - injection H as _ <-. exact (Hm _ _ _ Hms).
Qed.

Lemma still_try_except {A} (m : M A) h :
  still m -> (forall e, still (h e)) -> still (try_except m h).
Proof.
  intros Hm Hh s o s' H. unfold try_except in H.
  destruct (m s) as [[[a|e] s1]|] eqn:Hms; [| |discriminate].
  - injection H as _ <-. exact (Hm _ _ _ Hms).
  - destruct (is_Exception e).
    + rewrite (Hh e _ _ _ H). exact (Hm _ _ _ Hms).
    + injection H as _ <-. exact (Hm _ _ _ Hms).
Qed.

Lemma still_interruptible {A} (m : M A) : still m -> still (interruptible m).
Proof.
  intros Hm s o s' H. unfold interruptible in H.
  destruct (sigint (gym (os s))) as [[|k]|].
  - injection H as _ <-. reflexivity.
  - apply Hm in H. exact H.
  - exact (Hm _ _ _ H).
Qed.

Lemma still_logger lvl msg e : still (logger lvl msg e).
Proof. apply still_modify. reflexivity. Qed.

Lemma still_subscript d k : still (subscript d k).
Proof. unfold subscript. destruct (dict_get d k); [apply still_ret | apply still_raise]. Qed.

Lemma still_payload_subscript p k : still (payload_subscript p k).
Proof. destruct p; [apply still_subscript | apply still_raise]. Qed.

Lemma still_get_browser_side : still get_browser_side.
Proof.
  intros s o s' H. unfold get_browser_side in H.
  destruct (browser_side (self s)); injection H as _ <-; reflexivity.
Qed.

Lemma still_get_eval_goal : still get_eval_goal.
Proof.
  intros s o s' H. unfold get_eval_goal in H.
  destruct (eval_goal (self s)); injection H as _ <-; reflexivity.
Qed.

Lemma still_get_goal_image_urls : still get_goal_image_urls.
Proof.
  intros s o s' H. unfold get_goal_image_urls in H.
  destruct (goal_image_urls (self s)); injection H as _ <-; reflexivity.
Qed.

Lemma still_get_eval_rewards : still get_eval_rewards.
Proof.
  intros s o s' H. unfold get_eval_rewards in H.
  destruct (eval_rewards (self s)); injection H as _ <-; reflexivity.
Qed.

Lemma still_env_step act : still (env_step act).
Proof.
  apply still_interruptible, still_bind; [apply still_gets|]. intros g.
  apply still_bind; [apply still_modify; reflexivity|]. intros _.
  destruct (step_result g (env_calls g) act); [apply still_ret | apply still_raise].
Qed.

Lemma still_env_close : still env_close.
Proof.
  apply still_interruptible, still_bind; [apply still_modify; reflexivity|]. intros _.
  apply still_bind; [apply still_gets|]. intros g.
  destruct (close_raises g); [apply still_raise | apply still_ret].
Qed.

Lemma still_lib_call r : still (lib_call r).
Proof. destruct r as [v|e He]; [apply still_ret | apply still_raise]. Qed.

Lemma still_serialize_obs obs : still (serialize_obs obs).
Proof.
  unfold serialize_obs.
  repeat first [ apply still_ret
               | apply still_gets
               | apply still_subscript
               | apply still_lib_call
               | apply still_bind; [|intros ?]
               | progress cbv zeta ].
Qed.

Lemma still_conn_poll c t : still (conn_poll c t).
Proof.
  intros s o s' H. unfold conn_poll, bind, check_closed in H.
  destruct (conn_closed c); [injection H as _ <-; reflexivity|].
  cbn [ret] in H. cbv zeta in H.
  destruct (inbox (os s)) as [|[a e] rest].
  - injection H as _ <-. reflexivity.
  - destruct (a <=? now (os s) + Z.max 0 t); injection H as _ <-; reflexivity.
Qed.

Lemma still_conn_recv c : still (conn_recv c).
Proof.
  intros s o s' H. unfold conn_recv, bind, check_closed in H.
  destruct (conn_closed c); [injection H as _ <-; reflexivity|].
  cbn [ret] in H.
  destruct (inbox (os s)) as [|[a e] rest]; [discriminate|].
  injection H as _ <-. reflexivity.
Qed.

Lemma still_conn_send c e : still (conn_send c e).
Proof.
  intros s o s' H. unfold conn_send, bind, check_closed in H.
  destruct (conn_closed c); [injection H as _ <-; reflexivity|].
  cbn in H. injection H as _ <-. reflexivity.
Qed.

Lemma still_reply e : still (reply e).
Proof.
  apply still_bind; [apply still_get_browser_side|]. intros c.
  apply still_interruptible, still_conn_send.
Qed.

Lemma reward_appended_after s1 s2 s3 :
  self s2 = self s1 -> reward_appended s2 s3 -> reward_appended s1 s3.
Proof. unfold reward_appended. intros ->. exact id. Qed.

Lemma reward_appended_before s1 s2 s3 :
  reward_appended s1 s2 -> self s3 = self s2 -> reward_appended s1 s3.
Proof. unfold reward_appended. intros H ->. exact H. Qed.

Lemma appends_reward_still {A} (m : M A) : still m -> appends_reward m.
Proof. intros Hm s o s' H. left. exact (Hm _ _ _ H). Qed.

Lemma appends_reward_bind_l {A B} (m : M A) (k : A -> M B) :
  still m -> (forall a, appends_reward (k a)) -> appends_reward (bind m k).
Proof.
  intros Hm Hk s o s' H. unfold bind in H.
  destruct (m s) as [[[a|ex] s1]|] eqn:Hms; [| |discriminate].
  - eapply reward_appended_after; [exact (Hm _ _ _ Hms) | exact (Hk a _ _ _ H)].
  - injection H as _ <-. left. exact (Hm _ _ _ Hms).
Qed.

Lemma appends_reward_bind_r {A B} (m : M A) (k : A -> M B) :
  appends_reward m -> (forall a, still (k a)) -> appends_reward (bind m k).
Proof.
  intros Hm Hk s o s' H. unfold bind in H.
  destruct (m s) as [[[a|ex] s1]|] eqn:Hms; [| |discriminate].
  - eapply reward_appended_before; [exact (Hm _ _ _ Hms) | exact (Hk a _ _ _ H)].
  - injection H as _ <-. exact (Hm _ _ _ Hms).
Qed.

(** Lines 194 and 195. *)
Lemma record_reward_appends reward :
  appends_reward
    (em <- gets (fun s => eval_mode (self s)) ;;
     if em then append_eval_reward reward else ret tt).
Proof.
  intros s o s' H. unfold bind at 1, gets in H.
  destruct (eval_mode (self s)) eqn:Hm; [|injection H as _ <-; left; reflexivity].
  unfold append_eval_reward, bind, get_eval_rewards in H.
  destruct (eval_rewards (self s)) as [old|] eqn:Ho;
    [|injection H as _ <-; left; reflexivity].
  injection H as _ <-. right. split; [exact Hm|].
  exists old, reward. split; [exact Ho | reflexivity].
Qed.

Lemma handle_appends_reward e : appends_reward (handle e).
Proof.
  unfold handle.
  destruct (String.eqb (fst e) SHUTDOWN).
  { apply appends_reward_still.
    apply still_bind; [apply still_logger|]. intros _.
    apply still_bind; [apply still_env_close|]. intros _. apply still_ret. }
  destruct (String.eqb (fst e) IS_ALIVE).
  { apply appends_reward_still.
    apply still_bind; [apply still_reply|]. intros _. apply still_ret. }
  apply appends_reward_bind_l; [apply still_payload_subscript|]. intros action.
  destruct (is_str action BROWSER_EVAL_GET_GOAL_ACTION).
  { apply appends_reward_still.
    apply still_bind; [apply still_get_eval_goal|]. intros goal.
    apply still_bind; [apply still_get_goal_image_urls|]. intros urls.
    apply still_bind; [apply still_reply|]. intros _. apply still_ret. }
  apply appends_reward_bind_l; [apply still_payload_subscript|]. intros action'.
  destruct (is_str action' BROWSER_EVAL_GET_REWARDS_ACTION).
  { apply appends_reward_still.
    apply still_bind; [apply still_get_eval_rewards|]. intros rewards.
    apply still_bind; [apply still_gets|]. intros g.
    apply still_bind; [apply still_reply|]. intros _. apply still_ret. }
  apply appends_reward_bind_l; [apply still_payload_subscript|]. intros action''.
  apply appends_reward_bind_l; [apply still_env_step|]. intros r.
  intros s o s' H.
  apply (appends_reward_bind_r
           (em <- gets (fun s => eval_mode (self s)) ;;
            if em then append_eval_reward (snd r) else ret tt)
           (fun _ => obs <- serialize_obs (fst r) ;;
                     reply (fst e, Some obs) ;;; ret Continue)
           (record_reward_appends (snd r))) with (o := o).
  - intros _. apply still_bind; [apply still_serialize_obs|]. intros obs.
    apply still_bind; [apply still_reply|]. intros _. apply still_ret.
  - rewrite <- H. unfold bind.
    destruct (eval_mode (self s)); reflexivity.
Qed.

(** X23: one turn of the loop leaves the object as it was, but for at
    most one reward appended to [eval_rewards], and that only in
    evaluation mode: the goal and the goal images recorded at start-up,
    the mode and the pipe ends are never changed by a request, whatever
    the turn ends in. *)
Theorem worker_turn_only_appends_a_reward s o s' :
  serve_once s = Some (o, s') ->
  self s' = self s
  \/ (eval_mode (self s) = true
      /\ exists old reward,
           eval_rewards (self s) = Some old
           /\ self s'
              = set_eval_state (eval_goal (self s)) (goal_image_urls (self s))
                  (Some (old ++ [reward])) (self s)).
Proof.
  intros H. change (reward_appended s s').
  unfold serve_once, try_KeyboardInterrupt in H.
  match type of H with
  | match ?body s with _ => _ end = _ =>
      destruct (body s) as [[ob s1]|] eqn:Hbody; [|discriminate]
  end.
  assert (Hb : reward_appended s s1).
  { revert Hbody.
    apply (appends_reward_bind_l get_browser_side); [apply still_get_browser_side|].
    intros c.
    apply appends_reward_bind_l;
      [apply still_interruptible, still_conn_poll|].
    intros ready. destruct ready; [|apply appends_reward_still, still_ret].
    apply appends_reward_bind_l; [apply still_get_browser_side|]. intros c'.
    apply appends_reward_bind_l;
      [apply still_interruptible, still_conn_recv|].
    intros e. apply handle_appends_reward. }
  assert (He : self s' = self s1).
  { destruct ob as [flow|ex]; [injection H as _ <-; reflexivity|].
    destruct ex; try (injection H as _ <-; reflexivity).
    revert H.
    apply (still_bind (logger DEBUG "Browser env process interrupted by user." None));
      [apply still_logger|]. intros _.
    apply still_bind; [|intros _; apply still_ret].
    apply still_try_except; [apply still_env_close|]. intros _. apply still_ret. }
  exact (reward_appended_before _ _ _ Hb He).
Qed.

Lemma worker_turn_only_appends_a_reward_witness :
  self after_action_request
  = self (serving_sys [(0, (sample_uuid 0, Some [("action", VStr "noop()")]))])
  \/ (eval_mode
        (self (serving_sys [(0, (sample_uuid 0, Some [("action", VStr "noop()")]))]))
      = true
      /\ exists old reward,
           eval_rewards
             (self (serving_sys
                      [(0, (sample_uuid 0, Some [("action", VStr "noop()")]))]))
           = Some old
           /\ self after_action_request
              = set_eval_state
                  (eval_goal
                     (self (serving_sys
                              [(0, (sample_uuid 0, Some [("action", VStr "noop()")]))])))
                  (goal_image_urls
                     (self (serving_sys
                              [(0, (sample_uuid 0, Some [("action", VStr "noop()")]))])))
                  (Some (old ++ [reward]))
                  (self (serving_sys
                           [(0, (sample_uuid 0, Some [("action", VStr "noop()")]))]))).
Proof.
  apply (worker_turn_only_appends_a_reward _ (Ok Continue)).
  vm_compute. reflexivity.
Defined.
